(** * LLM_Auto_Extract: the extraction normalisation and pipeline layer

    A shallow embedding of [Auto_Fill_In/llm-extraction-system.py]:
    [DataFormatter] (value normalisation), [ExcelProcessor] (row selection
    and write-back), [LlmProcessor._parse_model_output] (reply parsing) and
    [ExtractionSystem.run] (the per-row loop), with the properties the
    specification states about them.

    Conventions.
    - A Python [str] is a [string]: the bytes of its UTF-8 encoding.  The
      character classes the code relies on (whitespace, digit, word
      character, letter case) are those of the ASCII range, where every
      literal the code compares with lives; other characters are carried
      through unchanged.
    - A Python exception is a value of [exn]; a call that may raise returns
      a [result].
    - Library calls (re, datetime.strptime, json.loads, pandas, openpyxl)
      are embedded by the behaviour the code relies on, the exceptions
      they raise included: JSONDecodeError, ValueError and RecursionError
      for [json.loads], ValueError and IllegalCharacterError for a cell
      assignment, ValueError for the truth value of [pd.isna] of a list. *)

From Stdlib Require Import ZArith Ascii String List Bool Lia.
From stdpp Require Import base option list gmap strings.

Open Scope string_scope.
Open Scope list_scope.

(** ** Text *)

Module Text.

Definition code (c : ascii) : N := N_of_ascii c.

Definition in_range (lo hi : N) (c : ascii) : bool :=
  (N.leb lo (code c) && N.leb (code c) hi)%bool.

(** [str.isspace] on one character: TAB..CR, FS..US and the space. *)
Definition is_space (c : ascii) : bool :=
  (in_range 9 13 c || in_range 28 32 c)%bool.

(** [0-9] *)
Definition is_digit (c : ascii) : bool := in_range 48 57 c.

Definition is_upper (c : ascii) : bool := in_range 65 90 c.
Definition is_lower (c : ascii) : bool := in_range 97 122 c.
Definition is_alpha (c : ascii) : bool := (is_upper c || is_lower c)%bool.

(** The class [\w]: letters, digits and the underscore. *)
Definition is_word (c : ascii) : bool :=
  (is_alpha c || is_digit c || Ascii.eqb c "_")%bool.

Definition lower_char (c : ascii) : ascii :=
  if is_upper c then ascii_of_N (code c + 32) else c.

(** [str.lower] *)
Fixpoint lower (s : string) : string :=
  match s with
  | EmptyString => EmptyString
  | String c s' => String (lower_char c) (lower s')
  end.

Fixpoint lstrip (s : string) : string :=
  match s with
  | EmptyString => EmptyString
  | String c s' => if is_space c then lstrip s' else s
  end.

Fixpoint rstrip (s : string) : string :=
  match s with
  | EmptyString => EmptyString
  | String c s' =>
      match rstrip s' with
      | EmptyString => if is_space c then EmptyString else String c EmptyString
      | r => String c r
      end
  end.

(** [str.strip] without argument *)
Definition strip (s : string) : string := lstrip (rstrip s).

Fixpoint all_chars (p : ascii -> bool) (s : string) : bool :=
  match s with
  | EmptyString => true
  | String c s' => (p c && all_chars p s')%bool
  end.

Definition nonempty (s : string) : bool :=
  match s with EmptyString => false | _ => true end.

(** [str.isdigit]: at least one character and all of them digits. *)
Definition isdigit (s : string) : bool := (nonempty s && all_chars is_digit s)%bool.

(** [x in [a, b, ...]] over strings *)
Definition mem (x : string) (l : list string) : bool :=
  existsb (String.eqb x) l.

(** [s[:n]] *)
Fixpoint take (n : nat) (s : string) : string :=
  match n, s with
  | S n', String c s' => String c (take n' s')
  | _, _ => EmptyString
  end.

(** [s[n:]] *)
Fixpoint drop (n : nat) (s : string) : string :=
  match n, s with
  | S n', String _ s' => drop n' s'
  | _, _ => s
  end.

(** [s.find(c)]: index of the first occurrence, [None] for Python's -1. *)
Fixpoint find (c : ascii) (s : string) : option nat :=
  match s with
  | EmptyString => None
  | String x s' => if Ascii.eqb x c then Some 0 else S <$> find c s'
  end.

(** [s.rfind(c)]: index of the last occurrence, [None] for Python's -1. *)
Fixpoint rfind (c : ascii) (s : string) : option nat :=
  match s with
  | EmptyString => None
  | String x s' =>
      match rfind c s' with
      | Some i => Some (S i)
      | None => if Ascii.eqb x c then Some 0 else None
      end
  end.

(** Decimal rendering of a number, as [str(int)] prints it. *)
Definition digit_char (d : N) : ascii := ascii_of_N (48 + d).

Fixpoint N_digits (fuel : nat) (n : N) (acc : string) : string :=
  match fuel with
  | O => acc
  | S fuel' =>
      let acc' := String (digit_char (n mod 10)) acc in
      if (n <? 10)%N then acc' else N_digits fuel' (n / 10) acc'
  end.

Definition of_N (n : N) : string := N_digits (S (N.size_nat n)) n EmptyString.

Definition of_nat (n : nat) : string := of_N (N.of_nat n).

Definition of_Z (z : Z) : string :=
  if (z <? 0)%Z then String "-" (of_N (Z.to_N (- z))) else of_N (Z.to_N z).

(** [int(s)] on a string of digits *)
Fixpoint digits_value (s : string) (acc : N) : N :=
  match s with
  | EmptyString => acc
  | String c s' => digits_value s' (10 * acc + (code c - 48))
  end.

Definition to_N (s : string) : N := digits_value s 0.

Definition to_nat (s : string) : nat := N.to_nat (to_N s).

Fixpoint prefix (p s : string) : bool :=
  match p, s with
  | EmptyString, _ => true
  | String a p', String b s' => (Ascii.eqb a b && prefix p' s')%bool
  | _, _ => false
  end.

(** [p in s] over strings: [p] occurs somewhere in [s]. *)
Fixpoint contains (p s : string) : bool :=
  (prefix p s ||
   match s with
   | EmptyString => false
   | String _ s' => contains p s'
   end)%bool.

(** [s.endswith(p)] *)
Definition endswith (p s : string) : bool :=
  String.eqb (drop (String.length s - String.length p) s) p.

(** [s.find(c)] and [s.rfind(c)] as Python returns them: -1 when absent. *)
Definition find_Z (c : ascii) (s : string) : Z :=
  match find c s with Some i => Z.of_nat i | None => (-1)%Z end.

Definition rfind_Z (c : ascii) (s : string) : Z :=
  match rfind c s with Some i => Z.of_nat i | None => (-1)%Z end.

(** [s[a:b]] for indices that are not negative *)
Definition slice (a b : Z) (s : string) : string :=
  take (Z.to_nat b - Z.to_nat a) (drop (Z.to_nat a) s).

(** Left padding with zeros up to [w] characters ([%02d], [%04d]). *)
Definition zfill (w : nat) (s : string) : string :=
  String.append (String.concat "" (repeat "0" (w - String.length s))) s.

End Text.

(** ** Regular expressions

  The fragment of Python's [re] the code uses, with its backtracking
  semantics: alternatives are tried left to right, quantifiers are greedy
  and give characters back one at a time, and the first way of matching
  the whole pattern wins.  Quantifiers range over character classes only,
  as they do in every pattern of the program. *)

Module Re.

Inductive re : Type :=
| Eps
| Chr (c : ascii)                        (* a literal character *)
| ChrI (c : ascii)                       (* a literal under re.IGNORECASE *)
| Cls (p : ascii -> bool)                (* a class: \d, \w, \s, [...] *)
| Seq (r1 r2 : re)
| Alt (r1 r2 : re)                       (* r1|r2 *)
| Opt (r : re)                           (* r? *)
| Rep (p : ascii -> bool) (lo : nat) (hi : option nat)   (* p{lo,hi}, p+, p* *)
| Grp (i : nat) (r : re)                 (* capturing group number i *)
| Bol                                    (* ^ *)
| Eol                                    (* $ *)
| Wb.                                    (* \b *)

(** Captured groups, most recent first. *)
Definition caps := list (nat * string).

Fixpoint group (i : nat) (cs : caps) : option string :=
  match cs with
  | [] => None
  | (j, s) :: cs' => if Nat.eqb i j then Some s else group i cs'
  end.

(** A position in the subject: the character before it and what remains. *)
Definition pos : Type := option ascii * string.

Definition word_before (p : pos) : bool :=
  match fst p with Some c => Text.is_word c | None => false end.

Definition word_after (p : pos) : bool :=
  match snd p with String c _ => Text.is_word c | EmptyString => false end.

Section Match.
Context {R : Type}.

(** Greedy repetition of a class: take as many characters as allowed,
    then give them back one by one until the continuation succeeds. *)
Fixpoint rep (p : ascii -> bool) (lo fuel : nat) (at_ : pos)
    (k : pos -> option R) : option R :=
  let stop := if Nat.eqb lo 0 then k at_ else None in
  match fuel with
  | O => stop
  | S fuel' =>
      match snd at_ with
      | String c s' =>
          if p c then
            match rep p (Nat.pred lo) fuel' (Some c, s') k with
            | Some r => Some r
            | None => stop
            end
          else stop
      | EmptyString => stop
      end
  end.

Fixpoint run (r : re) (at_ : pos) (cs : caps)
    (k : pos -> caps -> option R) : option R :=
  match r with
  | Eps => k at_ cs
  | Chr c =>
      match snd at_ with
      | String x s' => if Ascii.eqb x c then k (Some x, s') cs else None
      | EmptyString => None
      end
  | ChrI c =>
      match snd at_ with
      | String x s' =>
          if Ascii.eqb (Text.lower_char x) (Text.lower_char c)
          then k (Some x, s') cs else None
      | EmptyString => None
      end
  | Cls p =>
      match snd at_ with
      | String x s' => if p x then k (Some x, s') cs else None
      | EmptyString => None
      end
  | Seq r1 r2 => run r1 at_ cs (fun at' cs' => run r2 at' cs' k)
  | Alt r1 r2 =>
      match run r1 at_ cs k with
      | Some x => Some x
      | None => run r2 at_ cs k
      end
  | Opt r1 =>
      match run r1 at_ cs k with
      | Some x => Some x
      | None => k at_ cs
      end
  | Rep p lo hi =>
      let fuel := match hi with
                  | Some h => h
                  | None => String.length (snd at_)
                  end in
      rep p lo fuel at_ (fun at' => k at' cs)
  | Grp i r1 =>
      run r1 at_ cs (fun at' cs' =>
        let n := String.length (snd at_) - String.length (snd at') in
        k at' ((i, Text.take n (snd at_)) :: cs'))
  | Bol => match fst at_ with None => k at_ cs | Some _ => None end
  | Eol =>
      match snd at_ with
      | EmptyString => k at_ cs
      | String c EmptyString => if Ascii.eqb c "010" then k at_ cs else None
      | _ => None
      end
  | Wb => if xorb (word_before at_) (word_after at_) then k at_ cs else None
  end.
End Match.

(** [re.match(r, s)]: a match starting at the beginning of [s]; the result
    is what is left of [s] after the match, and the groups. *)
Definition match_ (r : re) (s : string) : option (string * caps) :=
  run r (None, s) [] (fun at' cs => Some (snd at', cs)).

(** [re.search(r, s)] for a pattern without anchors: the leftmost start
    from which the pattern matches. *)
Fixpoint search_from (r : re) (prev : option ascii) (s : string) : option (string * caps) :=
  match run r (prev, s) [] (fun at' cs => Some (snd at', cs)) with
  | Some m => Some m
  | None =>
      match s with
      | EmptyString => None
      | String c s' => search_from r (Some c) s'
      end
  end.

Definition search (r : re) (s : string) : option (string * caps) :=
  search_from r None s.

(** A string as the sequence of its characters. *)
Fixpoint lit (s : string) : re :=
  match s with
  | EmptyString => Eps
  | String c s' => Seq (Chr c) (lit s')
  end.

Fixpoint litI (s : string) : re :=
  match s with
  | EmptyString => Eps
  | String c s' => Seq (ChrI c) (litI s')
  end.

Fixpoint seq (rs : list re) : re :=
  match rs with
  | [] => Eps
  | r :: rs' => Seq r (seq rs')
  end.

(** [a|b|c]; the empty alternation matches nothing. *)
Fixpoint alt (rs : list re) : re :=
  match rs with
  | [] => Cls (fun _ => false)
  | [r] => r
  | r :: rs' => Alt r (alt rs')
  end.

Definition plus (p : ascii -> bool) : re := Rep p 1 None.
Definition star (p : ascii -> bool) : re := Rep p 0 None.
Definition times (p : ascii -> bool) (n : nat) : re := Rep p n (Some n).

(** A character set written as in [[...]]. *)
Definition one_of (s : string) (c : ascii) : bool :=
  existsb (Ascii.eqb c) (list_ascii_of_string s).

End Re.

(** ** Python values *)

Module Py.

(** An exception: its class and the text [str(e)] gives. *)
Record exn := Exn { exn_type : string; exn_text : string }.

Inductive result (A : Type) : Type :=
| Ok (a : A)
| Raise (e : exn).
Arguments Ok {A} a.
Arguments Raise {A} e.

(** Sequencing: the first exception raised ends the computation. *)
#[export] Instance result_ret : MRet result := fun A a => Ok a.
#[export] Instance result_bind : MBind result := fun A B f r =>
  match r with
  | Ok a => f a
  | Raise e => Raise e
  end.

(** What a decoder gives: the value, the error of a text that is not what
    it decodes ([Malformed]: for [json.loads], JSONDecodeError), or another
    exception it raised. *)
Inductive decoded (A : Type) : Type :=
| Decoded (a : A)
| Malformed
| Thrown (e : exn).
Arguments Decoded {A} a.
Arguments Malformed {A}.
Arguments Thrown {A} e.

#[export] Instance decoded_ret : MRet decoded := fun A a => Decoded a.
#[export] Instance decoded_bind : MBind decoded := fun A B f r =>
  match r with
  | Decoded a => f a
  | Malformed => Malformed
  | Thrown e => Thrown e
  end.

(** A parse that can only fail as malformed. *)
Definition parsed {A} (o : option A) : decoded A :=
  match o with
  | Some a => Decoded a
  | None => Malformed
  end.

(** A float, by what the code observes of it: whether it is NaN, whether
    it is zero (its truth value) and the text [str] prints. *)
Record pyfloat := Float { f_nan : bool; f_zero : bool; f_str : string }.

(** The scalars a spreadsheet cell or a field of a flat JSON object holds. *)
Inductive scalar : Type :=
| SNone
| SBool (b : bool)
| SInt (z : Z)
| SFloat (f : pyfloat)
| SStr (s : string).

(** A decoded JSON document; a dict keeps its keys in insertion order. *)
#[warnings="-register-all"]
Inductive pyval : Type :=
| PScalar (v : scalar)
| PList (l : list pyval)
| PDict (d : list (string * pyval)).

(** [type(v).__name__] *)
Definition type_name (v : pyval) : string :=
  match v with
  | PScalar SNone => "NoneType"
  | PScalar (SBool _) => "bool"
  | PScalar (SInt _) => "int"
  | PScalar (SFloat _) => "float"
  | PScalar (SStr _) => "str"
  | PList _ => "list"
  | PDict _ => "dict"
  end.

(** The AttributeError of a method the value does not have. *)
Definition no_attribute (v : pyval) (name : string) : exn :=
  Exn "AttributeError"
      ("'" +:+ type_name v +:+ "' object has no attribute '" +:+ name +:+ "'").

(** [bool(v)] *)
Definition truthy (v : scalar) : bool :=
  match v with
  | SNone => false
  | SBool b => b
  | SInt z => negb (z =? 0)%Z
  | SFloat f => negb (f_zero f)
  | SStr s => Text.nonempty s
  end.

(** [pd.isna(v)] on a scalar: [None] and NaN. *)
Definition isna (v : scalar) : bool :=
  match v with
  | SNone => true
  | SFloat f => f_nan f
  | _ => false
  end.

(** [str(v)] *)
Definition str (v : scalar) : string :=
  match v with
  | SNone => "None"
  | SBool true => "True"
  | SBool false => "False"
  | SInt z => Text.of_Z z
  | SFloat f => f_str f
  | SStr s => s
  end.

(** [isinstance(v, str)] *)
Definition is_str (v : scalar) : bool :=
  match v with SStr _ => true | _ => false end.

(** [v == ""] *)
Definition eq_empty (v : scalar) : bool :=
  match v with SStr EmptyString => true | _ => false end.

(** [d[k] = v] on a dict: an existing key keeps its place. *)
Fixpoint dict_set {A} (k : string) (v : A) (d : list (string * A)) : list (string * A) :=
  match d with
  | [] => [(k, v)]
  | (k', v') :: d' => if String.eqb k k' then (k, v) :: d' else (k', v') :: dict_set k v d'
  end.

Fixpoint dict_get {A} (k : string) (d : list (string * A)) : option A :=
  match d with
  | [] => None
  | (k', v') :: d' => if String.eqb k k' then Some v' else dict_get k d'
  end.

End Py.

Import Py.

(** ** datetime.strptime and strftime

    [datetime.strptime(data, format)] turns the format into a regular
    expression (one named group per directive, any run of whitespace into
    [\s+], everything else literal, the whole under re.IGNORECASE), matches
    it at the start of the data, raises ValueError when nothing matches or
    when data remains after the match, and builds the date from the groups,
    which raises ValueError for a date that does not exist.  [None] stands
    for that ValueError.  Month names are the English ones. *)

Module Strptime.
Import Re.

Definition month_names : list string :=
  ["january"; "february"; "march"; "april"; "may"; "june"; "july";
   "august"; "september"; "october"; "november"; "december"].

Definition month_abbrs : list string :=
  ["jan"; "feb"; "mar"; "apr"; "may"; "jun"; "jul"; "aug"; "sep"; "oct";
   "nov"; "dec"].

(** The alternatives of a name group are ordered longest first; names of
    one length keep their calendar order. *)
Definition by_length_desc (names : list string) : list string :=
  flat_map (fun n => List.filter (fun s => Nat.eqb (String.length s) n) names)
           (rev (List.seq 0 10)).

Definition g_d := 1.
Definition g_m := 2.
Definition g_Y := 3.
Definition g_y := 4.
Definition g_B := 5.
Definition g_b := 6.

Definition d19 (c : ascii) : bool := Text.in_range 49 57 c.

(** The regular expression of one directive. *)
Definition directive (d : ascii) : re :=
  if Ascii.eqb d "d" then
    (* 3[0-1]|[1-2]\d|0[1-9]|[1-9]| [1-9] *)
    Grp g_d (alt [Seq (Chr "3") (Cls (Text.in_range 48 49));
                  Seq (Cls (Text.in_range 49 50)) (Cls Text.is_digit);
                  Seq (Chr "0") (Cls d19);
                  Cls d19;
                  Seq (Chr " ") (Cls d19)])
  else if Ascii.eqb d "m" then
    (* 1[0-2]|0[1-9]|[1-9] *)
    Grp g_m (alt [Seq (Chr "1") (Cls (Text.in_range 48 50));
                  Seq (Chr "0") (Cls d19);
                  Cls d19])
  else if Ascii.eqb d "Y" then Grp g_Y (times Text.is_digit 4)
  else if Ascii.eqb d "y" then Grp g_y (times Text.is_digit 2)
  else if Ascii.eqb d "B" then Grp g_B (alt (map litI (by_length_desc month_names)))
  else if Ascii.eqb d "b" then Grp g_b (alt (map litI (by_length_desc month_abbrs)))
  else alt [].

(** The regular expression of a format. *)
Fixpoint pattern (fmt : string) : re :=
  match fmt with
  | EmptyString => Eps
  | String c rest =>
      if Ascii.eqb c "%" then
        match rest with
        | String d rest' => Seq (directive d) (pattern rest')
        | EmptyString => alt []
        end
      else if Text.is_space c then
        match rest with
        | String c' _ => if Text.is_space c' then pattern rest
                         else Seq (plus Text.is_space) (pattern rest)
        | EmptyString => plus Text.is_space
        end
      else Seq (ChrI c) (pattern rest)
  end.

Fixpoint index_of (x : string) (l : list string) : option nat :=
  match l with
  | [] => None
  | y :: l' => if String.eqb x y then Some 0 else S <$> index_of x l'
  end.

Definition int (s : string) : nat := Text.to_nat (Text.strip s).

(** The year: [%Y] as written; [%y] in 1969..2068; 1900 when absent. *)
Definition year_of (cs : caps) : nat :=
  match group g_Y cs, group g_y cs with
  | Some y, _ => int y
  | None, Some y => if Nat.leb (int y) 68 then int y + 2000 else int y + 1900
  | None, None => 1900
  end.

Definition month_of (cs : caps) : nat :=
  match group g_m cs, group g_B cs, group g_b cs with
  | Some m, _, _ => int m
  | None, Some n, _ => default 0 (S <$> index_of (Text.lower n) month_names)
  | None, None, Some n => default 0 (S <$> index_of (Text.lower n) month_abbrs)
  | None, None, None => 1
  end.

Definition day_of (cs : caps) : nat :=
  match group g_d cs with
  | Some d => int d
  | None => 1
  end.

Definition is_leap (y : nat) : bool :=
  ((y mod 4 =? 0) && (negb (y mod 100 =? 0) || (y mod 400 =? 0)))%bool%nat.

Definition days_in_month (y m : nat) : nat :=
  match m with
  | 2 => if is_leap y then 29 else 28
  | 4 | 6 | 9 | 11 => 30
  | _ => 31
  end.

(** A date the [datetime] constructor accepts. *)
#[warnings="-abstract-large-number"]
Definition valid_date (y m d : nat) : bool :=
  ((1 <=? y) && (y <=? 9999) && (1 <=? m) && (m <=? 12) &&
   (1 <=? d) && (d <=? days_in_month y m))%bool%nat.

Record date := Date { year : nat; month : nat; day : nat }.

Definition strptime (data fmt : string) : option date :=
  match match_ (pattern fmt) data with
  | Some (EmptyString, cs) =>
      let y := year_of cs in
      let m := month_of cs in
      let d := day_of cs in
      if valid_date y m d then Some (Date y m d) else None
  | _ => None
  end.

(** [strftime('%Y-%m-%d')].  The C library renders a year below 1000 with
    or without leading zeros, depending on the platform: [pad_year] says
    which. *)
Definition strftime (pad_year : bool) (t : date) : string :=
  (if pad_year then Text.zfill 4 (Text.of_nat (year t)) else Text.of_nat (year t))
  +:+ "-" +:+ Text.zfill 2 (Text.of_nat (month t))
  +:+ "-" +:+ Text.zfill 2 (Text.of_nat (day t)).

End Strptime.

(** ** DataFormatter *)

Module DataFormatter.
Import Re Strptime.

Section Formatter.

(** [datetime.now().year], and whether the platform pads a year below 1000. *)
Variable this_year : nat.
Variable pad_year : bool.

Definition date_formats : list string :=
  [ "%Y-%m-%d";
    "%d %B %Y"; "%d %b %Y"; "%B %d, %Y"; "%b %d, %Y";
    "%d.%m.%Y"; "%d/%m/%Y"; "%m/%d/%Y"; "%Y/%m/%d";
    "%d %B, %Y"; "%d %b, %Y"; "%d.%B.%Y"; "%d.%b.%Y";
    "%d %B"; "%d %b"; "%B %d"; "%b %d";
    "%dth of %B, %Y"; "%dth of %B %Y"; "%dst of %B %Y"; "%dnd of %B %Y"; "%drd of %B %Y";
    "%dth of %b, %Y"; "%dth of %b %Y"; "%dst of %b %Y"; "%dnd of %b %Y"; "%drd of %b %Y";
    "%d.%m.%y"; "%d/%m/%y"; "%m/%d/%y"; "%y/%m/%d" ].

(** [(\d+)(?:st|nd|rd|th) of (\w+),? (\d{4})] *)
Definition special_format : re :=
  seq [Grp 1 (plus Text.is_digit);
       alt [lit "st"; lit "nd"; lit "rd"; lit "th"];
       lit " of "; Grp 2 (plus Text.is_word); Opt (Chr ","); Chr " ";
       Grp 3 (times Text.is_digit 4)].

(** [(\d+)\.(\w+)\.(\d{4})] *)
Definition dot_format : re :=
  seq [Grp 1 (plus Text.is_digit); Chr "."; Grp 2 (plus Text.is_word); Chr ".";
       Grp 3 (times Text.is_digit 4)].

(** [(\d+) (\w+), (\d{4})] *)
Definition comma_format : re :=
  seq [Grp 1 (plus Text.is_digit); Chr " "; Grp 2 (plus Text.is_word); lit ", ";
       Grp 3 (times Text.is_digit 4)].

(** [(\w+) (\d+) (\w+) (\d{4})] *)
Definition weekday_pattern : re :=
  seq [Grp 1 (plus Text.is_word); Chr " "; Grp 2 (plus Text.is_digit); Chr " ";
       Grp 3 (plus Text.is_word); Chr " "; Grp 4 (times Text.is_digit 4)].

(** The text of three groups as "day month year". *)
Definition day_month_year (d m y : nat) (cs : caps) : option string :=
  match group d cs, group m cs, group y cs with
  | Some day, Some month, Some year => Some (day +:+ " " +:+ month +:+ " " +:+ year)
  | _, _, _ => None
  end.

(** One of the three rewrites: when the pattern matches at the start of
    [date_str], the string becomes "day month year". *)
Definition rewrite (r : re) (date_str : string) : string :=
  match match_ r date_str with
  | Some (_, cs) => default date_str (day_month_year 1 2 3 cs)
  | None => date_str
  end.

Definition has_year (fmt : string) : bool :=
  (Text.contains "%Y" fmt || Text.contains "%y" fmt)%bool.

(** The loop over [date_formats]: the first format that parses wins. *)
Fixpoint try_formats (date_str : string) (formats : list string) : option string :=
  match formats with
  | [] => None
  | fmt :: rest =>
      match strptime date_str fmt with
      | Some date_obj =>
          let date_obj :=
            if has_year fmt then date_obj
            else Date this_year (month date_obj) (day date_obj) in
          Some (strftime pad_year date_obj)
      | None => try_formats date_str rest
      end
  end.

(** The inner loop of the weekday fallback. *)
Fixpoint try_plain (temp_str : string) (formats : list string) : option string :=
  match formats with
  | [] => None
  | fmt :: rest =>
      match strptime temp_str fmt with
      | Some date_obj => Some (strftime pad_year date_obj)
      | None => try_plain temp_str rest
      end
  end.

Definition weekday_fallback (date_str : string) : option string :=
  match search weekday_pattern date_str with
  | Some (_, cs) =>
      match day_month_year 2 3 4 cs with
      | Some temp_str => try_plain temp_str ["%d %B %Y"; "%d %b %Y"]
      | None => None
      end
  | None => None
  end.

Definition rewritten (date_str : string) : string :=
  rewrite comma_format (rewrite dot_format (rewrite special_format date_str)).

Definition format_date (date_str : scalar) : string :=
  if (negb (truthy date_str) || isna date_str)%bool then ""
  else
    let date_str := rewritten (Text.strip (str date_str)) in
    match try_formats date_str date_formats with
    | Some r => r
    | None =>
        match weekday_fallback date_str with
        | Some r => r
        | None => date_str
        end
    end.

(** [^\d+$] *)
Definition digits_only : re := seq [Bol; plus Text.is_digit; Eol].

Definition normalize_value (value : scalar) : string :=
  if (isna value || eq_empty value)%bool then ""
  else
    let value_str := Text.lower (Text.strip (str value)) in
    if Text.mem value_str ["yes"; "y"; "true"; "1"] then "1"
    else if Text.mem value_str ["no"; "n"; "false"; "0"] then ""
    else if (Text.nonempty value_str && negb (String.eqb value_str "nan"))%bool then
      if bool_decide (is_Some (match_ digits_only value_str)) then value_str else "1"
    else "".

Definition category_fields : list string :=
  ["Master Student"; "Doctoral Student"; "PostDoc"; "Research Assistant";
   "Competition"; "Summer School"; "Conference"; "Workshop";
   "Physical_Geo"; "Human_Geo"; "Urban"; "GIS"; "RS"; "GNSS"].

Definition date_fields : list string := ["Deadline"].
Definition number_fields : list string := ["Number_Places"].
Definition translation_fields : list string := ["University_CN"; "Country_CN"].
Definition control_fields : list string := ["Notes"; "Source"; "Verifier"; "Error"].

Definition english_to_number : list (string * string) :=
  [("zero", "0"); ("one", "1"); ("two", "2"); ("three", "3"); ("four", "4");
   ("five", "5"); ("six", "6"); ("seven", "7"); ("eight", "8"); ("nine", "9");
   ("ten", "10"); ("eleven", "11"); ("twelve", "12"); ("thirteen", "13");
   ("fourteen", "14"); ("fifteen", "15"); ("sixteen", "16");
   ("seventeen", "17"); ("eighteen", "18"); ("nineteen", "19");
   ("twenty", "20"); ("thirty", "30"); ("forty", "40"); ("fifty", "50");
   ("sixty", "60"); ("seventy", "70"); ("eighty", "80"); ("ninety", "90")].

(** The [number_fields] branch of [process_results]. *)
Definition number_value (value : scalar) : string :=
  if (truthy value && Text.isdigit (Text.strip (str value)))%bool then
    Text.strip (str value)
  else if (truthy value && is_str value)%bool then
    let value_lower := Text.lower (Text.strip (str value)) in
    match dict_get value_lower english_to_number with
    | Some n => n
    | None => Text.strip (str value)
    end
  else "".

(** The text branches of [process_results]. *)
Definition text_value (value : scalar) : string :=
  if (truthy value && negb (isna value))%bool then Text.strip (str value) else "".

(** The key's branch of the loop body, on a scalar. *)
Definition process_scalar (text_fields : list string) (key : string) (value : scalar) : string :=
  if Text.mem key date_fields then format_date value
  else if Text.mem key category_fields then normalize_value value
  else if Text.mem key number_fields then number_value value
  else if (Text.mem key text_fields || Text.mem key translation_fields)%bool then text_value value
  else text_value value.

(** A list of two or more items none of which is a list: [pd.isna] makes
    of it an array of as many booleans. *)
Definition is_row_of_items (value : pyval) : bool :=
  match value with
  | PList l =>
      (Nat.leb 2 (length l)
       && forallb (fun item => match item with PList _ => false | _ => true end) l)%bool
  | _ => false
  end.

(** The ValueError of the truth value of an array of two or more items. *)
Definition ambiguous_truth : exn :=
  Exn "ValueError"
      "The truth value of an array with more than one element is ambiguous. Use a.any() or a.all()".

(** What the date, category and text branches make of the other lists and
    of dicts: these go through [pd.isna] on an array whose shape NumPy
    finds and the [repr] of the container, which are left to the
    libraries. *)
Variable nested : string -> pyval -> result string.

(** The date, category and text branches on a list or dict: each of them
    tests [pd.isna(value)] for its truth, which raises on an array of two
    or more items. *)
Definition process_container (key : string) (value : pyval) : result string :=
  if is_row_of_items value then Raise ambiguous_truth else nested key value.

(** The key's branch on any value.  In the number branch a list or dict
    gives "": its [str] starts with a bracket, so it is neither a digit
    string nor a [str]. *)
Definition process_value (text_fields : list string) (key : string) (value : pyval) : result string :=
  match value with
  | PScalar v => Ok (process_scalar text_fields key v)
  | _ =>
      if Text.mem key date_fields then process_container key value
      else if Text.mem key category_fields then process_container key value
      else if Text.mem key number_fields then Ok ""
      else process_container key value
  end.

Fixpoint process_items (text_fields : list string) (items : list (string * pyval))
    (processed_results : list (string * string)) : result (list (string * string)) :=
  match items with
  | [] => Ok processed_results
  | (key, value) :: rest =>
      v ← process_value text_fields key value;
      process_items text_fields rest (dict_set key v processed_results)
  end.

(** [results.keys()] raises AttributeError on anything but a dict. *)
Definition process_results (results : pyval) : result (list (string * string)) :=
  match results with
  | PDict d =>
      let text_fields :=
        List.filter (fun k => negb (Text.mem k category_fields) && negb (Text.mem k date_fields)
                              && negb (Text.mem k number_fields)
                              && negb (Text.mem k translation_fields)
                              && negb (Text.mem k control_fields))%bool
                    (map fst d) in
      process_items text_fields d []
  | _ => Raise (no_attribute results "keys")
  end.

End Formatter.
End DataFormatter.

(** ** json.loads

    The decoder of Python's [json] module on a [str]: [Malformed] stands
    for JSONDecodeError.  A number with a fraction or an exponent is a
    float, built by Python's [float] from the literal: [float_of].  Two
    other exceptions leave the decoder: the ValueError of an integer of
    more than 4300 digits, and the RecursionError of arrays and objects
    nested deeper than the interpreter has room for: [max_depth], the
    recursion limit less the depth of the call. *)

Module Json.
Import Re.

Section Decoder.

Variable float_of : string -> pyfloat.
Variable max_depth : nat.

(** Space, TAB, LF and CR. *)
Definition is_ws (c : ascii) : bool :=
  (Ascii.eqb c " " || Ascii.eqb c "009" || Ascii.eqb c "010" || Ascii.eqb c "013")%bool.

Fixpoint skip_ws (s : string) : string :=
  match s with
  | String c s' => if is_ws c then skip_ws s' else s
  | EmptyString => s
  end.

Definition hex_digit (c : ascii) : option N :=
  if Text.is_digit c then Some (Text.code c - 48)%N
  else if Text.in_range 97 102 c then Some (Text.code c - 87)%N
  else if Text.in_range 65 70 c then Some (Text.code c - 55)%N
  else None.

(** Four hexadecimal digits and what follows them. *)
Definition hex4 (s : string) : option (N * string) :=
  match s with
  | String a (String b (String c (String d rest))) =>
      match hex_digit a, hex_digit b, hex_digit c, hex_digit d with
      | Some x, Some y, Some z, Some w => Some (((x * 16 + y) * 16 + z) * 16 + w, rest)%N
      | _, _, _, _ => None
      end
  | _ => None
  end.

Definition byte (n : N) : ascii := ascii_of_N n.

(** [chr(u)], as UTF-8. *)
Definition utf8 (u : N) : string :=
  if (u <? 128)%N then String (byte u) ""
  else if (u <? 2048)%N then
    String (byte (192 + u / 64)) (String (byte (128 + u mod 64)) "")
  else if (u <? 65536)%N then
    String (byte (224 + u / 4096))
      (String (byte (128 + (u / 64) mod 64)) (String (byte (128 + u mod 64)) ""))
  else
    String (byte (240 + u / 262144))
      (String (byte (128 + (u / 4096) mod 64))
         (String (byte (128 + (u / 64) mod 64)) (String (byte (128 + u mod 64)) ""))).

(** The character of a one-letter escape. *)
Definition backslash (c : ascii) : option ascii :=
  if Ascii.eqb c "034" then Some "034"%char
  else if Ascii.eqb c "\" then Some "\"%char
  else if Ascii.eqb c "/" then Some "/"%char
  else if Ascii.eqb c "b" then Some "008"%char
  else if Ascii.eqb c "f" then Some "012"%char
  else if Ascii.eqb c "n" then Some "010"%char
  else if Ascii.eqb c "r" then Some "013"%char
  else if Ascii.eqb c "t" then Some "009"%char
  else None.

(** The code point of a [\u] escape whose digits start at [s]; a high
    surrogate followed by the escape of a low one makes one code point. *)
Definition unicode_escape (s : string) : option (N * string) :=
  match hex4 s with
  | Some (uni, rest) =>
      if ((55296 <=? uni) && (uni <=? 56319))%N%bool then
        match rest with
        | String "\" (String "u" rest2) =>
            match hex4 rest2 with
            | Some (uni2, rest3) =>
                if ((56320 <=? uni2) && (uni2 <=? 57343))%N%bool
                then Some (65536 + ((uni - 55296) * 1024 + (uni2 - 56320)), rest3)%N
                else Some (uni, rest)
            | None => Some (uni, rest)
            end
        | _ => Some (uni, rest)
        end
      else Some (uni, rest)
  | None => None
  end.

(** The string whose opening quote has been read: its content and what
    follows the closing quote.  A control character inside is an error. *)
Fixpoint scanstring (fuel : nat) (s : string) : option (string * string) :=
  match fuel with
  | O => None
  | S fuel' =>
      match s with
      | EmptyString => None
      | String c rest =>
          if Ascii.eqb c "034" then Some ("", rest)
          else if Ascii.eqb c "\" then
            match rest with
            | String "u" rest' =>
                match unicode_escape rest' with
                | Some (uni, rest2) =>
                    '(str, tail) ← scanstring fuel' rest2;
                    Some (utf8 uni +:+ str, tail)
                | None => None
                end
            | String esc rest' =>
                match backslash esc with
                | Some x =>
                    '(str, tail) ← scanstring fuel' rest';
                    Some (String x str, tail)
                | None => None
                end
            | EmptyString => None
            end
          else if (Text.code c <? 32)%N then None
          else
            '(str, tail) ← scanstring fuel' rest;
            Some (String c str, tail)
      end
  end.

(** A number: an optional sign and [0] or a digit string without leading
    zero (group 1), an optional fraction [\.\d+] (group 2), an optional
    exponent [[eE][-+]?\d+] (group 3). *)
Definition number_re : re :=
  seq [Grp 1 (seq [Opt (Chr "-");
                   Alt (Chr "0") (Seq (Cls (Text.in_range 49 57)) (star Text.is_digit))]);
       Opt (Grp 2 (seq [Chr "."; plus Text.is_digit]));
       Opt (Grp 3 (seq [Cls (one_of "eE"); Opt (Cls (one_of "-+")); plus Text.is_digit]))].

Definition parse_int (s : string) : Z :=
  match s with
  | String "-" s' => (- Z.of_N (Text.to_N s'))%Z
  | _ => Z.of_N (Text.to_N s)
  end.

Definition nan : pyfloat := Float true false "nan".
Definition inf : pyfloat := Float false false "inf".
Definition neg_inf : pyfloat := Float false false "-inf".

(** The digits of an integer literal, without its sign. *)
Definition int_digits (s : string) : nat :=
  match s with
  | String "-" s' => String.length s'
  | _ => String.length s
  end.

(** [int(s)] refuses a literal of more than 4300 digits. *)
Definition digits_exceeded (n : nat) : exn :=
  Exn "ValueError"
      ("Exceeds the limit (4300 digits) for integer string conversion: value has "
       +:+ Text.of_nat n
       +:+ " digits; use sys.set_int_max_str_digits() to increase the limit").

Definition number (s : string) : decoded (pyval * string) :=
  match match_ number_re s with
  | Some (rest, cs) =>
      let integer := default "" (group 1 cs) in
      match group 2 cs, group 3 cs with
      | None, None =>
          if Nat.ltb 4300 (int_digits integer)
          then Thrown (digits_exceeded (int_digits integer))
          else Decoded (PScalar (SInt (parse_int integer)), rest)
      | frac, exp =>
          Decoded
            (PScalar (SFloat (float_of (integer +:+ default "" frac +:+ default "" exp))), rest)
      end
  | None =>
      if Text.prefix "NaN" s then Decoded (PScalar (SFloat nan), Text.drop 3 s)
      else if Text.prefix "Infinity" s then Decoded (PScalar (SFloat inf), Text.drop 8 s)
      else if Text.prefix "-Infinity" s then Decoded (PScalar (SFloat neg_inf), Text.drop 9 s)
      else Malformed
  end.

(** The RecursionError of a container nested too deep. *)
Definition too_deep (what : string) : exn :=
  Exn "RecursionError"
      ("maximum recursion depth exceeded while decoding a JSON " +:+ what
       +:+ " from a unicode string").

(** [scan_once] at a position, the members of an object after its brace
    or a comma, and the elements of an array; [depth] is the number of
    containers that may still be entered. *)
Fixpoint scan (fuel depth : nat) (s : string) : decoded (pyval * string) :=
  match fuel with
  | O => Malformed
  | S fuel' =>
      match s with
      | EmptyString => Malformed
      | String c rest =>
          if Ascii.eqb c "034" then
            '(str, tail) ← parsed (scanstring (String.length rest) rest);
            Decoded (PScalar (SStr str), tail)
          else if Ascii.eqb c "{" then
            match depth with
            | O => Thrown (too_deep "object")
            | S depth' =>
                match skip_ws rest with
                | String "}" tail => Decoded (PDict [], tail)
                | rest' => members fuel' depth' rest' []
                end
            end
          else if Ascii.eqb c "[" then
            match depth with
            | O => Thrown (too_deep "array")
            | S depth' =>
                match skip_ws rest with
                | String "]" tail => Decoded (PList [], tail)
                | rest' => elements fuel' depth' rest' []
                end
            end
          else if Text.prefix "null" s then Decoded (PScalar SNone, Text.drop 4 s)
          else if Text.prefix "true" s then Decoded (PScalar (SBool true), Text.drop 4 s)
          else if Text.prefix "false" s then Decoded (PScalar (SBool false), Text.drop 5 s)
          else number s
      end
  end
with members (fuel depth : nat) (s : string) (pairs : list (string * pyval))
    : decoded (pyval * string) :=
  match fuel with
  | O => Malformed
  | S fuel' =>
      match s with
      | String "034" rest =>
          '(key, rest1) ← parsed (scanstring (String.length rest) rest);
          match skip_ws rest1 with
          | String ":" rest2 =>
              '(value, rest3) ← scan fuel' depth (skip_ws rest2);
              let pairs := dict_set key value pairs in
              match skip_ws rest3 with
              | String "}" tail => Decoded (PDict pairs, tail)
              | String "," rest4 => members fuel' depth (skip_ws rest4) pairs
              | _ => Malformed
              end
          | _ => Malformed
          end
      | _ => Malformed
      end
  end
with elements (fuel depth : nat) (s : string) (values : list pyval)
    : decoded (pyval * string) :=
  match fuel with
  | O => Malformed
  | S fuel' =>
      '(value, rest1) ← scan fuel' depth s;
      match skip_ws rest1 with
      | String "]" tail => Decoded (PList (values ++ [value]), tail)
      | String "," rest2 => elements fuel' depth (skip_ws rest2) (values ++ [value])
      | _ => Malformed
      end
  end.

(** [json.loads(s)]: one value, with nothing but whitespace around it. *)
Definition loads (s : string) : decoded pyval :=
  '(obj, rest) ← scan (S (String.length s)) max_depth (skip_ws s);
  match skip_ws rest with
  | EmptyString => Decoded obj
  | _ => Malformed
  end.

End Decoder.
End Json.

(** ** ExcelProcessor *)

Module ExcelProcessor.
Import Re.

(** A row of the table: its index label and its cells by column name. *)
Abbreviation row := (nat * gmap string scalar)%type.

(** The pandas table read from the sheet. *)
Record DataFrame := Frame { columns : list string; rows : list row }.

(** [row[name]]; an absent cell reads as the missing value. *)
Definition cell (r : row) (name : string) : scalar := default SNone (snd r !! name).

(** The openpyxl sheet: cell values by (row, column), both counted from 1. *)
Abbreviation worksheet := (gmap (nat * nat) scalar).

(** The processor: the table, the sheet in memory and the sheet as last
    saved to the file. *)
Record t := Processor { df : DataFrame; ws : worksheet; saved : worksheet }.

Definition c_host (c : ascii) : bool :=
  (Text.is_alpha c || Text.is_digit c || one_of "-@:%._+~#=" c)%bool.
Definition c_tld (c : ascii) : bool :=
  (Text.is_alpha c || Text.is_digit c || one_of "()" c)%bool.
Definition c_path (c : ascii) : bool :=
  (Text.is_alpha c || Text.is_digit c || one_of "-()@:%_+.~#?&/=" c)%bool.

(** The URL pattern: [^], an optional scheme [(https?:\/\/)?], an optional
    [(www\.)?], 1 to 256 host characters, a dot, 1 to 6 characters of
    [[a-zA-Z0-9()]], a word boundary, and a group of any number of path
    characters. *)
Definition url_pattern : re :=
  seq [Bol;
       Opt (Grp 1 (seq [lit "http"; Opt (Chr "s"); lit "://"]));
       Opt (Grp 2 (lit "www."));
       Rep c_host 1 (Some 256); Chr "."; Rep c_tld 1 (Some 6); Wb;
       Grp 3 (star c_path)].

Definition _is_url (text : string) : bool :=
  bool_decide (is_Some (match_ url_pattern (Text.strip text))).

Definition required_columns : list string := ["Notes"; "Verifier"; "Error"].

(** [self.df[col] = None] for a column the table lacks. *)
Definition ensure_column (d : DataFrame) (col : string) : DataFrame :=
  if Text.mem col (columns d) then d
  else Frame (columns d ++ [col])
             (map (fun r : row => (fst r, <[col := SNone]> (snd r))) (rows d)).

(** [s.isna() | (s == '')] on one cell *)
Definition is_empty (v : scalar) : bool := (isna v || eq_empty v)%bool.

(** The Notes part of the mask on one cell. *)
Definition notes_ok (v : scalar) : bool :=
  (isna v || eq_empty v ||
   match v with SStr x => _is_url x | _ => false end)%bool.

(** The boolean mask of [filter_rows] on one row. *)
Definition mask (r : row) : bool :=
  (notes_ok (cell r "Notes") && is_empty (cell r "Verifier") && is_empty (cell r "Error"))%bool.

(** [filter_rows]: the selected rows, in table order, and the processor
    with the columns it created. *)
Definition filter_rows (self : t) : list row * t :=
  let d := fold_left ensure_column required_columns (df self) in
  (List.filter mask (rows d), Processor d (ws self) (saved self)).

Fixpoint index (x : string) (l : list string) : option nat :=
  match l with
  | [] => None
  | y :: l' => if String.eqb x y then Some 0 else S <$> index x l'
  end.

(** Column numbers count from 1; 0 stands for an unknown name. *)
Definition _get_column_index (self : t) (column_name : string) : nat :=
  match index column_name (columns (df self)) with
  | Some i => i + 1
  | None => 0
  end.

(** A byte that continues a character of UTF-8 text. *)
Definition is_continuation (c : ascii) : bool := Text.in_range 128 191 c.

(** [s[:n]] in characters: the first [n] characters of UTF-8 text. *)
Fixpoint take_chars (n : N) (s : string) : string :=
  match s with
  | EmptyString => EmptyString
  | String c s' =>
      if is_continuation c then String c (take_chars n s')
      else if (n =? 0)%N then EmptyString
      else String c (take_chars (n - 1) s')
  end.

(** The control characters a worksheet refuses: all below the space but
    TAB, LF and CR. *)
Definition is_illegal (c : ascii) : bool :=
  (Text.in_range 0 8 c || Text.in_range 11 12 c || Text.in_range 14 31 c)%bool.

(** openpyxl's [check_string] on the string assigned to a cell: it is cut
    to 32767 characters, and IllegalCharacterError is raised when what is
    left holds a control character. *)
Definition check_string (value : string) : result string :=
  let value := take_chars 32767%N value in
  if Text.all_chars (fun c => negb (is_illegal c)) value then Ok value
  else Raise (Exn "IllegalCharacterError" (value +:+ " cannot be used in worksheets.")).

(** What is stored for an assigned value: a string goes through
    [check_string]. *)
Definition stored (v : scalar) : result scalar :=
  match v with
  | SStr s => value ← check_string s; Ok (SStr value)
  | _ => Ok v
  end.

(** [ws.cell(row=r, column=c).value = v]; openpyxl raises ValueError
    for a row or column below 1, and the exception of [check_string] for a
    string it refuses; the value of the cell then stays as it was.  The
    sheet is the values of its cells: a cell without an entry has no
    value. *)
Definition cell_set (w : worksheet) (r c : nat) (v : scalar) : worksheet * option exn :=
  if ((r =? 0) || (c =? 0))%bool%nat
  then (w, Some (Exn "ValueError" "Row or column values must be at least 1"))
  else
    match stored v with
    | Ok v' => (<[(r, c) := v']> w, None)
    | Raise e => (w, Some e)
    end.

Section Write.

Variable this_year : nat.
Variable pad_year : bool.
Variable nested : string -> pyval -> result string.

(** [self.workbook.save(self.excel_path)]: the exception it raises, if any. *)
Variable save : worksheet -> option exn.

(** The loop writing the processed results; a cell assignment that raises
    ends it, and what was written before stays in the sheet. *)
Fixpoint write_fields (self : t) (w : worksheet) (excel_row : nat)
    (items : list (string * string)) : worksheet * option exn :=
  match items with
  | [] => (w, None)
  | (col_name, value) :: rest =>
      let col_index := _get_column_index self col_name in
      if (col_index =? 0)%nat then write_fields self w excel_row rest
      else
        match cell_set w excel_row col_index (SStr value) with
        | (w', None) => write_fields self w' excel_row rest
        | (w', Some e) => (w', Some e)
        end
  end.

(** The body of the [try] before the save. *)
Definition write_cells (self : t) (excel_row : nat) (results : pyval)
    (has_error : bool) (error_msg : string) : worksheet * option exn :=
  if has_error then
    cell_set (ws self) excel_row (_get_column_index self "Error") (SStr error_msg)
  else
    match DataFormatter.process_results this_year pad_year nested results with
    | Raise e => (ws self, Some e)
    | Ok processed_results =>
        match write_fields self (ws self) excel_row processed_results with
        | (w, Some e) => (w, Some e)
        | (w, None) =>
            let verifier_col := _get_column_index self "Verifier" in
            if (verifier_col =? 0)%nat then (w, None)
            else cell_set w excel_row verifier_col (SStr "LLM")
        end
    end.

(** [write_results] never raises: the exception its [try] catches is only
    logged, and is returned here next to the processor. *)
Definition write_results (self : t) (row_index : nat) (results : pyval)
    (has_error : bool) (error_msg : string) : t * option exn :=
  let excel_row := row_index + 2 in
  match write_cells self excel_row results has_error error_msg with
  | (w, Some e) => (Processor (df self) w (saved self), Some e)
  | (w, None) =>
      match save w with
      | Some e => (Processor (df self) w (saved self), Some e)
      | None => (Processor (df self) w w, None)
      end
  end.

End Write.
End ExcelProcessor.

(** ** WebPageExtractor *)

Module WebPageExtractor.

(** What the code reads of an HTTP response. *)
Record response := Response { content_type : string; text : string; content : string }.

Section Fetch.

(** [requests.get] followed by [raise_for_status]. *)
Variable http_get : string -> result response.
(** The cleaned text PyMuPDF finds in a PDF, and BeautifulSoup in a page. *)
Variable pdf_text : string -> result string.
Variable html_text : string -> result string.

(** The bracketed failure marker: a label and the text of the exception. *)
Definition failure_marker (label : string) (e : exn) : string :=
  "[" +:+ label +:+ ": " +:+ exn_text e +:+ "]".

Definition extract_pdf_content (pdf_data : string) : string :=
  match pdf_text pdf_data with
  | Ok clean_text => clean_text
  | Raise e => failure_marker "PDF解析失败" e
  end.

Definition extract_html_content (html : string) : string :=
  match html_text html with
  | Ok clean_text => clean_text
  | Raise e => failure_marker "HTML处理失败" e
  end.

Definition extract_pdf_from_url (url : string) : string :=
  match http_get url with
  | Raise e => failure_marker "提取失败" e
  | Ok r =>
      if (negb (Text.contains "application/pdf" (Text.lower (content_type r)))
          && negb (Text.endswith ".pdf" (Text.lower url)))%bool
      then extract_html_content (text r)
      else extract_pdf_content (content r)
  end.

Definition extract_html_page (url : string) : string :=
  match http_get url with
  | Raise e => failure_marker "提取失败" e
  | Ok r =>
      if Text.contains "application/pdf" (Text.lower (content_type r))
      then extract_pdf_content (content r)
      else extract_html_content (text r)
  end.

(** [url.strip()] raises AttributeError when the cell is not a string. *)
Definition extract_content (url : scalar) : result string :=
  match url with
  | SStr u =>
      let u := Text.strip u in
      if (Text.endswith ".pdf" (Text.lower u) || Text.contains "/pdf/" (Text.lower u))%bool
      then Ok (extract_pdf_from_url u)
      else Ok (extract_html_page u)
  | _ => Raise (no_attribute (PScalar url) "strip")
  end.

End Fetch.
End WebPageExtractor.

(** ** LlmProcessor *)

Module LlmProcessor.

Section Llm.

(** [json.loads]. *)
Variable loads : string -> decoded pyval.

(** The [try] of the parser catches JSONDecodeError alone: any other
    exception of the decoder leaves the parser. *)
Definition caught (r : decoded pyval) : result pyval :=
  match r with
  | Decoded data => Ok data
  | Malformed => Ok (PDict [])
  | Thrown e => Raise e
  end.

Definition _parse_model_output (output : string) : result pyval :=
  let json_start := Text.find_Z "{" output in
  let json_end := (Text.rfind_Z "}" output + 1)%Z in
  if ((0 <=? json_start)%Z && (json_start <? json_end)%Z)%bool then
    let json_str := Text.slice json_start json_end output in
    caught (loads json_str)
  else
    caught (loads output).

(** The text of the prompt around the document and the field names. *)
Variable prompt_template : string -> list string -> string.

#[warnings="-abstract-large-number"]
Definition _build_prompt (text : string) (fields : list string) : string :=
  prompt_template (Text.take 10000 text) fields.

(** The POST to the model service and the reading of its answer: the
    reply, when the service gave a string; otherwise the exception that
    leaves the method, be it of the transport, of the status, of the
    decoding of the answer or of a reply that is no string. *)
Variable generate : string -> result string.

Definition extract_structured_info (text : string) (fields : list string) : result pyval :=
  model_output ← generate (_build_prompt text fields);
  _parse_model_output model_output.

End Llm.
End LlmProcessor.

(** ** ExtractionSystem *)

Module ExtractionSystem.
Import ExcelProcessor.

(** What happens to a row, as the log shows it. *)
Inductive event : Type :=
| Skipped (idx : nat)
| Wrote (idx : nat) (logged : option exn)
| Failed (idx : nat) (e : exn) (logged : option exn)
| Slept.

Section Run.

Variable this_year : nat.
Variable pad_year : bool.
Variable nested : string -> pyval -> result string.
Variable save : worksheet -> option exn.
Variable http_get : string -> result WebPageExtractor.response.
Variable pdf_text : string -> result string.
Variable html_text : string -> result string.
Variable loads : string -> decoded pyval.
Variable prompt_template : string -> list string -> string.
Variable generate : string -> result string.

Variable url_column : string.
Variable batch_size : Z.
Variable fields : list string.

Definition write (self : t) (idx : nat) (results : pyval) (has_error : bool) (msg : string) :=
  write_results this_year pad_year nested save self idx results has_error msg.

(** The URL of a row: the Notes cell when it holds a URL, the URL column
    otherwise; [Ok None] is the row to skip, [Raise] the KeyError of a
    table without the URL column. *)
Definition row_url (self : t) (r : row) : result (option scalar) :=
  let notes_value := if negb (isna (cell r "Notes")) then cell r "Notes" else SStr "" in
  if (is_str notes_value && _is_url (str notes_value))%bool then
    Ok (Some (SStr (Text.strip (str notes_value))))
  else if Text.mem url_column (columns (df self)) then
    let url := cell r url_column in
    if (negb (truthy url) || isna url)%bool then Ok None else Ok (Some url)
  else Raise (Exn "KeyError" ("'" +:+ url_column +:+ "'")).

(** The body of the [try] of one row: the processor after it, the events,
    and the exception that left it, if any. *)
Definition try_row (self : t) (i : nat) (r : row) : t * list event * option exn :=
  let idx := fst r in
  match row_url self r with
  | Raise e => (self, [], Some e)
  | Ok None => (self, [Skipped idx], None)
  | Ok (Some url) =>
      match WebPageExtractor.extract_content http_get pdf_text html_text url with
      | Raise e => (self, [], Some e)
      | Ok web_content =>
          match LlmProcessor.extract_structured_info loads prompt_template generate
                  web_content fields with
          | Raise e => (self, [], Some e)
          | Ok structured_info =>
              let '(self', logged) := write self idx structured_info false "" in
              if (batch_size =? 0)%Z then
                (self', [Wrote idx logged],
                 Some (Exn "ZeroDivisionError" "integer modulo by zero"))
              else if ((Z.of_nat i + 1) mod batch_size =? 0)%Z then
                (self', [Wrote idx logged; Slept], None)
              else (self', [Wrote idx logged], None)
          end
      end
  end.

(** One turn of the loop: the body and the [except] of the row. *)
Definition process_row (self : t) (i : nat) (r : row) : t * list event :=
  match try_row self i r with
  | (self', evs, None) => (self', evs)
  | (self', evs, Some e) =>
      let error_msg := "处理失败: " +:+ exn_text e in
      let '(self'', logged) := write self' (fst r) (PDict []) true error_msg in
      (self'', evs ++ [Failed (fst r) e logged])
  end.

Fixpoint loop (self : t) (i : nat) (rs : list row) : t * list event :=
  match rs with
  | [] => (self, [])
  | r :: rest =>
      let '(self', evs) := process_row self i r in
      let '(self'', evs') := loop self' (S i) rest in
      (self'', evs ++ evs')
  end.

End Run.

(** [run] on a loaded table; [fields] is the optional argument. *)
Definition run this_year pad_year nested save http_get pdf_text html_text loads
    prompt_template generate (self : t) (url_column : string) (batch_size : Z)
    (fields : option (list string)) : t * list event :=
  let '(filtered_df, self) := filter_rows self in
  match filtered_df with
  | [] => (self, [])
  | _ =>
      let special_columns := ["Notes"; "Verifier"; "Error"; url_column; "处理时间"] in
      let fields :=
        match fields with
        | Some fs => fs
        | None => List.filter (fun col => negb (Text.mem col special_columns)) (columns (df self))
        end in
      loop this_year pad_year nested save http_get pdf_text html_text loads
           prompt_template generate url_column batch_size fields self 0 filtered_df
  end.

End ExtractionSystem.

(** ** Vocabulary of the properties

    Predicates the statements below are written with, the parser as the
    specification words it, and the small table and collaborators the
    examples run on. *)

Module Statements.
Import Text Re Strptime DataFormatter ExcelProcessor WebPageExtractor LlmProcessor
       ExtractionSystem.

(** The last character of a string, if any, is not whitespace. *)
Fixpoint tight (s : string) : bool :=
  match s with
  | EmptyString => true
  | String c EmptyString => negb (is_space c)
  | String _ s' => tight s'
  end.

(** A string none of the three rewrites applies to. *)
Definition no_rewrite (t : string) : bool :=
  (bool_decide (match_ special_format t = None)
   && bool_decide (match_ dot_format t = None)
   && bool_decide (match_ comma_format t = None))%bool.

(** A string none of the formats parses. *)
Definition no_format (t : string) : bool :=
  forallb (fun fmt => bool_decide (strptime t fmt = None)) date_formats.

(** The required columns a table lacks, in the order they are created. *)
Definition missing_columns (d : DataFrame) : list string :=
  List.filter (fun col => negb (mem col (columns d))) required_columns.

(** A row with the cells of created columns set to the missing value. *)
Definition backfill (cols : list string) (r : row) : row :=
  (fst r, fold_left (fun cells col => <[col := SNone]> cells) cols (snd r)).

(** A row of the loaded table as [filter_rows] sees it: with the missing
    value in the columns it creates. *)
Definition seen (self : t) (r : row) : row := backfill (missing_columns (df self)) r.

(** A row that has been verified already. *)
Definition verified_row : row :=
  (0, {[ "Notes" := SStr "https://example.org/call"; "Verifier" := SStr "LLM" ]}).



(** The character does not occur in the string. *)
Definition without (c : ascii) (s : string) : bool :=
  all_chars (fun x => negb (Ascii.eqb x c)) s.

(** The double quote and the line feed, to spell replies with. *)
Definition dq : string := String "034" "".
Definition nl : string := String "010" "".

(** The decoder the examples run: [Json.loads] with floats kept by their
    literal and room for 990 nested containers, as under the default
    recursion limit of 1000; the replies of the examples hold no float
    and nest less deep. *)
Definition json_loads : string -> decoded pyval :=
  Json.loads (fun literal => Float false false literal) 990.

(** The parser as the specification words it: the whole reply is tried
    when the brace span does not decode. *)
Definition parse_as_specified (loads : string -> decoded pyval) (output : string)
    : result pyval :=
  let json_start := find_Z "{" output in
  let json_end := (rfind_Z "}" output + 1)%Z in
  let whole := caught (loads output) in
  if ((0 <=? json_start)%Z && (json_start <? json_end)%Z)%bool then
    match loads (slice json_start json_end output) with
    | Decoded data => Ok data
    | Malformed => whole
    | Thrown e => Raise e
    end
  else whole.

(** A table without rows. *)
Definition demo_table : t :=
  Processor (Frame ["Source"; "Deadline"; "Notes"; "Verifier"; "Error"] []) ∅ ∅.

(** A processed field whose name is a column of the table. *)
Definition known (self : t) (item : string * string) : bool :=
  mem (fst item) (columns (df self)).

(** The Verifier stamp at the end of a success write. *)
Definition stamp (self : t) (excel_row : nat) (w : worksheet) : worksheet :=
  if Nat.eqb (_get_column_index self "Verifier") 0 then w
  else <[(excel_row, _get_column_index self "Verifier") := SStr "LLM"]> w.

(** The end of a success write: the exception of the field loop when
    there is one, the Verifier stamp otherwise. *)
Definition finish (self : t) (excel_row : nat) (out : worksheet * option exn)
    : worksheet * option exn :=
  match out with
  | (w, Some e) => (w, Some e)
  | (w, None) => (stamp self excel_row w, None)
  end.

(** The sheet after a failure write of a message for the row with label
    [idx]: the Error cell of the row holds the message, cut to the length a
    cell takes -- unless the sheet refuses the message for a control
    character in it, and then stays as it was. *)
Definition marked (self : t) (idx : nat) (msg : string) (w : worksheet) : worksheet :=
  match check_string msg with
  | Ok text => <[(idx + 2, _get_column_index self "Error") := SStr text]> w
  | Raise _ => w
  end.

(** A reply that is one integer of 4301 digits. *)
Definition digits_reply : string := String.concat "" (repeat "9" 4301).

(** The row an event is about. *)
Definition event_row (ev : event) : option nat :=
  match ev with
  | Skipped idx | Wrote idx _ | Failed idx _ _ => Some idx
  | Slept => None
  end.

(** The event of a row marked as failed. *)
Definition is_failed (ev : event) : bool :=
  match ev with Failed _ _ _ => true | _ => false end.

(** A one-row table and the collaborators of the examples. *)
Definition call_row : row := (0, {[ "Source" := SStr "http://example.org/call" ]}).

Definition call_table : t :=
  Processor (Frame ["Source"; "Deadline"; "Notes"; "Verifier"; "Error"] [call_row]) ∅ ∅.

(** A site that does not answer, and one that serves a page. *)
Definition http_down : string -> result response :=
  fun _ => Raise (Exn "ConnectionError" "timed out").

Definition http_page : string -> result response :=
  fun _ => Ok (Response "text/html" "<p>call</p>" "").

Definition page_text : string -> result string := fun _ => Ok "call".

(** The reply [{"Deadline": "2025-01-01"}]. *)
Definition deadline_reply : string :=
  "{" +:+ dq +:+ "Deadline" +:+ dq +:+ ": " +:+ dq +:+ "2025-01-01" +:+ dq +:+ "}".

(** [run] and one turn of its loop on that table, for a given site and
    model; the prompt is the document text, and the file saves. *)
Definition run_with (http_get : string -> result response) (generate : string -> result string)
    : t * list event :=
  run 2025 false (fun _ _ => Ok "") (fun _ => None) http_get page_text page_text
      json_loads (fun text _ => text) generate call_table "Source" 10 None.

Definition process_with (http_get : string -> result response)
    (generate : string -> result string) : t * list event :=
  process_row 2025 false (fun _ _ => Ok "") (fun _ => None) http_get page_text page_text
      json_loads (fun text _ => text) generate "Source" 10 ["Deadline"]
      call_table 0 call_row.

End Statements.

(** ** More vocabulary *)

Module Glossary.
Import Text Re Strptime DataFormatter ExcelProcessor WebPageExtractor LlmProcessor
       ExtractionSystem Statements.

(** A reply whose values are all scalars. *)
Definition flat (d : list (string * pyval)) : bool :=
  forallb (fun kv => match snd kv with PScalar _ => true | _ => false end) d.

(** The normalised value of a key of a flat reply. *)
Definition normalized (this_year : nat) (pad_year : bool) (key : string) (value : pyval)
    : string :=
  match value with
  | PScalar v => process_scalar this_year pad_year [] key v
  | _ => ""
  end.

(** A reply with a deadline, a flag and a count. *)
Definition sample_reply : list (string * pyval) :=
  [("Deadline", PScalar (SStr "9th of June, 2025"));
   ("Doctoral Student", PScalar (SStr "Yes"));
   ("Number_Places", PScalar (SStr "three"))].

(** [t] is what remains of [s] after some of its characters. *)
Definition suffix_of (t s : string) : Prop := exists pre, s = pre +:+ t.

(** A text in square brackets, as the failure markers are. *)
Definition bracketed (t : string) : bool := (prefix "[" t && endswith "]" t)%bool.

(** The pause is due after the row at position [i] of the selection. *)
Definition pause_due (batch_size : Z) (i : nat) : bool :=
  ((Z.of_nat i + 1) mod batch_size =? 0)%Z.

(** A log in which the pauses are where they are due: one directly after
    each written row at the end of a batch, counted from position [i],
    and none anywhere else. *)
Fixpoint paced (batch_size : Z) (i : nat) (evs : list event) : bool :=
  match evs with
  | [] => true
  | Slept :: _ => false
  | Wrote _ _ :: rest =>
      match rest with
      | Slept :: rest' => pause_due batch_size i && paced batch_size (S i) rest'
      | _ => negb (pause_due batch_size i) && paced batch_size (S i) rest
      end
  | _ :: rest => paced batch_size (S i) rest
  end.

(** A value as a cell keeps it: cut to 32767 characters. *)
Definition cut (v : string) : string := take_chars 32767%N v.

(** A string the sheet takes: cut to the length of a cell, it holds no
    control character the sheet refuses. *)
Definition storable (v : string) : bool :=
  all_chars (fun c => negb (is_illegal c)) (cut v).

(** The IllegalCharacterError of a string the sheet refuses. *)
Definition refusal (v : string) : exn :=
  Exn "IllegalCharacterError" (cut v +:+ " cannot be used in worksheets.").

(** An event without a logged exception: the row was skipped, the run
    paused, or the write of the row raised nothing. *)
Definition quiet (ev : event) : bool :=
  match ev with
  | Wrote _ (Some _) | Failed _ _ (Some _) => false
  | _ => true
  end.

(** An exception of the kinds the decoder raises besides JSONDecodeError. *)
Definition decoder_exception (e : exn) : Prop :=
  exn_type e = "ValueError" \/ exn_type e = "RecursionError".

(** The bell character, which a sheet refuses. *)
Definition bell : string := String "007" "".

(** A table with a verified row and a row still to be processed. *)
Definition two_row_table : t :=
  Processor (Frame ["Source"; "Deadline"; "Notes"; "Verifier"; "Error"]
               [verified_row; (1, {[ "Source" := SStr "http://example.org/call" ]})]) ∅ ∅.

(** A table with a Source column only. *)
Definition bare_table : t :=
  Processor (Frame ["Source"] [(0, {[ "Source" := SStr "http://example.org/a" ]})]) ∅ ∅.

(** A digit or a dash, the characters of a canonical date. *)
Definition plain (c : ascii) : bool := (is_digit c || Ascii.eqb c "-")%bool.

#[export] Instance date_eq_dec : EqDecision date.
Proof. solve_decision. Defined.

(** Four digits that read as the year [y]. *)
Definition year_text (s : string) (y : nat) : bool :=
  match s with
  | String a (String b (String c (String d EmptyString))) =>
      (is_digit a && is_digit b && is_digit c && is_digit d && (int s =? y)%nat)%bool
  | _ => false
  end.

(** The month and the day of a canonical date, with their dashes. *)
Definition month_day_text (m d : nat) : string :=
  "-" +:+ zfill 2 (of_nat m) +:+ "-" +:+ zfill 2 (of_nat d).

(** [str.upper] and [str.capitalize] on a lower-case name. *)
Definition upper_char (c : ascii) : ascii :=
  if is_lower c then ascii_of_N (code c - 32) else c.

Fixpoint upper (s : string) : string :=
  match s with
  | EmptyString => EmptyString
  | String c s' => String (upper_char c) (upper s')
  end.

Definition capitalize (s : string) : string :=
  match s with
  | EmptyString => EmptyString
  | String c s' => String (upper_char c) s'
  end.

(** The ways to write a day of the year without a year: the day with or
    without a leading zero, before or after the month; the month by its
    English name or its abbreviation of three letters, in lower case,
    capitalised or in upper case. *)
Definition day_texts (d : nat) : list string :=
  if Nat.ltb d 10 then [of_nat d; zfill 2 (of_nat d)] else [of_nat d].

Definition month_texts (m : nat) : list string :=
  flat_map (fun name => [name; capitalize name; upper name])
           [nth (m - 1) month_names ""; nth (m - 1) month_abbrs ""].

Definition year_less_texts (m d : nat) : list string :=
  flat_map (fun month =>
              flat_map (fun day => [day +:+ " " +:+ month; month +:+ " " +:+ day])
                       (day_texts d))
           (month_texts m).

(** The first format that reads a text, and the date it reads. *)
Fixpoint first_format (s : string) (formats : list string) : option (string * date) :=
  match formats with
  | [] => None
  | fmt :: rest =>
      match strptime s fmt with
      | Some t => Some (fmt, t)
      | None => first_format s rest
      end
  end.

(** A text that reaches the formats as it is: trimmed, not empty, and
    with no rewrite that applies. *)
Definition as_written (s : string) : bool :=
  (String.eqb (strip s) s && nonempty s && no_rewrite s)%bool.

(** The text is read by a format without a year, as the day [d] of the
    month [m]. *)
Definition read_without_year (m d : nat) (s : string) : bool :=
  (as_written s &&
   match first_format s date_formats with
   | Some (fmt, t) => negb (has_year fmt) && (month t =? m)%nat && (day t =? d)%nat
   | None => false
   end)%bool.

(** No format reads the text, and it holds no date after a weekday. *)
Definition unread (s : string) : bool :=
  (as_written s && bool_decide (first_format s date_formats = None)
   && bool_decide (search weekday_pattern s = None))%bool.

End Glossary.

(** * Properties *)

(** ** Text and pattern lemmas *)

Module TextFacts.
Import Statements Text.

Lemma rstrip_tight s : tight (rstrip s) = true.
Proof.
  induction s as [|c s IH]; simpl; [done|].
  destruct (rstrip s) as [|d r] eqn:E.
  - destruct (is_space c) eqn:Hc; simpl; [done|]. by rewrite Hc.
  - simpl in *. exact IH.
Qed.

Lemma lstrip_tight s : tight s = true -> tight (lstrip s) = true.
Proof.
  induction s as [|c s IH]; [done|].
  intros H. cbn [lstrip]. destruct (is_space c) eqn:Hc; [|exact H].
  destruct s as [|d s']; [done|]. apply IH. exact H.
Qed.

Lemma strip_tight s : tight (strip s) = true.
Proof. apply lstrip_tight, rstrip_tight. Qed.

Lemma lower_char_space c : is_space (lower_char c) = is_space c.
Proof.
  unfold lower_char. destruct (is_upper c) eqn:Hu; [|done].
  destruct c as [[] [] [] [] [] [] [] []]; vm_compute in Hu; try discriminate; reflexivity.
Qed.

Lemma lower_tight s : tight s = true -> tight (lower s) = true.
Proof.
  induction s as [|c s IH]; simpl; [done|].
  destruct s as [|d s']; simpl in *.
  - by rewrite lower_char_space.
  - exact IH.
Qed.

Lemma all_chars_app p a b :
  all_chars p (a +:+ b) = (all_chars p a && all_chars p b)%bool.
Proof.
  induction a as [|c a IH]; simpl; [done|].
  rewrite IH. by rewrite andb_assoc.
Qed.

Lemma digit_not_space c : is_digit c = true -> is_space c = false.
Proof.
  destruct c as [[] [] [] [] [] [] [] []]; vm_compute; congruence.
Qed.

Lemma digit_not_upper c : is_digit c = true -> is_upper c = false.
Proof.
  destruct c as [[] [] [] [] [] [] [] []]; vm_compute; congruence.
Qed.

Lemma lower_digits s : all_chars is_digit s = true -> lower s = s.
Proof.
  induction s as [|c s IH]; simpl; [done|].
  intros [Hc Hs]%andb_true_iff. unfold lower_char.
  rewrite (digit_not_upper c Hc). by rewrite IH.
Qed.

Lemma rstrip_digits s : all_chars is_digit s = true -> rstrip s = s.
Proof.
  induction s as [|c s IH]; simpl; [done|].
  intros [Hc Hs]%andb_true_iff. rewrite (IH Hs).
  destruct s; [|done]. by rewrite (digit_not_space c Hc).
Qed.

Lemma lstrip_digits s : all_chars is_digit s = true -> lstrip s = s.
Proof.
  destruct s as [|c s]; simpl; [done|].
  intros [Hc Hs]%andb_true_iff. by rewrite (digit_not_space c Hc).
Qed.

Lemma strip_digits s : all_chars is_digit s = true -> strip s = s.
Proof.
  intros H. unfold strip. rewrite (rstrip_digits s H). by apply lstrip_digits.
Qed.

End TextFacts.

Module ReFacts.
Import Statements Text Re TextFacts.

(** What a successful repetition consumed: a run of the class, at least
    [lo] long, after which the continuation succeeded. *)
Lemma rep_sound {R} (p : ascii -> bool) fuel : forall lo at_ (k : pos -> option R) r,
  rep p lo fuel at_ k = Some r ->
  exists a b prev, snd at_ = a +:+ b /\ all_chars p a = true /\
                   lo <= String.length a /\ k (prev, b) = Some r.
Proof.
  induction fuel as [|fuel IH]; intros lo [prev s] k r H; cbn [rep snd] in H.
  - destruct (Nat.eqb lo 0) eqn:E; [|discriminate].
    apply Nat.eqb_eq in E. exists "", s, prev. simpl. repeat split; [lia|done].
  - assert (Hstop : (if Nat.eqb lo 0 then k (prev, s) else None) = Some r ->
        exists a b prev0, s = a +:+ b /\ all_chars p a = true /\
                          lo <= String.length a /\ k (prev0, b) = Some r).
    { destruct (Nat.eqb lo 0) eqn:E; [|discriminate]. intros Hk.
      apply Nat.eqb_eq in E. exists "", s, prev. simpl. repeat split; [lia|done]. }
    destruct s as [|c s']; [by apply Hstop|].
    destruct (p c) eqn:Hc; [|by apply Hstop].
    destruct (rep p (Nat.pred lo) fuel (Some c, s') k) as [r'|] eqn:Hrec; [|by apply Hstop].
    injection H as ->.
    destruct (IH _ _ _ _ Hrec) as (a & b & prev0 & Hs & Ha & Hlo & Hk). simpl in Hs.
    exists (String c a), b, prev0. simpl. rewrite Hs, Hc, Ha. repeat split; [lia|done].
Qed.

(** A string made of the class alone is consumed whole. *)
Lemma rep_all {R} (p : ascii -> bool) s : forall fuel lo prev (k : pos -> option R),
  all_chars p s = true -> lo <= String.length s -> String.length s <= fuel ->
  (forall prev0, is_Some (k (prev0, ""))) ->
  is_Some (rep p lo fuel (prev, s) k).
Proof.
  induction s as [|c s IH]; intros fuel lo prev k Hall Hlo Hfuel Hk; simpl in *.
  - assert (lo = 0) as -> by lia. destruct fuel; simpl; apply Hk.
  - destruct fuel as [|fuel]; [lia|]. cbn [rep snd].
    apply andb_true_iff in Hall as [Hc Hs]. rewrite Hc.
    destruct (IH fuel (Nat.pred lo) (Some c) k Hs) as [r Hr]; [lia|lia|done|].
    rewrite Hr. by eexists.
Qed.

Lemma digits_only_sound s :
  is_Some (match_ DataFormatter.digits_only s) -> tight s = true -> isdigit s = true.
Proof.
  intros [r H] Ht. unfold match_, DataFormatter.digits_only in H.
  cbn [seq run fst snd plus] in H.
  apply rep_sound in H as (a & b & prev & Hs & Ha & Hlo & Hk).
  cbn [fst snd] in Hs, Hk. subst s.
  assert (b = "") as ->.
  { destruct b as [|c [|d b']]; [done| |done].
    destruct (Ascii.eqb c "010") eqn:E; [|done].
    apply Ascii.eqb_eq in E. subst c. exfalso.
    clear -Ht. induction a as [|x a IH]; [done|].
    destruct a; simpl in *; by apply IH. }
  unfold isdigit. rewrite all_chars_app, Ha. simpl.
  destruct a; simpl in *; [lia|done].
Qed.

Lemma digits_only_complete s :
  isdigit s = true -> is_Some (match_ DataFormatter.digits_only s).
Proof.
  unfold isdigit. intros [Hn Hall]%andb_true_iff.
  unfold match_, DataFormatter.digits_only. cbn [seq run fst snd plus].
  apply rep_all; [done| |done|].
  - destruct s; [done|simpl; lia].
  - intros prev0. cbn [snd]. by eexists.
Qed.

End ReFacts.

(** ** DataFormatter: category and quantity values *)

Module FormatterFacts.
Import Statements Text TextFacts ReFacts DataFormatter.

Lemma dict_get_In {A} k (d : list (string * A)) v :
  dict_get k d = Some v -> In v (map snd d).
Proof.
  induction d as [|[k' v'] d IH]; simpl; [done|].
  destruct (String.eqb k k'); [|by right; apply IH].
  intros [= ->]. by left.
Qed.

(** Every number word maps to a digit string. *)
Lemma english_to_number_digits k n :
  dict_get k english_to_number = Some n -> isdigit n = true.
Proof.
  intros H%dict_get_In.
  assert (F : Forall (fun n => isdigit n = true) (map snd english_to_number))
    by (repeat constructor).
  rewrite List.Forall_forall in F. by apply F.
Qed.






(** C1 as stated fails: the quantity "several" comes out as "several",
    which is neither empty nor a digit string. *)
Lemma quantity_closure_counterexample :
  process_results 2025 false (fun _ _ => Ok "")
    (PDict [("Number_Places", PScalar (SStr "several"))])
  = Ok [("Number_Places", "several")]
  /\ "several" <> "" /\ isdigit "several" = false.
Proof. split; [reflexivity|]. split; [discriminate|reflexivity]. Qed.

(** C1, amended.  Quantity normalisation, the [number_fields] branch of
    [process_results]: for every input value the branch returns, and its
    output is the empty string, a string of decimal digits, or -- for a
    string input that, trimmed, is neither a digit string nor a number
    word -- the trimmed input itself. *)
Theorem number_value_closure this_year pad_year nested text_fields (value : pyval) :
  exists out,
    process_value this_year pad_year nested text_fields "Number_Places" value = Ok out /\
    (out = "" \/ isdigit out = true \/
     exists s, value = PScalar (SStr s) /\ out = strip s /\
               isdigit (strip s) = false /\
               dict_get (lower (strip s)) english_to_number = None).
Proof.
  destruct value as [v|l|d]; cbn [process_value];
    [|exists ""; split; [reflexivity|by left]..].
  exists (number_value v). split; [reflexivity|].
  unfold number_value.
  destruct (truthy v) eqn:Ht; cbn [andb]; [|by left].
  destruct (isdigit (strip (str v))) eqn:Hd; [by right; left|].
  destruct (is_str v) eqn:Hs; [|by left].
  destruct (dict_get _ english_to_number) as [n|] eqn:Hn.
  - right; left. by eapply english_to_number_digits.
  - right; right. destruct v as [| | | |s]; try discriminate.
    exists s. by cbn [str] in *.
Qed.

End FormatterFacts.

(** ** DataFormatter: dates *)

Module DateFacts.
Import Statements Text Re Strptime DataFormatter.

Lemma rewrite_none r t : match_ r t = None -> rewrite r t = t.
Proof. unfold rewrite. by intros ->. Qed.

Lemma rewritten_id t : no_rewrite t = true -> rewritten t = t.
Proof.
  unfold no_rewrite, rewritten.
  intros [[H1 H2]%andb_true_iff H3]%andb_true_iff.
  apply bool_decide_eq_true in H1, H2, H3.
  by rewrite (rewrite_none _ _ H1), (rewrite_none _ _ H2), (rewrite_none _ _ H3).
Qed.

Lemma try_formats_none this_year pad_year t formats :
  forallb (fun fmt => bool_decide (strptime t fmt = None)) formats = true ->
  try_formats this_year pad_year t formats = None.
Proof.
  induction formats as [|fmt rest IH]; simpl; [done|].
  intros [H1 H2]%andb_true_iff. apply bool_decide_eq_true in H1.
  rewrite H1. by apply IH.
Qed.

(** C5 as stated fails: " hello " matches no rewrite, parses under no
    format and holds no weekday date, yet it comes back as "hello". *)
Lemma unparseable_date_counterexample :
  no_rewrite " hello " = true /\ no_format " hello " = true /\
  search weekday_pattern " hello " = None /\
  format_date 2025 false (SStr " hello ") = "hello" /\
  format_date 2025 false (SStr " hello ") <> " hello ".
Proof. repeat split; try (vm_compute; reflexivity). vm_compute. discriminate. Qed.

(** C5, amended.  [format_date] maps the four example dates to their
    canonical form; and for every date string that, trimmed, matches none
    of the rewrites, parses under none of the formats and is not rescued
    by the weekday fallback, it returns the string with its leading and
    trailing whitespace removed. *)
Theorem format_date_canonical this_year pad_year :
  format_date this_year pad_year (SStr "9th of June, 2025") = "2025-06-09" /\
  format_date this_year pad_year (SStr "26.Jun.2025") = "2025-06-26" /\
  format_date this_year pad_year (SStr "15 July, 2025") = "2025-07-15" /\
  format_date this_year pad_year (SStr "Tuesday 30 September 2025") = "2025-09-30" /\
  forall s,
    no_rewrite (strip s) = true -> no_format (strip s) = true ->
    weekday_fallback pad_year (strip s) = None ->
    format_date this_year pad_year (SStr s) = strip s.
Proof.
  do 4 (split; [destruct pad_year; vm_compute; reflexivity|]).
  intros s Hr Hf Hw. unfold format_date. cbn [truthy isna str orb negb].
  destruct s as [|c s]; [reflexivity|]. cbn [nonempty negb].
  rewrite (rewritten_id _ Hr), (try_formats_none _ _ _ _ Hf), Hw. reflexivity.
Qed.

(** " hello " comes back trimmed. *)
Lemma format_date_canonical_witness :
  format_date 2025 false (SStr " hello ") = strip " hello ".
Proof.
  apply (format_date_canonical 2025 false); vm_compute; reflexivity.
Defined.

End DateFacts.

(** ** ExcelProcessor: row selection *)

Module SelectorFacts.
Import Statements Text ExcelProcessor.


Lemma notes_ok_iff v :
  notes_ok v = true <->
  is_empty v = true \/ exists x, v = SStr x /\ _is_url x = true.
Proof.
  unfold notes_ok, is_empty. split.
  - intros [H|H]%orb_true_iff; [by left|].
    destruct v as [| | | |x]; try discriminate. right. by exists x.
  - intros [->|(x & -> & ->)]; [done|]. apply orb_true_r.
Qed.

(** The columns [filter_rows] needs exist once it has run. *)
Lemma ensure_column_has d col : In col (columns (ensure_column d col)).
Proof.
  unfold ensure_column, mem. destruct (existsb _ _) eqn:E.
  - apply existsb_exists in E as (y & Hy & ->%String.eqb_eq). exact Hy.
  - simpl. apply in_or_app. right. by left.
Qed.

Lemma ensure_column_keeps d col c : In c (columns d) -> In c (columns (ensure_column d col)).
Proof.
  unfold ensure_column. destruct (mem col (columns d)); [done|].
  simpl. intros H. apply in_or_app. by left.
Qed.

Lemma filter_rows_columns self col :
  In col required_columns -> In col (columns (df (snd (filter_rows self)))).
Proof.
  unfold filter_rows, required_columns. cbn [snd df fold_left].
  intros [<-|[<-|[<-|[]]]].
  - by do 2 apply ensure_column_keeps; apply ensure_column_has.
  - by apply ensure_column_keeps, ensure_column_has.
  - apply ensure_column_has.
Qed.

(** A column [filter_rows] creates is empty in every row. *)
Lemma ensure_column_empty d col r :
  ~ In col (columns d) -> In r (rows (ensure_column d col)) -> is_empty (cell r col) = true.
Proof.
  intros Hc. unfold ensure_column.
  destruct (mem col (columns d)) eqn:E.
  - exfalso. apply Hc. unfold mem in E.
    apply existsb_exists in E as (y & Hy & ->%String.eqb_eq). exact Hy.
  - cbn [rows]. intros (r0 & <- & _)%in_map_iff.
    unfold cell. cbn [snd]. by rewrite lookup_insert_eq.
Qed.

(** The selection keeps the order of the table. *)
Lemma filter_rows_order self :
  sublist (fst (filter_rows self)) (rows (df (snd (filter_rows self)))).
Proof.
  unfold filter_rows. cbn [fst snd df].
  induction (rows _) as [|r rs IH]; cbn [List.filter]; [constructor|].
  destruct (mask r); by constructor.
Qed.

Lemma mem_app x l l' : mem x (l ++ l') = (mem x l || mem x l')%bool.
Proof. unfold mem. apply existsb_app. Qed.

Lemma backfill_lookup cols : forall (cells : gmap string scalar) name,
  fold_left (fun cells col => <[col := SNone]> cells) cols cells !! name
  = if mem name cols then Some SNone else cells !! name.
Proof.
  induction cols as [|col cols IH]; intros cells name; [done|].
  cbn [fold_left]. rewrite IH. unfold mem. cbn [existsb].
  fold (mem name cols). destruct (mem name cols); [by rewrite orb_true_r|].
  rewrite orb_false_r. destruct (String.eqb_spec name col) as [->|Hne].
  - by rewrite lookup_insert_eq.
  - by rewrite lookup_insert_ne.
Qed.

Lemma cell_backfill cols r name :
  cell (backfill cols r) name = if mem name cols then SNone else cell r name.
Proof.
  unfold cell, backfill. cbn [snd]. rewrite backfill_lookup.
  by destruct (mem name cols).
Qed.

(** What [filter_rows] makes of the table. *)
Lemma filter_rows_table self :
  df (snd (filter_rows self))
  = Frame (columns (df self) ++ missing_columns (df self))
          (map (backfill (missing_columns (df self))) (rows (df self))).
Proof.
  unfold filter_rows, missing_columns, required_columns. cbn [snd df fold_left List.filter].
  destruct (df self) as [cols rws]. cbn [columns].
  assert (Hid : map (backfill []) rws = rws).
  { rewrite <- (map_id rws) at 2. apply map_ext. by intros []. }
  unfold ensure_column at 3. cbn [columns rows].
  destruct (mem "Notes" cols) eqn:E1; cbn [negb];
    unfold ensure_column at 2; cbn [columns rows]; rewrite ?mem_app, ?E1;
    destruct (mem "Verifier" cols) eqn:E2; cbn [orb negb mem existsb String.eqb Ascii.eqb Bool.eqb];
    unfold ensure_column; cbn [columns rows]; rewrite ?mem_app, ?E2;
    destruct (mem "Error" cols) eqn:E3; cbn [orb negb mem existsb String.eqb Ascii.eqb Bool.eqb];
    rewrite ?app_nil_r, ?Hid, ?map_map, <- ?app_assoc; reflexivity.
Qed.

(** C2.  [filter_rows] selects a row of the loaded table if and only if
    its Notes cell is empty or holds a string that matches the URL pattern,
    its Verifier cell is empty and its Error cell is empty, a column the
    table lacks counting as empty: the selection is the rows of the table
    that meet the three conditions, in table order, and nothing else; so a
    row whose Verifier cell is not empty is never selected, whatever its
    Notes and Error cells hold. *)
Theorem filter_rows_selects (self : t) :
  fst (filter_rows self) = List.filter mask (map (seen self) (rows (df self))) /\
  (forall r name,
     cell (seen self r) name
     = if mem name (missing_columns (df self)) then SNone else cell r name) /\
  (forall r, In r (rows (df self)) ->
     (In (seen self r) (fst (filter_rows self)) <->
      (is_empty (cell (seen self r) "Notes") = true \/
       exists x, cell (seen self r) "Notes" = SStr x /\ _is_url x = true) /\
      is_empty (cell (seen self r) "Verifier") = true /\
      is_empty (cell (seen self r) "Error") = true)) /\
  (forall r', In r' (fst (filter_rows self)) ->
     exists r, In r (rows (df self)) /\ r' = seen self r) /\
  (forall r, In r (rows (df self)) ->
     is_empty (cell (seen self r) "Verifier") = false ->
     ~ In (seen self r) (fst (filter_rows self))).
Proof.
  assert (Hsel : fst (filter_rows self)
                 = List.filter mask (map (seen self) (rows (df self)))).
  { pose proof (filter_rows_table self) as T. unfold filter_rows in *.
    cbn [fst snd df] in *. by rewrite T. }
  assert (Hmask : forall r, mask r = true <->
                  (is_empty (cell r "Notes") = true \/
                   exists x, cell r "Notes" = SStr x /\ _is_url x = true) /\
                  is_empty (cell r "Verifier") = true /\
                  is_empty (cell r "Error") = true).
  { intros r. unfold mask. rewrite !andb_true_iff, notes_ok_iff. tauto. }
  split; [exact Hsel|]. split; [intros r name; apply cell_backfill|].
  rewrite Hsel. split; [|split].
  - intros r Hr. rewrite filter_In, Hmask. split; [tauto|].
    intros H. split; [|exact H]. apply in_map_iff. by exists r.
  - intros r' [Hr' _]%filter_In. apply in_map_iff in Hr' as (r & <- & Hr). by exists r.
  - intros r Hr Hv [_ Hm]%filter_In. apply Hmask in Hm as (_ & Hv' & _). congruence.
Qed.

(** A verified row with a URL in its Notes is not selected. *)
Lemma filter_rows_selects_witness :
  ~ In (seen (Processor (Frame ["Source"; "Notes"; "Verifier"] [verified_row]) ∅ ∅)
             verified_row)
      (fst (filter_rows (Processor (Frame ["Source"; "Notes"; "Verifier"] [verified_row]) ∅ ∅))).
Proof.
  apply (filter_rows_selects
           (Processor (Frame ["Source"; "Notes"; "Verifier"] [verified_row]) ∅ ∅)).
  - cbn. by left.
  - vm_compute. reflexivity.
Defined.

End SelectorFacts.

(** ** LlmProcessor: reply parsing *)

Module ParserFacts.
Import Statements Text LlmProcessor.

Lemma append_cons x a b : String x a +:+ b = String x (a +:+ b).
Proof. reflexivity. Qed.

Lemma append_nil b : "" +:+ b = b.
Proof. reflexivity. Qed.

Lemma length_app a b : String.length (a +:+ b) = String.length a + String.length b.
Proof.
  induction a as [|x a IH]; [done|].
  rewrite append_cons. cbn [String.length]. by rewrite IH.
Qed.

Lemma drop_app a b : drop (String.length a) (a +:+ b) = b.
Proof.
  induction a as [|x a IH]; [by destruct b|].
  rewrite append_cons. cbn [String.length drop]. exact IH.
Qed.

Lemma take_app a b : take (String.length a) (a +:+ b) = a.
Proof.
  induction a as [|x a IH]; [by destruct b|].
  rewrite append_cons. cbn [String.length take]. by rewrite IH.
Qed.

Lemma append_assoc a b c : (a +:+ b) +:+ c = a +:+ (b +:+ c).
Proof.
  induction a as [|x a IH]; [done|].
  rewrite !append_cons. by rewrite IH.
Qed.

(** [find] gives the first occurrence. *)
Lemma find_first c a rest :
  without c a = true -> find c (a +:+ String c rest) = Some (String.length a).
Proof.
  unfold without. induction a as [|x a IH].
  - intros _. rewrite append_nil. cbn [find]. by rewrite Ascii.eqb_refl.
  - cbn [all_chars]. intros [Hx Ha]%andb_true_iff. apply negb_true_iff in Hx.
    rewrite append_cons. cbn [find String.length]. rewrite Hx.
    by rewrite (IH Ha).
Qed.

Lemma find_split c s i :
  find c s = Some i ->
  exists a rest, s = a +:+ String c rest /\ String.length a = i /\ without c a = true.
Proof.
  unfold without. revert i. induction s as [|x s IH]; intros i; cbn [find]; [done|].
  destruct (Ascii.eqb x c) eqn:E.
  - intros [= <-]. apply Ascii.eqb_eq in E as ->. by exists "", s.
  - destruct (find c s) as [k|]; [|done]. intros [= <-].
    destruct (IH k eq_refl) as (a & rest & -> & <- & Ha).
    exists (String x a), rest. cbn [all_chars String.length]. by rewrite E, Ha.
Qed.

Lemma rfind_none c s : rfind c s = None <-> without c s = true.
Proof.
  unfold without. induction s as [|x s IH]; cbn [rfind all_chars]; [done|].
  destruct (rfind c s) as [k|].
  - split; [done|]. intros [_ H]%andb_true_iff. apply IH in H. discriminate.
  - destruct (Ascii.eqb x c); cbn [negb andb]; [done|]. tauto.
Qed.

(** [rfind] looks in the tail first. *)
Lemma rfind_app c a b :
  rfind c (a +:+ b) =
  match rfind c b with
  | Some k => Some (String.length a + k)
  | None => rfind c a
  end.
Proof.
  induction a as [|x a IH]; [rewrite append_nil; by destruct (rfind c b)|].
  rewrite append_cons. cbn [rfind String.length]. rewrite IH.
  by destruct (rfind c b).
Qed.

Lemma rfind_lt c s j : rfind c s = Some j -> j < String.length s.
Proof.
  revert j. induction s as [|x s IH]; intros j; cbn [rfind String.length]; [done|].
  destruct (rfind c s) as [k|].
  - intros [= <-]. specialize (IH k eq_refl). lia.
  - destruct (Ascii.eqb x c); [|done]. intros [= <-]. lia.
Qed.

Lemma rfind_split c s j :
  rfind c s = Some j ->
  exists pre tail, s = pre +:+ String c tail /\ String.length pre = j /\ without c tail = true.
Proof.
  revert j. induction s as [|x s IH]; intros j; cbn [rfind]; [done|].
  destruct (rfind c s) as [k|] eqn:Hk.
  - intros [= <-]. destruct (IH k eq_refl) as (pre & tail & -> & <- & Ht).
    by exists (String x pre), tail.
  - destruct (Ascii.eqb x c) eqn:E; [|done]. intros [= <-].
    apply Ascii.eqb_eq in E as ->. exists "", s. by apply rfind_none in Hk.
Qed.

Lemma find_le c a rest :
  exists i, find c (a +:+ String c rest) = Some i /\ i <= String.length a.
Proof.
  induction a as [|x a (i & Hi & Hle)].
  - exists 0. rewrite append_nil. cbn [find]. by rewrite Ascii.eqb_refl.
  - rewrite append_cons. cbn [find String.length].
    destruct (Ascii.eqb x c); [exists 0; split; [done|lia]|].
    exists (S i). rewrite Hi. split; [done|lia].
Qed.

(** The test of the parser holds exactly when a brace pair spans part of
    the reply, and then the first [{] and the last [}] do. *)
Lemma span_found output :
  (0 <=? find_Z "{" output)%Z && (find_Z "{" output <? rfind_Z "}" output + 1)%Z = true ->
  exists a b c, output = a +:+ "{" +:+ b +:+ "}" +:+ c /\
                without "{" a = true /\ without "}" c = true.
Proof.
  unfold find_Z, rfind_Z. intros [H0 H1]%andb_true_iff.
  destruct (find "{" output) as [i|] eqn:Hi; [|done].
  apply find_split in Hi as (a & rest & -> & <- & Ha).
  rewrite rfind_app in H1. cbn [rfind] in H1.
  destruct (rfind "}" rest) as [k|] eqn:Hk.
  - apply rfind_split in Hk as (b & c & -> & _ & Hc). by exists a, b, c.
  - cbn [Ascii.eqb] in H1. simpl in H1.
    destruct (rfind "}" a) as [j|] eqn:Hj.
    + apply rfind_lt in Hj. apply Z.ltb_lt in H1. lia.
    + apply Z.ltb_lt in H1. lia.
Qed.

Lemma span_test output a b c :
  output = a +:+ "{" +:+ b +:+ "}" +:+ c ->
  (0 <=? find_Z "{" output)%Z && (find_Z "{" output <? rfind_Z "}" output + 1)%Z = true.
Proof.
  intros ->. unfold find_Z, rfind_Z. rewrite !append_cons, !append_nil.
  destruct (find_le "{" a (b +:+ String "}" c)) as (i & -> & Hi).
  replace (a +:+ String "{" (b +:+ String "}" c))
    with ((a +:+ String "{" b) +:+ String "}" c)
    by (by rewrite append_assoc, append_cons).
  rewrite rfind_app.
  assert (exists k, rfind "}" (String "}" c) = Some k) as [k ->].
  { cbn [rfind]. destruct (rfind "}" c); rewrite ?Ascii.eqb_refl; by eexists. }
  rewrite length_app. cbn [String.length].
  apply andb_true_iff. split; [apply Z.leb_le|apply Z.ltb_lt]; lia.
Qed.

(** Every reply has a brace span from its first [{] to its last [}], or
    no brace span at all. *)
Lemma span_cases output :
  (exists a b c, output = a +:+ "{" +:+ b +:+ "}" +:+ c /\
                 without "{" a = true /\ without "}" c = true) \/
  (forall a b c, output <> a +:+ "{" +:+ b +:+ "}" +:+ c).
Proof.
  destruct ((0 <=? find_Z "{" output)%Z && (find_Z "{" output <? rfind_Z "}" output + 1)%Z)
    eqn:E.
  - left. by apply span_found.
  - right. intros a b c H. apply span_test in H. congruence.
Qed.

(** C3 as stated fails: for the reply [[{},{}]] the span [{},{}] does not
    decode, the whole reply does, and the parser returns the empty mapping
    without trying the whole reply. *)
Lemma parse_fallback_counterexample :
  json_loads "{},{}" = Malformed /\
  json_loads "[{},{}]" = Decoded (PList [PDict []; PDict []]) /\
  parse_as_specified json_loads "[{},{}]" = Ok (PList [PDict []; PDict []]) /\
  _parse_model_output json_loads "[{},{}]" = Ok (PDict []).
Proof. repeat split; vm_compute; reflexivity. Qed.

(** Where the first [{] and the last [}] of a reply are, and the span the
    parser cuts out. *)
Lemma span_slice a b c :
  without "{" a = true -> without "}" c = true ->
  let output := a +:+ "{" +:+ b +:+ "}" +:+ c in
  find_Z "{" output = Z.of_nat (String.length a) /\
  rfind_Z "}" output = Z.of_nat (String.length a + 1 + String.length b) /\
  slice (Z.of_nat (String.length a))
        (Z.of_nat (String.length a + 1 + String.length b) + 1) output
  = "{" +:+ b +:+ "}".
Proof.
  intros Ha Hc output. subst output. unfold find_Z, rfind_Z.
  rewrite !append_cons, !append_nil.
  rewrite (find_first _ _ _ Ha). split; [done|].
  assert (Hr : rfind "}" (a +:+ String "{" (b +:+ String "}" c))
               = Some (String.length a + 1 + String.length b)).
  { replace (a +:+ String "{" (b +:+ String "}" c))
      with ((a +:+ String "{" b) +:+ String "}" c)
      by (by rewrite append_assoc, append_cons).
    rewrite rfind_app. cbn [rfind].
    apply rfind_none in Hc. rewrite Hc, Ascii.eqb_refl.
    rewrite length_app. cbn [String.length]. f_equal. lia. }
  rewrite Hr. split; [done|].
  unfold slice. rewrite Nat2Z.id, drop_app.
  replace (Z.to_nat (Z.of_nat (String.length a + 1 + String.length b) + 1) - String.length a)
    with (String.length (String "{" (b +:+ "}")))
    by (cbn [String.length]; rewrite length_app; cbn [String.length]; lia).
  replace (String "{" (b +:+ String "}" c)) with (String "{" (b +:+ "}") +:+ c)
    by (by rewrite append_cons, append_assoc).
  apply take_app.
Qed.

(** C3, amended.  For every reply, the parser locates the first [{] and
    the last [}]; when both exist in that order it decodes the span between
    them, and only when no such span exists does it decode the whole
    reply.  Whichever text it decodes, it returns the decoded value, or
    the empty mapping when the text is malformed, without another attempt;
    any other exception of the decoder -- the ValueError of an integer too
    long, the RecursionError of a nesting too deep -- leaves the parser. *)
Theorem parse_model_output_algorithm (loads : string -> decoded pyval) (output : string) :
  (forall a b c,
     output = a +:+ "{" +:+ b +:+ "}" +:+ c ->
     without "{" a = true -> without "}" c = true ->
     _parse_model_output loads output
     = match loads ("{" +:+ b +:+ "}") with
       | Decoded data => Ok data
       | Malformed => Ok (PDict [])
       | Thrown e => Raise e
       end) /\
  ((forall a b c, output <> a +:+ "{" +:+ b +:+ "}" +:+ c) ->
   _parse_model_output loads output
   = match loads output with
     | Decoded data => Ok data
     | Malformed => Ok (PDict [])
     | Thrown e => Raise e
     end).
Proof.
  split.
  - intros a b c -> Ha Hc. unfold _parse_model_output.
    destruct (span_slice a b c Ha Hc) as (-> & -> & Hs).
    replace ((0 <=? Z.of_nat (String.length a))%Z &&
             (Z.of_nat (String.length a) <?
              Z.of_nat (String.length a + 1 + String.length b) + 1)%Z) with true
      by (symmetry; apply andb_true_iff; split; [apply Z.leb_le|apply Z.ltb_lt]; lia).
    by rewrite Hs.
  - intros Hno. unfold _parse_model_output.
    destruct (_ && _)%bool eqn:E; [|done].
    apply span_found in E as (a & b & c & -> & _). by destruct (Hno a b c).
Qed.

(** The replies of the specification: JSON inside a code fence, and text
    without JSON. *)
Example reply_extraction :
  _parse_model_output json_loads
    ("Sure! ```json" +:+ nl +:+ "{" +:+ dq +:+ "a" +:+ dq +:+ ":1}" +:+ nl +:+ "```")
  = Ok (PDict [("a", PScalar (SInt 1))]) /\
  _parse_model_output json_loads "no JSON in this reply" = Ok (PDict []).
Proof. split; vm_compute; reflexivity. Qed.

(** A reply that is an integer of 4301 digits: the decoder raises
    ValueError, and so does the parser. *)
Example reply_of_digits :
  _parse_model_output json_loads digits_reply = Raise (Json.digits_exceeded 4301).
Proof. vm_compute. reflexivity. Qed.

(** A reply with a brace span, and one without. *)
Lemma parse_model_output_algorithm_witness :
  _parse_model_output json_loads "Sure: {} done"
  = match json_loads "{}" with
    | Decoded data => Ok data
    | Malformed => Ok (PDict [])
    | Thrown e => Raise e
    end /\
  _parse_model_output json_loads "no json"
  = match json_loads "no json" with
    | Decoded data => Ok data
    | Malformed => Ok (PDict [])
    | Thrown e => Raise e
    end.
Proof.
  destruct (parse_model_output_algorithm json_loads "Sure: {} done") as [H _].
  destruct (parse_model_output_algorithm json_loads "no json") as [_ H'].
  split.
  - apply (H "Sure: " "" " done"); reflexivity.
  - apply H'. intros a b c E.
    assert (W : without "{" (a +:+ "{" +:+ b +:+ "}" +:+ c) = true) by (by rewrite <- E).
    clear E. induction a as [|x a IH]; simpl in W; [done|].
    apply andb_true_iff in W as [_ W]. by apply IH.
Defined.

(** C4 fails on the code: a reply that is a bare JSON number decodes as a
    whole, and the parser returns the number, not a mapping. *)
Theorem parse_model_output_bare_number :
  _parse_model_output json_loads "42" = Ok (PScalar (SInt 42)).
Proof. vm_compute. reflexivity. Qed.

End ParserFacts.

(** ** ExcelProcessor: write-back *)

Module WriterFacts.
Import Statements Text ExcelProcessor.

Lemma index_none x l : index x l = None <-> ~ In x l.
Proof.
  induction l as [|y l IH]; cbn [index In]; [tauto|].
  destruct (String.eqb_spec x y) as [->|Hne].
  - split; [done|]. intros H. exfalso. apply H. by left.
  - rewrite fmap_None, IH. split; [intros H [E|E]; [by apply Hne|by apply H]|tauto].
Qed.

Lemma index_inj x y l i : index x l = Some i -> index y l = Some i -> x = y.
Proof.
  revert i. induction l as [|z l IH]; intros i; cbn [index]; [done|].
  destruct (String.eqb_spec x z) as [->|Hx], (String.eqb_spec y z) as [->|Hy].
  - done.
  - intros [= <-]. destruct (index y l); done.
  - destruct (index x l); [|done]. intros [= <-]. done.
  - destruct (index x l) as [a|] eqn:Ea; [|done].
    destruct (index y l) as [b|] eqn:Eb; [|done].
    cbn. intros [= <-] [= ->]. by apply (IH a).
Qed.

Lemma column_index_unknown self name :
  ~ In name (columns (df self)) -> _get_column_index self name = 0.
Proof. intros H%index_none. unfold _get_column_index. by rewrite H. Qed.

Lemma column_index_known self name :
  In name (columns (df self)) -> _get_column_index self name <> 0.
Proof.
  intros H. unfold _get_column_index.
  destruct (index name _) as [i|] eqn:E; [lia|]. by apply index_none in E.
Qed.

Lemma column_index_inj self a b :
  _get_column_index self a = _get_column_index self b ->
  _get_column_index self a <> 0 -> a = b.
Proof.
  unfold _get_column_index.
  destruct (index a _) as [i|] eqn:Ea; [|done].
  destruct (index b _) as [j|] eqn:Eb; [|lia].
  intros E _. assert (i = j) as -> by lia. by eapply index_inj.
Qed.

(** The cell a failure write touches, and what it holds then. *)
Lemma write_error_ws this_year pad_year nested save self row_index results error_msg :
  ws (fst (write_results this_year pad_year nested save self row_index results true error_msg))
  = if Nat.eqb (_get_column_index self "Error") 0 then ws self
    else match check_string error_msg with
         | Ok text =>
             <[(row_index + 2, _get_column_index self "Error") := SStr text]> (ws self)
         | Raise _ => ws self
         end.
Proof.
  unfold write_results, write_cells, cell_set, stored.
  replace (row_index + 2 =? 0)%nat with false by (symmetry; apply Nat.eqb_neq; lia).
  cbn [orb]. destruct (Nat.eqb (_get_column_index self "Error") 0); [done|].
  destruct (check_string error_msg) as [text|e]; cbn [mbind result_bind]; [|done].
  by destruct (save _).
Qed.

Lemma write_results_df this_year pad_year nested save self row_index results has_error msg :
  df (fst (write_results this_year pad_year nested save self row_index results has_error msg))
  = df self.
Proof.
  unfold write_results. destruct (write_cells _ _ _ _ _ _ _ _) as [w [e|]]; [done|].
  by destruct (save w).
Qed.

(** C8.  A failure write, [write_results] with [has_error=True], leaves
    the table and every cell of the sheet other than the Error cell of the
    row as they were: for every column name other than Error -- the
    extraction fields and Verifier -- the cell of that column in the row is
    unchanged. *)
Theorem write_error_frame this_year pad_year nested save self row_index results error_msg :
  let self' :=
    fst (write_results this_year pad_year nested save self row_index results true error_msg) in
  df self' = df self /\
  (forall r c, (r, c) <> (row_index + 2, _get_column_index self "Error") ->
               ws self' !! (r, c) = ws self !! (r, c)) /\
  (forall name, name <> "Error" ->
                ws self' !! (row_index + 2, _get_column_index self name)
                = ws self !! (row_index + 2, _get_column_index self name)).
Proof.
  cbn zeta. rewrite write_results_df, write_error_ws.
  destruct (Nat.eqb_spec (_get_column_index self "Error") 0) as [E0|E0].
  - by repeat split.
  - destruct (check_string error_msg) as [text|e]; [|by repeat split].
    split; [done|]. split.
    + intros r c Hne. by rewrite lookup_insert_ne.
    + intros name Hne. rewrite lookup_insert_ne; [done|].
      intros [= E]. apply Hne. symmetry. apply (column_index_inj self); [|done]. by symmetry.
Qed.

(** A failure write leaves the Deadline cell of the row alone. *)
Lemma write_error_frame_witness :
  ws (fst (write_results 2025 false (fun _ _ => Ok "") (fun _ => None)
             demo_table 0 (PDict []) true "failed"))
    !! (2, _get_column_index demo_table "Deadline")
  = ws demo_table !! (2, _get_column_index demo_table "Deadline").
Proof.
  apply (write_error_frame 2025 false (fun _ _ => Ok "") (fun _ => None)
           demo_table 0 (PDict []) "failed").
  discriminate.
Defined.

Lemma mem_In x l : mem x l = true <-> In x l.
Proof.
  unfold mem. rewrite existsb_exists. split.
  - intros (y & Hy & ->%String.eqb_eq). exact Hy.
  - intros H. exists x. split; [done|apply String.eqb_refl].
Qed.

Lemma write_fields_known self w row_index items :
  write_fields self w (row_index + 2) items
  = write_fields self w (row_index + 2) (List.filter (known self) items).
Proof.
  revert w. induction items as [|[name value] rest IH]; intros w; [done|].
  cbn [List.filter write_fields]. unfold known at 1. cbn [fst].
  destruct (mem name (columns (df self))) eqn:Hm.
  - cbn [write_fields]. apply mem_In, column_index_known in Hm.
    apply Nat.eqb_neq in Hm. rewrite Hm.
    destruct (cell_set _ _ _ _) as [w' [e|]]; [done|]. apply IH.
  - assert (Hn : ~ In name (columns (df self))).
    { intros H%mem_In. congruence. }
    rewrite (column_index_unknown _ _ Hn). cbn. apply IH.
Qed.

(** The stamp is a string the sheet takes. *)
Lemma check_string_stamp : check_string "LLM" = Ok "LLM".
Proof. vm_compute. reflexivity. Qed.

(** The end of a success write. *)
Lemma write_cells_finish this_year pad_year nested self row_index results processed msg :
  DataFormatter.process_results this_year pad_year nested results = Ok processed ->
  write_cells this_year pad_year nested self (row_index + 2) results false msg
  = finish self (row_index + 2) (write_fields self (ws self) (row_index + 2) processed).
Proof.
  intros HP. unfold write_cells, finish, stamp. rewrite HP.
  destruct (write_fields self (ws self) (row_index + 2) processed) as [w [e|]]; [done|].
  destruct (Nat.eqb (_get_column_index self "Verifier") 0) eqn:E; [done|].
  unfold cell_set, stored.
  replace (row_index + 2 =? 0)%nat with false by (symmetry; apply Nat.eqb_neq; lia).
  cbn [orb]. by rewrite E, check_string_stamp.
Qed.

(** C10.  On a success write, a normalised field whose name is not a
    column of the table is skipped: the column lookup gives 0 for it, and
    the write does to the sheet and logs what it does and logs on the
    fields with known names alone; fields none of which has a known name
    write no cell and raise nothing. *)
Theorem unknown_fields_skipped this_year pad_year nested self row_index results processed msg :
  DataFormatter.process_results this_year pad_year nested results = Ok processed ->
  (forall name, ~ In name (columns (df self)) -> _get_column_index self name = 0) /\
  write_cells this_year pad_year nested self (row_index + 2) results false msg
  = finish self (row_index + 2)
      (write_fields self (ws self) (row_index + 2) (List.filter (known self) processed)) /\
  (forall w items,
     write_fields self w (row_index + 2) items
     = write_fields self w (row_index + 2) (List.filter (known self) items)) /\
  (forall w items,
     (forall item, In item items -> ~ In (fst item) (columns (df self))) ->
     write_fields self w (row_index + 2) items = (w, None)).
Proof.
  intros HP. split; [apply column_index_unknown|]. split; [|split].
  - rewrite (write_cells_finish _ _ _ _ _ _ _ _ HP). by rewrite <- write_fields_known.
  - intros w items. apply write_fields_known.
  - intros w items H. rewrite write_fields_known.
    replace (List.filter (known self) items) with (@nil (string * string)); [done|].
    symmetry. induction items as [|item rest IH]; [done|]. cbn [List.filter].
    assert (known self item = false) as ->.
    { unfold known. destruct (mem (fst item) (columns (df self))) eqn:E; [|done].
      apply mem_In in E. exfalso. apply (H item); [by left|done]. }
    apply IH. intros item' Hin. apply H. by right.
Qed.

(** A field named Invented is written nowhere. *)
Lemma unknown_fields_skipped_witness :
  _get_column_index demo_table "Invented" = 0 /\
  write_cells 2025 false (fun _ _ => Ok "") demo_table (0 + 2)
    (PDict [("Invented", PScalar (SStr "x"))]) false ""
  = finish demo_table (0 + 2)
      (write_fields demo_table (ws demo_table) (0 + 2)
         (List.filter (known demo_table) [("Invented", "x")])).
Proof.
  destruct (unknown_fields_skipped 2025 false (fun _ _ => Ok "") demo_table 0
              (PDict [("Invented", PScalar (SStr "x"))]) [("Invented", "x")] "")
    as (H1 & H2 & _); [reflexivity|].
  split; [|exact H2].
  apply H1. cbn. intuition discriminate.
Defined.

End WriterFacts.

(** ** ExtractionSystem: the per-row loop *)

Module RunFacts.
Import Statements Text ExcelProcessor WebPageExtractor LlmProcessor ExtractionSystem WriterFacts.

Section Row.

Variable this_year : nat.
Variable pad_year : bool.
Variable nested : string -> pyval -> result string.
Variable save : worksheet -> option exn.
Variable http_get : string -> result response.
Variable pdf_text : string -> result string.
Variable html_text : string -> result string.
Variable loads : string -> decoded pyval.
Variable prompt_template : string -> list string -> string.
Variable generate : string -> result string.
Variable url_column : string.
Variable batch_size : Z.
Variable fields : list string.

Let write_ := write this_year pad_year nested save.
Let try_row_ := try_row this_year pad_year nested save http_get pdf_text html_text loads
                  prompt_template generate url_column batch_size fields.
Let process_row_ := process_row this_year pad_year nested save http_get pdf_text html_text
                      loads prompt_template generate url_column batch_size fields.
Let loop_ := loop this_year pad_year nested save http_get pdf_text html_text loads
               prompt_template generate url_column batch_size fields.
Let extract_ := extract_structured_info loads prompt_template generate.

Lemma failure_message_nonempty e : "处理失败: " +:+ exn_text e <> "".
Proof. discriminate. Qed.

Lemma try_row_df self i r : df (fst (fst (try_row_ self i r))) = df self.
Proof.
  unfold try_row_, try_row.
  destruct (row_url _ _ _) as [[url|]|e]; [|done..].
  destruct (extract_content _ _ _ _) as [web_content|e]; [|done].
  destruct (extract_structured_info _ _ _ _ _) as [info|e]; [|done].
  destruct (write _ _ _ _ _ _ _ _ _) as [self' logged] eqn:W.
  assert (df self' = df self) as D.
  { change self' with (fst (self', logged)). rewrite <- W. apply write_results_df. }
  destruct (batch_size =? 0)%Z; [done|]. by destruct (_ =? 0)%Z.
Qed.

(** The [except] of the row: the message goes to the Error cell of the
    row, and to no other cell. *)
Lemma handler_writes self i r self1 evs e :
  In "Error" (columns (df self)) ->
  try_row_ self i r = (self1, evs, Some e) ->
  exists logged self2,
    process_row_ self i r = (self2, evs ++ [Failed (fst r) e logged]) /\
    ws self2 = marked self (fst r) ("处理失败: " +:+ exn_text e) (ws self1).
Proof.
  intros HE HT. unfold process_row_, process_row. fold try_row_. rewrite HT.
  destruct (write _ _ _ _ _ _ _ _ _) as [self2 logged] eqn:W.
  exists logged, self2. split; [done|].
  change self2 with (fst (self2, logged)). rewrite <- W. unfold write, marked.
  rewrite write_error_ws.
  assert (D : df self1 = df self).
  { change self1 with (fst (fst (self1, evs, Some e))). rewrite <- HT. apply try_row_df. }
  assert (C : _get_column_index self1 "Error" = _get_column_index self "Error").
  { unfold _get_column_index. by rewrite D. }
  rewrite C. apply column_index_known, Nat.eqb_neq in HE. by rewrite HE.
Qed.

(** The table, and with it the Error column [filter_rows] created, stays
    as it is from one row to the next. *)
Lemma process_row_df self i r : df (fst (process_row_ self i r)) = df self.
Proof.
  unfold process_row_, process_row. fold try_row_.
  pose proof (try_row_df self i r) as D.
  destruct (try_row_ self i r) as [[self1 evs] [e|]]; cbn [fst] in *; [|done].
  destruct (write _ _ _ _ _ _ _ _ _) as [self2 logged] eqn:W.
  change self2 with (fst (self2, logged)). rewrite <- W. unfold write.
  etransitivity; [apply write_results_df|exact D].
Qed.

(** A request that fails makes the fetcher return its marker. *)
Lemma fetch_failure_marker u e :
  http_get (strip u) = Raise e ->
  extract_content http_get pdf_text html_text (SStr u) = Ok (failure_marker "提取失败" e).
Proof.
  intros H. unfold extract_content, extract_pdf_from_url, extract_html_page.
  rewrite H. by destruct (_ || _)%bool.
Qed.

(** An exception of the model call or of the parse of the reply leaves
    the body of the row. *)
Lemma model_step_raises self i r url web_content e :
  row_url url_column self r = Ok (Some url) ->
  extract_content http_get pdf_text html_text url = Ok web_content ->
  extract_ web_content fields = Raise e ->
  try_row_ self i r = (self, [], Some e).
Proof.
  intros HU HC HX. unfold try_row_, try_row. fold extract_. by rewrite HU, HC, HX.
Qed.

(** Once the reply is parsed, nothing leaves the [try] of the row (for a
    batch size other than 0): what [write_results] caught stays in its
    log. *)
Lemma write_step_contained self i r url web_content info :
  row_url url_column self r = Ok (Some url) ->
  extract_content http_get pdf_text html_text url = Ok web_content ->
  extract_ web_content fields = Ok info ->
  batch_size <> 0%Z ->
  exists slept,
    process_row_ self i r
    = (fst (write_ self (fst r) info false ""),
       Wrote (fst r) (snd (write_ self (fst r) info false "")) :: slept) /\
    (slept = [] \/ slept = [Slept]).
Proof.
  intros HU HC HX HB. unfold process_row_, process_row, try_row. fold extract_.
  rewrite HU, HC, HX. fold write_.
  destruct (write_ self (fst r) info false "") as [self' logged].
  destruct (batch_size =? 0)%Z eqn:E; [by apply Z.eqb_eq in E|].
  destruct ((Z.of_nat i + 1) mod batch_size =? 0)%Z;
    [exists [Slept]|exists []]; cbn [fst snd]; (split; [reflexivity|auto]).
Qed.

(** A normalisation that raises writes nothing. *)
Lemma normalize_raise_swallowed self idx info e :
  DataFormatter.process_results this_year pad_year nested info = Raise e ->
  snd (write_ self idx info false "") = Some e /\
  ws (fst (write_ self idx info false "")) = ws self.
Proof.
  intros H. unfold write_, write, write_results, write_cells. by rewrite H.
Qed.

(** Every row given to the loop gets its turn. *)
Lemma loop_visits rs : forall self i r,
  In r rs -> exists ev, In ev (snd (loop_ self i rs)) /\ event_row ev = Some (fst r).
Proof.
  induction rs as [|r0 rest IH]; intros self i r; [done|].
  unfold loop_. cbn [loop]. fold process_row_. fold loop_.
  destruct (process_row_ self i r0) as [self' evs] eqn:P.
  destruct (loop_ self' (S i) rest) as [self'' evs'] eqn:L. cbn [snd].
  intros [<-|Hin].
  - assert (exists ev, In ev evs /\ event_row ev = Some (fst r0)) as (ev & Hev & Hr).
    { revert P. unfold process_row_, process_row, try_row.
      destruct (row_url _ _ _) as [[url|]|e].
      - destruct (extract_content _ _ _ _) as [web_content|e].
        + destruct (extract_structured_info _ _ _ _ _) as [info|e].
          * destruct (write _ _ _ _ _ _ _ _ _) as [s1 logged].
            destruct (batch_size =? 0)%Z.
            -- destruct (write _ _ _ _ _ _ _ _ _) as [s2 logged2].
               intros [= _ <-]. eexists. split; [by left|done].
            -- destruct (_ =? 0)%Z; intros [= _ <-]; eexists; (split; [by left|done]).
          * destruct (write _ _ _ _ _ _ _ _ _) as [s2 logged2].
            intros [= _ <-]. eexists. split; [by left|done].
        + destruct (write _ _ _ _ _ _ _ _ _) as [s2 logged2].
          intros [= _ <-]. eexists. split; [by left|done].
      - intros [= _ <-]. eexists. split; [by left|done].
      - destruct (write _ _ _ _ _ _ _ _ _) as [s2 logged2].
        intros [= _ <-]. eexists. split; [by left|done]. }
    exists ev. split; [|done]. apply in_or_app. by left.
  - destruct (IH self' (S i) r Hin) as (ev & Hev & Hr).
    rewrite L in Hev. exists ev. split; [|done]. apply in_or_app. by right.
Qed.

(** C9, amended.  For every selected row of a table with its Error column
    (which [filter_rows] creates): an exception that leaves the body of the
    row -- reading the URL cell, the fetch call on a URL that is no string,
    the model call, the parse of a reply whose decoding raises something
    other than malformed JSON -- is caught at the row boundary and written
    as a Failure, the non-empty message going to the Error cell of the row,
    cut to the length a cell takes, unless the sheet refuses it for a
    control character in it; once the reply is parsed, an exception raised
    while normalising or writing is caught inside [write_results] and only
    logged, so no Failure is written for it (for a batch size other than
    0), and a normalisation that raises leaves the sheet as it was; in
    every case the loop goes on, and each row of the selection gets its
    turn. *)
Theorem row_exception_isolation self i r rest :
  In "Error" (columns (df self)) ->
  (forall self1 evs e,
     try_row_ self i r = (self1, evs, Some e) ->
     exists logged self2,
       process_row_ self i r = (self2, evs ++ [Failed (fst r) e logged]) /\
       ws self2 = marked self (fst r) ("处理失败: " +:+ exn_text e) (ws self1) /\
       "处理失败: " +:+ exn_text e <> "") /\
  (forall url web_content,
     row_url url_column self r = Ok (Some url) ->
     extract_content http_get pdf_text html_text url = Ok web_content ->
     (forall e,
        extract_structured_info loads prompt_template generate web_content fields = Raise e ->
        try_row_ self i r = (self, [], Some e)) /\
     (forall info,
        extract_structured_info loads prompt_template generate web_content fields = Ok info ->
        batch_size <> 0%Z ->
        (exists slept,
           process_row_ self i r
           = (fst (write_ self (fst r) info false ""),
              Wrote (fst r) (snd (write_ self (fst r) info false "")) :: slept) /\
           (slept = [] \/ slept = [Slept])) /\
        (forall e,
           DataFormatter.process_results this_year pad_year nested info = Raise e ->
           snd (write_ self (fst r) info false "") = Some e /\
           ws (fst (write_ self (fst r) info false "")) = ws self))) /\
  (forall r', In r' (r :: rest) ->
     exists ev, In ev (snd (loop_ self i (r :: rest))) /\ event_row ev = Some (fst r')).
Proof.
  intros HE. split; [|split].
  - intros self1 evs e HT.
    destruct (handler_writes self i r self1 evs e HE HT) as (logged & self2 & HP & HW).
    exists logged, self2. split; [done|]. split; [done|apply failure_message_nonempty].
  - intros url web_content HU HC. split.
    + intros e HX. by eapply model_step_raises.
    + intros info HX HB. split.
      * by eapply write_step_contained.
      * intros e. apply normalize_raise_swallowed.
  - intros r'. apply loop_visits.
Qed.

(** C7, amended.  For every processed row whose fetch fails, the failure
    marker the fetcher returns is handed to the model as the text of the
    document.  If the model call, or the parse of its reply, then raises,
    the row is a Failure: the non-empty message goes to its Error cell --
    cut to the length a cell takes, and unless the sheet refuses it for a
    control character in it -- and no other cell changes.  If a reply comes
    back and is parsed, it is written like the reply for any document (for
    a batch size other than 0), and no Failure is recorded for the row. *)
Theorem fetch_failure_outcome self i r url label e :
  In "Error" (columns (df self)) ->
  row_url url_column self r = Ok (Some url) ->
  extract_content http_get pdf_text html_text url = Ok (failure_marker label e) ->
  (forall e',
     extract_structured_info loads prompt_template generate (failure_marker label e) fields
     = Raise e' ->
     exists logged self',
       process_row_ self i r = (self', [Failed (fst r) e' logged]) /\
       ws self' = marked self (fst r) ("处理失败: " +:+ exn_text e') (ws self) /\
       "处理失败: " +:+ exn_text e' <> "") /\
  (forall info,
     extract_structured_info loads prompt_template generate (failure_marker label e) fields
     = Ok info ->
     batch_size <> 0%Z ->
     fst (process_row_ self i r) = fst (write_ self (fst r) info false "") /\
     existsb is_failed (snd (process_row_ self i r)) = false).
Proof.
  intros HE HU HC. split.
  - intros e' HX.
    pose proof (model_step_raises self i r url _ e' HU HC HX) as HT.
    destruct (handler_writes self i r self [] e' HE HT) as (logged & self2 & HP & HW).
    exists logged, self2. split; [done|]. split; [done|apply failure_message_nonempty].
  - intros info HX HB.
    destruct (write_step_contained self i r url _ _ HU HC HX HB) as (slept & -> & Hs).
    split; [done|]. cbn [snd existsb is_failed orb]. by destruct Hs as [->| ->].
Qed.

End Row.

(** C7 as stated fails: the fetch fails, the fetcher returns its marker,
    the model answers with a deadline, and the row is written as a
    success: its Deadline and Verifier cells are set and its Error cell
    stays empty. *)
Lemma fetch_failure_counterexample :
  extract_content http_down page_text page_text (SStr "http://example.org/call")
  = Ok "[提取失败: timed out]" /\
  let out := run_with http_down (fun _ => Ok deadline_reply) in
  snd out = [Wrote 0 None] /\
  ws (fst out) !! (2, _get_column_index call_table "Error") = None /\
  ws (fst out) !! (2, _get_column_index call_table "Deadline") = Some (SStr "2025-01-01") /\
  ws (fst out) !! (2, _get_column_index call_table "Verifier") = Some (SStr "LLM").
Proof. repeat split; vm_compute; reflexivity. Qed.

(** The site is down and the model answers with a deadline: the row is
    written as the reply says. *)
Lemma fetch_failure_outcome_witness :
  fst (process_with http_down (fun _ => Ok deadline_reply))
  = fst (write 2025 false (fun _ _ => Ok "") (fun _ => None) call_table 0
           (PDict [("Deadline", PScalar (SStr "2025-01-01"))]) false "") /\
  existsb is_failed (snd (process_with http_down (fun _ => Ok deadline_reply))) = false.
Proof.
  destruct (fetch_failure_outcome 2025 false (fun _ _ => Ok "") (fun _ => None) http_down
              page_text page_text json_loads (fun text _ => text)
              (fun _ => Ok deadline_reply) "Source" 10 ["Deadline"]
              call_table 0 call_row (SStr "http://example.org/call")
              "提取失败" (Exn "ConnectionError" "timed out")) as [_ H].
  - cbn. tauto.
  - vm_compute. reflexivity.
  - vm_compute. reflexivity.
  - apply (H (PDict [("Deadline", PScalar (SStr "2025-01-01"))]));
      [vm_compute; reflexivity|discriminate].
Defined.

(** C9 as stated fails: the model answers [42], normalising it raises
    AttributeError inside [write_results], and nothing is written: the
    Error cell of the row stays empty and no Failure is recorded. *)
Lemma write_exception_counterexample :
  let out := run_with http_page (fun _ => Ok "42") in
  snd out = [Wrote 0 (Some (Exn "AttributeError" "'int' object has no attribute 'keys'"))] /\
  ws (fst out) !! (2, _get_column_index call_table "Error") = None /\
  ws (fst out) = ws call_table.
Proof. repeat split; vm_compute; reflexivity. Qed.

(** A reply the decoder refuses with ValueError: the parse raises, and
    the row is marked failed with the message of the decoder. *)
Example reply_of_digits_failure :
  snd (run_with http_page (fun _ => Ok digits_reply))
  = [Failed 0 (Json.digits_exceeded 4301) None] /\
  ws (fst (run_with http_page (fun _ => Ok digits_reply)))
    !! (2, _get_column_index call_table "Error")
  = Some (SStr ("处理失败: " +:+ exn_text (Json.digits_exceeded 4301))).
Proof. split; vm_compute; reflexivity. Qed.

(** The model service refuses the connection: the row is marked failed. *)
Lemma row_exception_isolation_witness :
  exists logged self2,
    process_with http_page (fun _ => Raise (Exn "ConnectionError" "refused"))
    = (self2, [] ++ [Failed 0 (Exn "ConnectionError" "refused") logged]) /\
    ws self2 = marked call_table 0 ("处理失败: " +:+ "refused") (ws call_table) /\
    "处理失败: " +:+ "refused" <> "".
Proof.
  destruct (row_exception_isolation 2025 false (fun _ _ => Ok "") (fun _ => None) http_page
              page_text page_text json_loads (fun text _ => text)
              (fun _ => Raise (Exn "ConnectionError" "refused")) "Source" 10 ["Deadline"]
              call_table 0 call_row []) as [H _].
  - cbn. tauto.
  - apply (H call_table [] (Exn "ConnectionError" "refused")). vm_compute. reflexivity.
Defined.

End RunFacts.

(** ** DataFormatter: repeated and whole-reply normalisation *)

Module FormatterLaws.
Import Statements Glossary Text TextFacts ReFacts FormatterFacts DataFormatter.

(** Distinctness of the strings of an explicit list. *)
Ltac absent :=
  let H := fresh in
  intros H; repeat (apply elem_of_cons in H as [H|H]; [discriminate H|]);
  by apply elem_of_nil in H.
Ltac distinct := repeat (apply NoDup_cons_2; [absent|]); apply NoDup_nil_2.

Lemma rstrip_fixed s : tight s = true -> rstrip s = s.
Proof.
  induction s as [|c s IH]; [done|].
  intros H. cbn [rstrip]. destruct s as [|d s'].
  - cbn [rstrip]. cbn [tight] in H. apply negb_true_iff in H. by rewrite H.
  - rewrite IH by exact H. done.
Qed.

Lemma lstrip_idem s : lstrip (lstrip s) = lstrip s.
Proof.
  induction s as [|c s IH]; [done|].
  cbn [lstrip]. destruct (is_space c) eqn:E; [exact IH|].
  cbn [lstrip]. by rewrite E.
Qed.

Lemma strip_idem s : strip (strip s) = strip s.
Proof.
  unfold strip at 1. rewrite (rstrip_fixed _ (strip_tight s)).
  unfold strip. apply lstrip_idem.
Qed.

(** The outputs of [normalize_value], "0" excluded. *)
Lemma normalize_value_out value :
  normalize_value value = "1" \/ normalize_value value = "" \/
  (isdigit (normalize_value value) = true /\ normalize_value value <> "0").
Proof.
  unfold normalize_value.
  destruct (isna value || eq_empty value)%bool; [by right; left|].
  set (value_str := lower (strip (str value))).
  destruct (mem value_str ["yes"; "y"; "true"; "1"]); [by left|].
  destruct (mem value_str ["no"; "n"; "false"; "0"]) eqn:Hno; [by right; left|].
  destruct (nonempty value_str && _)%bool; [|by right; left].
  case_bool_decide as Hm; [|by left].
  right; right. split.
  - apply digits_only_sound; [done|]. apply lower_tight, strip_tight.
  - intros E. rewrite E in Hno. discriminate.
Qed.

Lemma normalize_value_digits s :
  isdigit s = true -> s <> "0" -> normalize_value (SStr s) = s.
Proof.
  intros Hd Hne. unfold normalize_value.
  pose proof Hd as [Hn Hall]%andb_true_iff.
  assert (eq_empty (SStr s) = false) as -> by (by destruct s).
  cbn [isna orb str]. rewrite (strip_digits s Hall), (lower_digits s Hall).
  unfold mem. cbn [existsb].
  repeat match goal with
  | |- context [String.eqb s ?lit] =>
      destruct (String.eqb_spec s lit) as [->|_];
      [first [discriminate Hd | congruence | reflexivity]|]
  end.
  cbn [orb]. rewrite Hn. cbn [andb negb].
  rewrite bool_decide_eq_true_2; [done|]. by apply digits_only_complete.
Qed.

(** X1.  Category normalisation is idempotent: normalising a value that
    [normalize_value] returned gives that value again. *)
Theorem normalize_value_idempotent (value : scalar) :
  normalize_value (SStr (normalize_value value)) = normalize_value value.
Proof.
  destruct (normalize_value_out value) as [-> | [-> | [Hd Hne]]]; [done..|].
  by apply normalize_value_digits.
Qed.

(** The outputs of the number branch. *)
Lemma number_value_out value :
  number_value value = "" \/ isdigit (number_value value) = true \/
  (number_value value = strip (str value) /\ is_str value = true /\
   isdigit (strip (str value)) = false /\
   dict_get (lower (strip (str value))) english_to_number = None).
Proof.
  unfold number_value.
  destruct (truthy value) eqn:Ht; cbn [andb]; [|by left].
  destruct (isdigit (strip (str value))) eqn:Hd; [by right; left|].
  destruct (is_str value) eqn:Hs; [|by left].
  destruct (dict_get _ english_to_number) as [n|] eqn:Hn.
  - right; left. by eapply english_to_number_digits.
  - by right; right.
Qed.

(** X2.  Quantity normalisation is idempotent: the number branch maps a
    value it returned to itself, also a word it could not convert. *)
Theorem number_value_idempotent (value : scalar) :
  number_value (SStr (number_value value)) = number_value value.
Proof.
  destruct (number_value_out value) as [-> | [Hd | (-> & _ & Hd & Hn)]].
  - reflexivity.
  - pose proof Hd as [Hn Hall]%andb_true_iff.
    unfold number_value at 1. cbn [truthy str].
    by rewrite (strip_digits _ Hall), Hn, Hd.
  - unfold number_value. cbn [truthy str is_str]. rewrite strip_idem, Hd, Hn.
    cbn [andb]. rewrite andb_true_r. by destruct (strip (str value)).
Qed.

Lemma dict_set_fresh {A} k (v : A) d :
  ~ In k (map fst d) -> dict_set k v d = d ++ [(k, v)].
Proof.
  induction d as [|[k' v'] d IH]; cbn [dict_set map fst In app]; [done|].
  intros H. destruct (String.eqb_spec k k') as [->|_]; [exfalso; apply H; by left|].
  rewrite IH; [done|]. intros Hin. apply H. by right.
Qed.

Lemma dict_get_In_nodup {A} k (v : A) d :
  NoDup (map fst d) -> In (k, v) d -> dict_get k d = Some v.
Proof.
  induction d as [|[k' v'] d IH]; cbn [dict_get map fst In]; [done|].
  intros Hnd [E|Hin].
  - injection E as -> ->. by rewrite String.eqb_refl.
  - apply NoDup_cons in Hnd as [Hk Hnd].
    destruct (String.eqb_spec k k') as [->|_]; [|by apply IH].
    exfalso. apply Hk. apply list_elem_of_In. apply in_map_iff. by exists (k', v).
Qed.

(** The branch of a key does not depend on the list of text fields. *)
Lemma process_scalar_text_fields this_year pad_year tf k v :
  process_scalar this_year pad_year tf k v = process_scalar this_year pad_year [] k v.
Proof.
  unfold process_scalar.
  destruct (mem k date_fields); [done|]. destruct (mem k category_fields); [done|].
  destruct (mem k number_fields); [done|].
  destruct (mem k tf || _)%bool; by destruct (_ || _)%bool.
Qed.

Lemma process_items_flat this_year pad_year nested tf items : forall acc,
  flat items = true -> NoDup (map fst acc ++ map fst items) ->
  process_items this_year pad_year nested tf items acc
  = Ok (acc ++ map (fun kv => (fst kv, normalized this_year pad_year (fst kv) (snd kv))) items).
Proof.
  induction items as [|[k v] rest IH]; intros acc Hf Hnd.
  - cbn. by rewrite app_nil_r.
  - cbn [flat forallb snd] in Hf. apply andb_true_iff in Hf as [Hv Hrest].
    destruct v as [v| |]; try discriminate.
    cbn [process_items process_value mbind result_bind map fst snd].
    assert (Hk : ~ In k (map fst acc)).
    { intros Hin. apply NoDup_app in Hnd as (_ & Hd & _).
      apply (Hd k); [by apply list_elem_of_In|]. cbn. left. }
    rewrite (dict_set_fresh _ _ _ Hk). rewrite IH; [| exact Hrest |].
    + rewrite <- app_assoc. cbn [app]. unfold normalized at 2.
      by rewrite process_scalar_text_fields.
    + rewrite map_app. cbn [map fst]. rewrite <- app_assoc. exact Hnd.
Qed.

(** X3.  On a flat reply -- a JSON object with distinct keys whose values
    are scalars -- [process_results] raises nothing and returns one entry
    per key of the reply, in the order of the reply, each holding the value
    of the key normalised by the branch of the key. *)
Theorem process_results_flat this_year pad_year nested d :
  flat d = true -> NoDup (map fst d) ->
  exists processed,
    process_results this_year pad_year nested (PDict d) = Ok processed /\
    map fst processed = map fst d /\
    forall k v, In (k, PScalar v) d ->
                dict_get k processed = Some (process_scalar this_year pad_year [] k v).
Proof.
  intros Hf Hnd. eexists. split; [|split].
  - unfold process_results. by apply process_items_flat.
  - cbn [app]. rewrite map_map. cbn [fst]. done.
  - intros k v Hin. cbn [app]. apply dict_get_In_nodup.
    + rewrite map_map. cbn [fst]. exact Hnd.
    + apply in_map_iff. by exists (k, PScalar v).
Qed.

(** A reply with a deadline, a flag and a count. *)
Lemma process_results_flat_witness :
  exists processed,
    process_results 2025 false (fun _ _ => Ok "") (PDict sample_reply) = Ok processed /\
    map fst processed = map fst sample_reply /\
    forall k v, In (k, PScalar v) sample_reply ->
                dict_get k processed = Some (process_scalar 2025 false [] k v).
Proof.
  apply (process_results_flat 2025 false (fun _ _ => Ok "") sample_reply).
  - reflexivity.
  - unfold sample_reply. cbn [map fst].
    distinct.
Defined.

End FormatterLaws.

(** ** ExcelProcessor: columns and selection *)

Module SelectorLaws.
Import Statements Glossary Text TextFacts ReFacts ParserFacts SelectorFacts WriterFacts
       ExcelProcessor.

Lemma index_lookup x l i :
  index x l = Some i -> l !! i = Some x /\ forall j, j < i -> l !! j <> Some x.
Proof.
  revert i. induction l as [|y l IH]; intros i; cbn [index]; [done|].
  destruct (String.eqb_spec x y) as [->|Hne].
  - intros [= <-]. split; [done|]. intros j Hj. lia.
  - destruct (index x l) as [k|]; [|done]. intros [= <-].
    destruct (IH k eq_refl) as [Hk Hfirst]. split; [exact Hk|].
    intros [|j] Hj; cbn; [congruence|]. apply Hfirst. lia.
Qed.

(** X4.  The column lookup and the column list agree: a name has a column
    number other than 0 exactly when it is a column of the table, and then
    the number, counted from 1, is that of its first occurrence in the
    column list. *)
Theorem column_index_lookup self name :
  (In name (columns (df self)) <-> _get_column_index self name <> 0) /\
  (_get_column_index self name <> 0 ->
   _get_column_index self name <= length (columns (df self)) /\
   columns (df self) !! (_get_column_index self name - 1) = Some name /\
   forall j, j < _get_column_index self name - 1 -> columns (df self) !! j <> Some name).
Proof.
  split.
  - split; [apply column_index_known|].
    intros H. destruct (in_dec string_dec name (columns (df self))) as [|Hn]; [done|].
    by apply column_index_unknown in Hn.
  - unfold _get_column_index.
    destruct (index name (columns (df self))) as [i|] eqn:E; [|done]. intros _.
    apply index_lookup in E as [Hi Hfirst].
    replace (i + 1 - 1) with i by lia. split; [|by split].
    apply lookup_lt_Some in Hi. lia.
Qed.

(** Deadline is the second column of the demonstration table. *)
Lemma column_index_lookup_witness :
  _get_column_index demo_table "Deadline" <= length (columns (df demo_table)) /\
  columns (df demo_table) !! (_get_column_index demo_table "Deadline" - 1) = Some "Deadline" /\
  forall j, j < _get_column_index demo_table "Deadline" - 1 ->
            columns (df demo_table) !! j <> Some "Deadline".
Proof.
  apply (column_index_lookup demo_table "Deadline"). vm_compute. discriminate.
Defined.

Lemma index_app x l l' : In x l -> index x (l ++ l') = index x l.
Proof.
  induction l as [|y l IH]; [done|]. cbn [index app In].
  destruct (String.eqb_spec x y) as [->|Hne]; [done|].
  intros [E|Hin]; [congruence|]. by rewrite IH.
Qed.

(** X5.  [filter_rows] on a table that lacks some of Notes, Verifier and
    Error appends the missing ones after the columns of the table, in that
    order, so that the columns of the table keep their numbers; every row
    keeps its index label and its cells, with the missing value in the
    columns created; and the sheet is not touched. *)
Theorem filter_rows_backfill self :
  ws (snd (filter_rows self)) = ws self /\
  saved (snd (filter_rows self)) = saved self /\
  columns (df (snd (filter_rows self))) = columns (df self) ++ missing_columns (df self) /\
  (forall name, In name (columns (df self)) ->
     _get_column_index (snd (filter_rows self)) name = _get_column_index self name) /\
  Forall2 (fun r r' =>
             fst r' = fst r /\
             forall name, cell r' name
                          = if mem name (missing_columns (df self)) then SNone else cell r name)
          (rows (df self)) (rows (df (snd (filter_rows self)))).
Proof.
  split; [done|]. split; [done|].
  rewrite (filter_rows_table self). cbn [columns rows]. split; [done|]. split.
  - intros name Hin. unfold _get_column_index. rewrite filter_rows_table. cbn [columns].
    by rewrite index_app.
  - induction (rows (df self)) as [|r rs IH]; cbn [map]; constructor; [|exact IH].
    split; [done|]. intros name. apply cell_backfill.
Qed.

(** A table with a Source column only gets the three columns after it. *)
Lemma filter_rows_backfill_witness :
  _get_column_index (snd (filter_rows bare_table)) "Source"
  = _get_column_index bare_table "Source".
Proof.
  apply (filter_rows_backfill bare_table). cbn. by left.
Defined.

Lemma ensure_column_id d col : mem col (columns d) = true -> ensure_column d col = d.
Proof. unfold ensure_column. by intros ->. Qed.

(** X6.  [filter_rows] is idempotent: run again on the processor it
    returned, it selects the same rows and returns that processor. *)
Theorem filter_rows_idempotent self :
  filter_rows (snd (filter_rows self)) = filter_rows self.
Proof.
  assert (H : forall col, In col required_columns ->
                mem col (columns (df (snd (filter_rows self)))) = true).
  { intros col Hin. apply mem_In. by apply filter_rows_columns. }
  unfold filter_rows at 1. unfold required_columns in *. cbn [fold_left].
  rewrite (ensure_column_id _ "Notes") by (apply H; cbn; tauto).
  rewrite (ensure_column_id _ "Verifier") by (apply H; cbn; tauto).
  rewrite (ensure_column_id _ "Error") by (apply H; cbn; tauto).
  unfold filter_rows. cbn [snd df ws saved]. reflexivity.
Qed.

Lemma suffix_refl s : suffix_of s s.
Proof. by exists "". Qed.

Lemma suffix_trans a b c : suffix_of a b -> suffix_of b c -> suffix_of a c.
Proof.
  intros [p ->] [q ->]. exists (q +:+ p). by rewrite append_assoc.
Qed.

Lemma suffix_tail c t s : suffix_of (String c t) s -> suffix_of t s.
Proof.
  intros H. eapply suffix_trans; [|exact H]. by exists (String c "").
Qed.

(** Matching moves forward only: the continuation that made a match
    succeed was given a rest of the subject. *)
Lemma run_suffix {R} (r : Re.re) : forall at_ cs (k : Re.pos -> Re.caps -> option R) res,
  Re.run r at_ cs k = Some res ->
  exists at' cs', suffix_of (snd at') (snd at_) /\ k at' cs' = Some res.
Proof.
  induction r as [|c|c|p|r1 IH1 r2 IH2|r1 IH1 r2 IH2|r1 IH1|p lo hi|i r1 IH1| | |];
    intros [prev s] cs k res H; cbn [Re.run snd fst] in H.
  - exists (prev, s), cs. split; [apply suffix_refl|done].
  - destruct s as [|x s']; [done|]. destruct (Ascii.eqb x c); [|done].
    exists (Some x, s'), cs. split; [by exists (String x "")|done].
  - destruct s as [|x s']; [done|]. destruct (Ascii.eqb _ _); [|done].
    exists (Some x, s'), cs. split; [by exists (String x "")|done].
  - destruct s as [|x s']; [done|]. destruct (p x); [|done].
    exists (Some x, s'), cs. split; [by exists (String x "")|done].
  - apply IH1 in H as (at1 & cs1 & S1 & H). apply IH2 in H as (at2 & cs2 & S2 & H).
    exists at2, cs2. split; [by eapply suffix_trans|done].
  - destruct (Re.run r1 (prev, s) cs k) as [x|] eqn:E.
    + injection H as ->. by apply IH1 in E.
    + by apply IH2 in H.
  - destruct (Re.run r1 (prev, s) cs k) as [x|] eqn:E.
    + injection H as ->. by apply IH1 in E.
    + exists (prev, s), cs. split; [apply suffix_refl|done].
  - apply rep_sound in H as (a & b & prev' & Hs & _ & _ & Hk). cbn [snd] in Hs.
    exists (prev', b), cs. split; [by exists a|done].
  - apply IH1 in H as (at1 & cs1 & S1 & H). by exists at1, ((i, take (String.length s - String.length (snd at1)) s) :: cs1).
  - destruct prev; [done|]. exists (None, s), cs. split; [apply suffix_refl|done].
  - exists (prev, s), cs. split; [apply suffix_refl|].
    destruct s as [|c [|d s']]; [done| |done]. by destruct (Ascii.eqb c "010").
  - destruct (xorb _ _); [|done]. exists (prev, s), cs. split; [apply suffix_refl|done].
Qed.

Lemma without_suffix c t s : suffix_of (String c t) s -> without c s = false.
Proof.
  intros [pre ->]. unfold without. rewrite all_chars_app. cbn [all_chars].
  rewrite Ascii.eqb_refl. cbn [negb andb]. apply andb_false_r.
Qed.

Lemma all_chars_lstrip p s : all_chars p s = true -> all_chars p (lstrip s) = true.
Proof.
  induction s as [|c s IH]; [done|]. cbn [lstrip]. intros H.
  destruct (is_space c); [|exact H]. apply IH. cbn [all_chars] in H.
  by apply andb_true_iff in H as [_ H].
Qed.

Lemma all_chars_rstrip p s : all_chars p s = true -> all_chars p (rstrip s) = true.
Proof.
  induction s as [|c s IH]; [done|]. cbn [rstrip all_chars].
  intros [Hc Hs]%andb_true_iff. specialize (IH Hs).
  destruct (rstrip s) as [|d r].
  - destruct (is_space c); [done|]. cbn [all_chars]. by rewrite Hc.
  - cbn [all_chars] in *. by rewrite Hc, IH.
Qed.

Lemma run_seq_suffix {R} r1 r2 at_ cs (k : Re.pos -> Re.caps -> option R) res :
  Re.run (Re.Seq r1 r2) at_ cs k = Some res ->
  exists at' cs', suffix_of (snd at') (snd at_) /\ Re.run r2 at' cs' k = Some res.
Proof. cbn [Re.run]. apply run_suffix. Qed.

Lemma run_chr_first {R} c r at_ cs (k : Re.pos -> Re.caps -> option R) res :
  Re.run (Re.Seq (Re.Chr c) r) at_ cs k = Some res -> exists t, snd at_ = String c t.
Proof.
  cbn [Re.run]. destruct (snd at_) as [|x t]; [done|].
  destruct (Ascii.eqb_spec x c) as [->|]; [|done]. by exists t.
Qed.

(** X7.  A text without a dot is no URL: [_is_url] is false on it, so a
    Notes cell without a dot never replaces the URL column. *)
Theorem is_url_needs_dot text : without "." text = true -> _is_url text = false.
Proof.
  intros H. unfold _is_url. apply bool_decide_eq_false_2. intros [res Hm].
  assert (Hs : without "." (strip text) = true).
  { unfold without, strip. by apply all_chars_lstrip, all_chars_rstrip. }
  unfold Re.match_, url_pattern in Hm. cbn [Re.seq] in Hm.
  apply run_seq_suffix in Hm as (at1 & cs1 & S1 & Hm). cbn [snd] in S1.
  apply run_seq_suffix in Hm as (at2 & cs2 & S2 & Hm).
  apply run_seq_suffix in Hm as (at3 & cs3 & S3 & Hm).
  apply run_seq_suffix in Hm as (at4 & cs4 & S4 & Hm).
  apply run_chr_first in Hm as [t Ht]. rewrite Ht in S4.
  assert (S : suffix_of (String "." t) (strip text)).
  { eapply suffix_trans; [|exact S1]. eapply suffix_trans; [|exact S2].
    eapply suffix_trans; [|exact S3]. exact S4. }
  apply without_suffix in S. congruence.
Qed.

(** A remark in the Notes is no URL. *)
Lemma is_url_needs_dot_witness : _is_url "checked by phone" = false.
Proof. apply is_url_needs_dot. reflexivity. Defined.

Lemma rstrip_spaces r : all_chars is_space r = true -> rstrip r = "".
Proof.
  induction r as [|c r IH]; [done|]. cbn [all_chars rstrip].
  intros [Hc Hr]%andb_true_iff. by rewrite (IH Hr), Hc.
Qed.

Lemma rstrip_pad_right x r : all_chars is_space r = true -> rstrip (x +:+ r) = rstrip x.
Proof.
  intros Hr. induction x as [|c x IH]; [rewrite append_nil; by apply rstrip_spaces|].
  rewrite append_cons. cbn [rstrip]. by rewrite IH.
Qed.

Lemma lstrip_pad_left l x : all_chars is_space l = true -> lstrip (l +:+ x) = lstrip x.
Proof.
  induction l as [|c l IH]; [done|]. cbn [all_chars].
  intros [Hc Hl]%andb_true_iff. rewrite append_cons. cbn [lstrip]. rewrite Hc. by apply IH.
Qed.

Lemma rstrip_pad_left l x :
  all_chars is_space l = true ->
  rstrip (l +:+ x) = match rstrip x with "" => "" | t => l +:+ t end.
Proof.
  induction l as [|c l IH]; [rewrite append_nil; by destruct (rstrip x)|].
  cbn [all_chars]. intros [Hc Hl]%andb_true_iff. rewrite append_cons. cbn [rstrip].
  rewrite (IH Hl). destruct (rstrip x) as [|d t]; [by rewrite Hc|].
  rewrite append_cons. by destruct l.
Qed.

Lemma strip_padding l x r :
  all_chars is_space l = true -> all_chars is_space r = true ->
  strip (l +:+ x +:+ r) = strip x.
Proof.
  intros Hl Hr. unfold strip. rewrite <- append_assoc, (rstrip_pad_right _ _ Hr).
  rewrite (rstrip_pad_left _ _ Hl). destruct (rstrip x) as [|d t] eqn:E; [done|].
  by apply lstrip_pad_left.
Qed.

(** X8.  Whitespace around a text does not change whether it is a URL. *)
Theorem is_url_padding l text r :
  all_chars is_space l = true -> all_chars is_space r = true ->
  _is_url (l +:+ text +:+ r) = _is_url text.
Proof. intros Hl Hr. unfold _is_url. by rewrite strip_padding. Qed.

(** A URL typed with a space before it and a line feed after it. *)
Lemma is_url_padding_witness :
  _is_url (" " +:+ "example.org/call" +:+ nl) = _is_url "example.org/call".
Proof. apply is_url_padding; reflexivity. Defined.

End SelectorLaws.

(** ** ExcelProcessor: what a write stores *)

Module WriterLaws.
Import Statements Glossary Text WriterFacts FormatterLaws DataFormatter ExcelProcessor.

Lemma dict_set_keys {A} k (v : A) d :
  map fst (dict_set k v d) = if mem k (map fst d) then map fst d else map fst d ++ [k].
Proof.
  induction d as [|[k' v'] d IH]; [done|].
  cbn [dict_set map fst]. unfold mem. cbn [existsb]. fold (mem k (map fst d)).
  destruct (String.eqb_spec k k') as [->|Hne]; [done|].
  cbn [orb map fst]. rewrite IH. by destruct (mem k (map fst d)).
Qed.

Lemma dict_set_nodup {A} k (v : A) d :
  NoDup (map fst d) -> NoDup (map fst (dict_set k v d)).
Proof.
  intros H. rewrite dict_set_keys. destruct (mem k (map fst d)) eqn:E; [done|].
  apply NoDup_app. split; [done|]. split; [|apply NoDup_singleton].
  intros x Hx ->%list_elem_of_singleton. apply list_elem_of_In, mem_In in Hx. congruence.
Qed.

(** The processed results have distinct keys. *)
Lemma process_items_nodup this_year pad_year nested tf items : forall acc processed,
  NoDup (map fst acc) ->
  process_items this_year pad_year nested tf items acc = Ok processed ->
  NoDup (map fst processed).
Proof.
  induction items as [|[k v] rest IH]; intros acc processed Hnd; cbn [process_items].
  - by intros [= <-].
  - destruct (process_value _ _ _ _ _ _) as [x|e]; cbn [mbind result_bind]; [|done].
    apply IH. by apply dict_set_nodup.
Qed.

Lemma process_results_nodup this_year pad_year nested results processed :
  process_results this_year pad_year nested results = Ok processed ->
  NoDup (map fst processed).
Proof.
  unfold process_results. destruct results as [| |d]; try done.
  apply process_items_nodup. constructor.
Qed.

Lemma check_string_storable v : storable v = true -> check_string v = Ok (cut v).
Proof. unfold check_string, storable, cut. by intros ->. Qed.

Lemma check_string_refused v : storable v = false -> check_string v = Raise (refusal v).
Proof. unfold check_string, storable, cut, refusal. by intros ->. Qed.

(** A cell assignment stores the value the sheet takes, or raises and
    leaves the sheet as it was. *)
Lemma cell_set_out w r c v :
  (exists e, cell_set w r c v = (w, Some e)) \/
  (exists v', stored v = Ok v' /\ cell_set w r c v = (<[(r, c) := v']> w, None)).
Proof.
  unfold cell_set. destruct (_ || _)%bool; [left; by eexists|].
  destruct (stored v) as [v'|e]; [right; by exists v'|left; by eexists].
Qed.

Lemma cell_set_string w r c v :
  r <> 0 -> c <> 0 ->
  cell_set w r c (SStr v)
  = if storable v then (<[(r, c) := SStr (cut v)]> w, None) else (w, Some (refusal v)).
Proof.
  intros Hr Hc. unfold cell_set, stored.
  apply Nat.eqb_neq in Hr, Hc. rewrite Hr, Hc. cbn [orb].
  destruct (storable v) eqn:E.
  - by rewrite (check_string_storable v E).
  - by rewrite (check_string_refused v E).
Qed.

(** The field loop leaves the other rows alone. *)
Lemma write_fields_other_row self excel_row items : forall w r c,
  r <> excel_row ->
  fst (write_fields self w excel_row items) !! (r, c) = w !! (r, c).
Proof.
  induction items as [|[k v] rest IH]; intros w r c Hr; [done|].
  cbn [write_fields]. destruct (_get_column_index self k =? 0)%nat; [by apply IH|].
  destruct (cell_set_out w excel_row (_get_column_index self k) (SStr v))
    as [[e ->]|(v' & _ & ->)]; [done|].
  rewrite IH by done. apply lookup_insert_ne. congruence.
Qed.

(** The field loop leaves a column alone that no field is written to. *)
Lemma write_fields_other_column self excel_row items : forall w r c,
  (forall kv, In kv items -> _get_column_index self (fst kv) <> c) ->
  fst (write_fields self w excel_row items) !! (r, c) = w !! (r, c).
Proof.
  induction items as [|[k v] rest IH]; intros w r c Hc; [done|].
  assert (Hrest : forall kv, In kv rest -> _get_column_index self (fst kv) <> c).
  { intros kv Hin. apply Hc. by right. }
  cbn [write_fields]. destruct (_get_column_index self k =? 0)%nat; [by apply IH|].
  destruct (cell_set_out w excel_row (_get_column_index self k) (SStr v))
    as [[e ->]|(v' & _ & ->)]; [done|].
  rewrite IH by done. apply lookup_insert_ne. intros [= _ E].
  apply (Hc (k, v)); [by left|done].
Qed.

(** Fields whose values the sheet takes are written without exception. *)
Lemma write_fields_storable self row_index items : forall w,
  (forall k v, In (k, v) items -> _get_column_index self k <> 0 -> storable v = true) ->
  snd (write_fields self w (row_index + 2) items) = None.
Proof.
  induction items as [|[k v] rest IH]; intros w H; [done|].
  assert (Hrest : forall k' v', In (k', v') rest -> _get_column_index self k' <> 0 ->
                                storable v' = true).
  { intros k' v' Hin. apply H. by right. }
  cbn [write_fields]. destruct (Nat.eqb_spec (_get_column_index self k) 0) as [E|E];
    [by apply IH|].
  rewrite cell_set_string by (done || lia).
  rewrite (H k v (or_introl eq_refl) E). by apply IH.
Qed.

(** The field loop stores each field with a known name. *)
Lemma write_fields_lookup self row_index items : forall w k v,
  NoDup (map fst items) ->
  (forall k' v', In (k', v') items -> _get_column_index self k' <> 0 -> storable v' = true) ->
  In (k, v) items -> _get_column_index self k <> 0 ->
  fst (write_fields self w (row_index + 2) items) !! (row_index + 2, _get_column_index self k)
  = Some (SStr (cut v)).
Proof.
  induction items as [|[k0 v0] rest IH]; intros w k v Hnd H Hin Hk; [done|].
  assert (Hrest : forall k' v', In (k', v') rest -> _get_column_index self k' <> 0 ->
                                storable v' = true).
  { intros k' v' Hin'. apply H. by right. }
  cbn [map fst] in Hnd. apply NoDup_cons in Hnd as [Hk0 Hnd].
  cbn [write_fields]. destruct Hin as [E|Hin].
  - injection E as -> ->. pose proof Hk as Hk'. apply Nat.eqb_neq in Hk'. rewrite Hk'.
    rewrite cell_set_string by (done || lia).
    rewrite (H k v (or_introl eq_refl) Hk).
    rewrite write_fields_other_column; [apply lookup_insert_eq|].
    intros [k' v'] Hin' E. cbn [fst] in E.
    apply column_index_inj in E; [|congruence]. subst k'.
    apply Hk0. apply list_elem_of_In. apply in_map_iff. by exists (k, v').
  - destruct (Nat.eqb_spec (_get_column_index self k0) 0) as [E0|E0]; [by apply IH|].
    rewrite cell_set_string by (done || lia).
    rewrite (H k0 v0 (or_introl eq_refl) E0). by apply IH.
Qed.

(** The field loop on two lists of fields, one after the other. *)
Lemma write_fields_app self excel_row pre : forall w rest,
  write_fields self w excel_row (pre ++ rest)
  = match write_fields self w excel_row pre with
    | (w', None) => write_fields self w' excel_row rest
    | (w', Some e) => (w', Some e)
    end.
Proof.
  induction pre as [|[k v] pre IH]; intros w rest; [done|].
  cbn [app write_fields]. destruct (_get_column_index self k =? 0)%nat; [apply IH|].
  destruct (cell_set w excel_row _ (SStr v)) as [w' [e|]]; [done|]. apply IH.
Qed.

Lemma write_results_ws this_year pad_year nested save self row_index results has_error msg :
  ws (fst (write_results this_year pad_year nested save self row_index results has_error msg))
  = fst (write_cells this_year pad_year nested self (row_index + 2) results has_error msg).
Proof.
  unfold write_results. destruct (write_cells _ _ _ _ _ _ _ _) as [w [e|]]; [done|].
  by destruct (save w).
Qed.

(** What a write logs: the exception of its cells, or that of the save. *)
Lemma write_results_log this_year pad_year nested save self row_index results has_error msg :
  snd (write_results this_year pad_year nested save self row_index results has_error msg)
  = match snd (write_cells this_year pad_year nested self (row_index + 2) results
                 has_error msg) with
    | Some e => Some e
    | None =>
        save (fst (write_cells this_year pad_year nested self (row_index + 2) results
                     has_error msg))
    end.
Proof.
  unfold write_results. destruct (write_cells _ _ _ _ _ _ _ _) as [w [e|]]; [done|].
  cbn [fst snd]. by destruct (save w).
Qed.

(** X9.  What a success write stores can be read back: when the reply is
    normalised and the sheet takes the value of every field with a known
    name -- cut to the 32767 characters of a cell, it holds no control
    character --, the cell of the row in the column of each such field
    holds the value so cut, whatever the save does afterwards, except that
    the Verifier cell holds "LLM"; and nothing but the save can still
    raise. *)
Theorem write_results_stores this_year pad_year nested save self row_index results
    processed msg :
  process_results this_year pad_year nested results = Ok processed ->
  (forall k v, In (k, v) processed -> In k (columns (df self)) -> storable v = true) ->
  (forall k v, In (k, v) processed -> In k (columns (df self)) -> k <> "Verifier" ->
     ws (fst (write_results this_year pad_year nested save self row_index results false msg))
       !! (row_index + 2, _get_column_index self k) = Some (SStr (cut v))) /\
  (In "Verifier" (columns (df self)) ->
     ws (fst (write_results this_year pad_year nested save self row_index results false msg))
       !! (row_index + 2, _get_column_index self "Verifier") = Some (SStr "LLM")) /\
  snd (write_results this_year pad_year nested save self row_index results false msg)
  = save (ws (fst (write_results this_year pad_year nested save self row_index results
                     false msg))).
Proof.
  intros HP HS.
  assert (HS' : forall k v, In (k, v) processed -> _get_column_index self k <> 0 ->
                            storable v = true).
  { intros k v Hin Hk. apply (HS k v Hin).
    destruct (in_dec string_dec k (columns (df self))) as [|Hn]; [done|].
    by apply column_index_unknown in Hn. }
  pose proof (write_fields_storable self row_index processed (ws self) HS') as HN.
  rewrite write_results_log, write_results_ws, (write_cells_finish _ _ _ _ _ _ _ _ HP).
  destruct (write_fields self (ws self) (row_index + 2) processed) as [w o] eqn:W.
  cbn [snd] in HN. subst o. cbn [finish fst snd]. unfold stamp.
  split; [|split; [|done]].
  - intros k v Hin Hk Hne. apply column_index_known in Hk.
    assert (L : w !! (row_index + 2, _get_column_index self k) = Some (SStr (cut v))).
    { change w with (fst (w, @None exn)). rewrite <- W.
      apply write_fields_lookup; [by eapply process_results_nodup|done..]. }
    destruct (Nat.eqb (_get_column_index self "Verifier") 0); [done|].
    rewrite lookup_insert_ne; [done|]. intros [= E]. apply Hne. symmetry.
    apply (column_index_inj self "Verifier" k E). congruence.
  - intros Hv. apply column_index_known, Nat.eqb_neq in Hv. rewrite Hv.
    apply lookup_insert_eq.
Qed.

(** A deadline written to the first row of the demonstration table. *)
Lemma write_results_stores_witness :
  ws (fst (write_results 2025 false (fun _ _ => Ok "") (fun _ => None) demo_table 0
             (PDict [("Deadline", PScalar (SStr "2025-06-09"))]) false ""))
    !! (0 + 2, _get_column_index demo_table "Deadline") = Some (SStr (cut "2025-06-09")).
Proof.
  apply (write_results_stores 2025 false (fun _ _ => Ok "") (fun _ => None) demo_table 0
           (PDict [("Deadline", PScalar (SStr "2025-06-09"))])
           [("Deadline", "2025-06-09")] "" eq_refl).
  - intros k v [[= <- <-]|[]] _. reflexivity.
  - by left.
  - cbn. tauto.
  - discriminate.
Defined.

(** X23.  A success write stops at the first value the sheet refuses:
    when the normalised fields before it are taken and a field with a
    known name holds a control character within the length of a cell, the
    fields before it are in the sheet in memory, neither the fields after
    it nor the Verifier stamp are written, the IllegalCharacterError is
    logged and nothing is saved. *)
Theorem write_results_refused this_year pad_year nested save self row_index results
    pre k v post msg :
  process_results this_year pad_year nested results = Ok (pre ++ (k, v) :: post) ->
  (forall k' v', In (k', v') pre -> In k' (columns (df self)) -> storable v' = true) ->
  In k (columns (df self)) -> storable v = false ->
  fst (write_results this_year pad_year nested save self row_index results false msg)
  = Processor (df self) (fst (write_fields self (ws self) (row_index + 2) pre)) (saved self) /\
  exists e,
    snd (write_results this_year pad_year nested save self row_index results false msg)
    = Some e /\ exn_type e = "IllegalCharacterError".
Proof.
  intros HP HS Hk Hv.
  assert (HS' : forall k' v', In (k', v') pre -> _get_column_index self k' <> 0 ->
                              storable v' = true).
  { intros k' v' Hin Hk'. apply (HS k' v' Hin).
    destruct (in_dec string_dec k' (columns (df self))) as [|Hn]; [done|].
    by apply column_index_unknown in Hn. }
  pose proof (write_fields_storable self row_index pre (ws self) HS') as HN.
  unfold write_results. rewrite (write_cells_finish _ _ _ _ _ _ _ _ HP), write_fields_app.
  destruct (write_fields self (ws self) (row_index + 2) pre) as [w o].
  cbn [snd fst] in *. subst o. cbn [write_fields].
  apply column_index_known in Hk. pose proof Hk as Hk'. apply Nat.eqb_neq in Hk'.
  rewrite Hk'. rewrite cell_set_string by (done || lia). rewrite Hv.
  split; [done|]. by eexists.
Qed.

(** A deadline is written, a bell in the next field stops the write. *)
Lemma write_results_refused_witness :
  fst (write_results 2025 false (fun _ _ => Ok "") (fun _ => None) demo_table 0
         (PDict [("Deadline", PScalar (SStr "2025-06-09")); ("Source", PScalar (SStr bell))])
         false "")
  = Processor (df demo_table)
      (fst (write_fields demo_table (ws demo_table) (0 + 2) [("Deadline", "2025-06-09")]))
      (saved demo_table) /\
  exists e,
    snd (write_results 2025 false (fun _ _ => Ok "") (fun _ => None) demo_table 0
           (PDict [("Deadline", PScalar (SStr "2025-06-09"));
                   ("Source", PScalar (SStr bell))])
           false "")
    = Some e /\ exn_type e = "IllegalCharacterError".
Proof.
  apply (write_results_refused 2025 false (fun _ _ => Ok "") (fun _ => None) demo_table 0
           (PDict [("Deadline", PScalar (SStr "2025-06-09")); ("Source", PScalar (SStr bell))])
           [("Deadline", "2025-06-09")] "Source" bell [] "").
  - reflexivity.
  - intros k v [[= <- <-]|[]] _. reflexivity.
  - cbn. tauto.
  - reflexivity.
Defined.

(** A write leaves the cells of the other rows alone. *)
Lemma write_results_row_frame this_year pad_year nested save self row_index results
    has_error msg r c :
  r <> row_index + 2 ->
  ws (fst (write_results this_year pad_year nested save self row_index results has_error msg))
    !! (r, c) = ws self !! (r, c).
Proof.
  intros Hr. rewrite write_results_ws. unfold write_cells.
  destruct has_error.
  - destruct (cell_set_out (ws self) (row_index + 2) (_get_column_index self "Error")
                (SStr msg)) as [[e ->]|(v' & _ & ->)]; [done|].
    apply lookup_insert_ne. congruence.
  - destruct (process_results _ _ _ _) as [processed|e]; [|done].
    pose proof (write_fields_other_row self (row_index + 2) processed (ws self) r c Hr) as F.
    destruct (write_fields self (ws self) (row_index + 2) processed) as [w [e|]];
      cbn [fst] in *; [done|].
    destruct (_ =? 0)%nat; [done|].
    destruct (cell_set_out w (row_index + 2) (_get_column_index self "Verifier")
                (SStr "LLM")) as [[e ->]|(v' & _ & ->)]; [done|].
    cbn [fst]. rewrite lookup_insert_ne; [done|]. congruence.
Qed.

(** X10.  A write touches one row of the sheet only: whatever is written,
    as a success or as a failure, the cells of every other row stay as
    they are, and so does the table. *)
Theorem write_results_other_rows this_year pad_year nested save self row_index results
    has_error msg r c :
  r <> row_index + 2 ->
  ws (fst (write_results this_year pad_year nested save self row_index results has_error msg))
    !! (r, c) = ws self !! (r, c) /\
  df (fst (write_results this_year pad_year nested save self row_index results has_error msg))
  = df self.
Proof.
  intros Hr. split; [by apply write_results_row_frame|apply write_results_df].
Qed.

(** The header row is not touched by a write to the first row. *)
Lemma write_results_other_rows_witness :
  ws (fst (write_results 2025 false (fun _ _ => Ok "") (fun _ => None) demo_table 0
             (PDict []) true "failed")) !! (1, 5) = ws demo_table !! (1, 5).
Proof.
  apply (write_results_other_rows 2025 false (fun _ _ => Ok "") (fun _ => None) demo_table 0
           (PDict []) true "failed" 1 5). discriminate.
Defined.

(** A write that logs nothing has saved the sheet. *)
Lemma write_results_quiet this_year pad_year nested save self row_index results
    has_error msg :
  snd (write_results this_year pad_year nested save self row_index results has_error msg)
  = None ->
  saved (fst (write_results this_year pad_year nested save self row_index results
                has_error msg))
  = ws (fst (write_results this_year pad_year nested save self row_index results
               has_error msg)).
Proof.
  unfold write_results.
  destruct (write_cells _ _ _ _ _ _ _ _) as [w [e|]]; cbn [fst snd saved ws]; [done|].
  by destruct (save w).
Qed.




(** X12.  A failure write stores the message in the Error cell of the row
    when the table has an Error column and the sheet takes the message:
    the cell then holds the message cut to the 32767 characters of a cell.
    A message that holds a control character within that length is
    refused: the IllegalCharacterError is logged and the sheet stays as it
    was.  When the table has no Error column, the cell assignment raises
    ValueError, [write_results] logs it and the sheet stays as it was. *)
Theorem write_error_stores this_year pad_year nested save self row_index results msg :
  (In "Error" (columns (df self)) ->
   (storable msg = true ->
    ws (fst (write_results this_year pad_year nested save self row_index results true msg))
      !! (row_index + 2, _get_column_index self "Error") = Some (SStr (cut msg))) /\
   (storable msg = false ->
    fst (write_results this_year pad_year nested save self row_index results true msg)
    = self /\
    exists e,
      snd (write_results this_year pad_year nested save self row_index results true msg)
      = Some e /\ exn_type e = "IllegalCharacterError")) /\
  (~ In "Error" (columns (df self)) ->
   ws (fst (write_results this_year pad_year nested save self row_index results true msg))
   = ws self /\
   exists e,
     snd (write_results this_year pad_year nested save self row_index results true msg)
     = Some e /\ exn_type e = "ValueError").
Proof.
  split.
  - intros H. apply column_index_known in H. split.
    + intros Hs. rewrite write_results_ws. unfold write_cells.
      rewrite cell_set_string by (done || lia). rewrite Hs. apply lookup_insert_eq.
    + intros Hs. unfold write_results, write_cells.
      rewrite cell_set_string by (done || lia). rewrite Hs. cbn [fst snd].
      split; [by destruct self|by eexists].
  - intros H. apply column_index_unknown in H. split.
    + rewrite write_error_ws. by rewrite H.
    + unfold write_results, write_cells, cell_set. rewrite H.
      replace (row_index + 2 =? 0)%nat with false by (symmetry; apply Nat.eqb_neq; lia).
      cbn. by eexists.
Qed.

(** The message of a failed row in the demonstration table. *)
Lemma write_error_stores_witness :
  ws (fst (write_results 2025 false (fun _ _ => Ok "") (fun _ => None) demo_table 0
             (PDict []) true "failed"))
    !! (0 + 2, _get_column_index demo_table "Error") = Some (SStr (cut "failed")).
Proof.
  destruct (write_error_stores 2025 false (fun _ _ => Ok "") (fun _ => None) demo_table 0
              (PDict []) "failed") as [H _].
  apply H; [cbn; tauto|reflexivity].
Defined.

End WriterLaws.

(** ** WebPageExtractor: what the fetcher returns *)

Module FetcherLaws.
Import Statements Glossary Text ParserFacts WebPageExtractor.

Section Fetch.

Variable http_get : string -> result response.
Variable pdf_text : string -> result string.
Variable html_text : string -> result string.

(** The two outcomes of the request. *)
Lemma fetch_parser_choice_cases (url : string) :
  (exists r, http_get (strip url) = Ok r /\
     extract_content http_get pdf_text html_text (SStr url)
     = Ok (if (contains "application/pdf" (lower (content_type r))
               || endswith ".pdf" (lower (strip url)))%bool
           then extract_pdf_content pdf_text (content r)
           else extract_html_content html_text (text r))) \/
  (exists e, http_get (strip url) = Raise e /\
     extract_content http_get pdf_text html_text (SStr url)
     = Ok (failure_marker "提取失败" e)).
Proof.
  destruct (http_get (strip url)) as [r|e] eqn:E; [left; exists r|right; exists e];
    (split; [done|]); unfold extract_content, extract_pdf_from_url, extract_html_page;
    rewrite E.
  - destruct (endswith ".pdf" (lower (strip url))) eqn:E1; cbn [orb negb andb].
    + by rewrite andb_false_r, orb_true_r.
    + rewrite orb_false_r, andb_true_r.
      destruct (contains "/pdf/" (lower (strip url)));
        by destruct (contains "application/pdf" (lower (content_type r))).
  - by destruct (_ || _)%bool.
Qed.

(** X13.  Which parser reads a response depends on the response and the
    end of the URL alone: a response is read as a PDF when its content type
    names application/pdf or the URL ends in .pdf, and as a page otherwise,
    whether or not the URL holds /pdf/; and a request that fails gives the
    marker of a failed extraction. *)
Theorem fetch_parser_choice (url : string) :
  (forall r, http_get (strip url) = Ok r ->
     extract_content http_get pdf_text html_text (SStr url)
     = Ok (if (contains "application/pdf" (lower (content_type r))
               || endswith ".pdf" (lower (strip url)))%bool
           then extract_pdf_content pdf_text (content r)
           else extract_html_content html_text (text r))) /\
  (forall e, http_get (strip url) = Raise e ->
     extract_content http_get pdf_text html_text (SStr url)
     = Ok (failure_marker "提取失败" e)).
Proof.
  unfold extract_content, extract_pdf_from_url, extract_html_page. split.
  - intros r ->.
    destruct (endswith ".pdf" (lower (strip url))) eqn:E1; cbn [orb negb andb].
    + by rewrite andb_false_r, orb_true_r.
    + rewrite orb_false_r, andb_true_r.
      destruct (contains "/pdf/" (lower (strip url)));
        by destruct (contains "application/pdf" (lower (content_type r))).
  - intros e ->. by destruct (_ || _)%bool.
Qed.

Lemma endswith_app x p : endswith p (x +:+ p) = true.
Proof.
  unfold endswith. rewrite length_app.
  replace (String.length x + String.length p - String.length p) with (String.length x) by lia.
  rewrite drop_app. apply String.eqb_refl.
Qed.

Lemma failure_marker_bracketed label e : bracketed (failure_marker label e) = true.
Proof.
  unfold bracketed, failure_marker. apply andb_true_iff. split; [done|].
  rewrite <- !append_assoc. apply endswith_app.
Qed.

(** X14.  On a URL that is a string the fetcher raises nothing: it returns
    the text the PDF reader or the page reader extracted, or a marker in
    square brackets. *)
Theorem extract_content_returns (url : string) :
  exists t,
    extract_content http_get pdf_text html_text (SStr url) = Ok t /\
    ((exists data, pdf_text data = Ok t) \/ (exists html, html_text html = Ok t) \/
     bracketed t = true).
Proof.
  destruct (fetch_parser_choice_cases url) as [(r & Hr & ->)|(e & He & ->)].
  - eexists. split; [reflexivity|].
    destruct (_ || _)%bool.
    + unfold extract_pdf_content. destruct (pdf_text (content r)) as [t|e] eqn:E.
      * left. by exists (content r).
      * right; right. apply failure_marker_bracketed.
    + unfold extract_html_content. destruct (html_text (text r)) as [t|e] eqn:E.
      * right; left. by exists (text r).
      * right; right. apply failure_marker_bracketed.
  - eexists. split; [reflexivity|]. right; right. apply failure_marker_bracketed.
Qed.

End Fetch.

(** A PDF served without its type, from a URL that ends in .PDF. *)
Lemma fetch_parser_choice_witness :
  extract_content (fun _ => Ok (Response "text/html" "<p>x</p>" "%PDF"))
    (fun _ => Ok "pdf text") (fun _ => Ok "page text") (SStr " http://example.org/a.PDF ")
  = Ok "pdf text".
Proof.
  destruct (fetch_parser_choice (fun _ => Ok (Response "text/html" "<p>x</p>" "%PDF"))
              (fun _ => Ok "pdf text") (fun _ => Ok "page text")
              " http://example.org/a.PDF ") as [H _].
  apply (H (Response "text/html" "<p>x</p>" "%PDF")). reflexivity.
Defined.

End FetcherLaws.

(** ** LlmProcessor: the shape of a parsed reply *)

Module ParserLaws.
Import Statements Glossary Text ParserFacts LlmProcessor.

Section Decoder.

Variable float_of : string -> pyfloat.
Variable max_depth : nat.

Ltac bits c := destruct c as [[] [] [] [] [] [] [] []]; try done.

(** The members of an object decode to a mapping. *)
Lemma members_dict fuel depth : forall s pairs v rest,
  Json.members float_of fuel depth s pairs = Decoded (v, rest) -> exists d, v = PDict d.
Proof.
  induction fuel as [|fuel IH]; intros s pairs v rest H; [done|].
  cbn [Json.members] in H.
  destruct s as [|c s0]; [done|]. bits c.
  destruct (Json.scanstring _ s0) as [[key rest1]|]; [|done].
  cbn [parsed mbind decoded_bind] in H.
  destruct (Json.skip_ws rest1) as [|c1 rest2]; [done|]. bits c1.
  destruct (Json.scan float_of fuel depth _) as [[value rest3]| |e]; [|done..].
  cbn [mbind decoded_bind] in H.
  destruct (Json.skip_ws rest3) as [|c3 rest4]; [done|]. bits c3.
  - injection H as <- _. by eexists.
  - by apply IH in H.
Qed.

(** A text that starts with a brace decodes to a mapping, if it decodes. *)
Lemma loads_object b v :
  Json.loads float_of max_depth ("{" +:+ b) = Decoded v -> exists d, v = PDict d.
Proof.
  unfold Json.loads. rewrite append_cons, append_nil.
  cbn [Json.skip_ws Json.is_ws Ascii.eqb Bool.eqb orb].
  destruct (Json.scan _ _ _ _) as [[obj rest]| |e] eqn:S; [|done..].
  cbn [mbind decoded_bind]. destruct (Json.skip_ws rest); [|done]. intros [= <-].
  cbn [Json.scan Ascii.eqb Bool.eqb] in S.
  destruct max_depth as [|depth]; [done|].
  destruct (Json.skip_ws b) as [|c tail] eqn:W.
  - by apply members_dict in S.
  - assert (c = "}"%char \/ Json.members float_of (String.length (String "{" b)) depth
                              (String c tail) [] = Decoded (obj, rest)) as [->|M].
    { revert S. bits c; auto. }
    + injection S as <- _. by eexists.
    + by apply members_dict in M.
Qed.

Lemma number_thrown s e : Json.number float_of s = Thrown e -> decoder_exception e.
Proof.
  unfold Json.number. destruct (Re.match_ _ s) as [[rest cs]|].
  - destruct (Re.group 2 cs), (Re.group 3 cs); try done.
    destruct (Nat.ltb _ _); [|done]. intros [= <-]. by left.
  - by repeat destruct (prefix _ s).
Qed.

Lemma scan_thrown fuel : forall depth s e,
  (Json.scan float_of fuel depth s = Thrown e -> decoder_exception e) /\
  (forall pairs, Json.members float_of fuel depth s pairs = Thrown e -> decoder_exception e) /\
  (forall values, Json.elements float_of fuel depth s values = Thrown e ->
                  decoder_exception e).
Proof.
  induction fuel as [|fuel IH]; intros depth s e; [done|].
  split; [|split].
  - cbn [Json.scan]. destruct s as [|c rest]; [done|].
    destruct (Ascii.eqb c "034").
    { destruct (Json.scanstring _ rest) as [[str tail]|]; done. }
    destruct (Ascii.eqb c "{").
    { destruct depth as [|depth]; [intros [= <-]; by right|].
      destruct (Json.skip_ws rest) as [|c1 tail] eqn:W; [apply IH|].
      intros H. assert (Json.members float_of fuel depth (String c1 tail) [] = Thrown e) as M.
      { revert H. bits c1. }
      revert M. apply IH. }
    destruct (Ascii.eqb c "[").
    { destruct depth as [|depth]; [intros [= <-]; by right|].
      destruct (Json.skip_ws rest) as [|c1 tail] eqn:W; [apply IH|].
      intros H. assert (Json.elements float_of fuel depth (String c1 tail) [] = Thrown e) as M.
      { revert H. bits c1. }
      revert M. apply IH. }
    repeat (destruct (prefix _ (String c rest)); [done|]).
    apply number_thrown.
  - intros pairs. cbn [Json.members].
    destruct s as [|c s0]; [done|]. bits c.
    destruct (Json.scanstring _ s0) as [[key rest1]|]; [|done].
    cbn [parsed mbind decoded_bind].
    destruct (Json.skip_ws rest1) as [|c1 rest2]; [done|]. bits c1.
    destruct (Json.scan float_of fuel depth _) as [[value rest3]| |e'] eqn:S.
    + cbn [mbind decoded_bind].
      destruct (Json.skip_ws rest3) as [|c3 rest4]; [done|]. bits c3. apply IH.
    + done.
    + cbn [mbind decoded_bind]. intros [= <-]. revert S. apply IH.
  - intros values. cbn [Json.elements].
    destruct (Json.scan float_of fuel depth s) as [[value rest1]| |e'] eqn:S.
    + cbn [mbind decoded_bind].
      destruct (Json.skip_ws rest1) as [|c1 rest2]; [done|]. bits c1. apply IH.
    + done.
    + cbn [mbind decoded_bind]. intros [= <-]. revert S. apply IH.
Qed.

Lemma loads_thrown s e :
  Json.loads float_of max_depth s = Thrown e -> decoder_exception e.
Proof.
  unfold Json.loads.
  destruct (Json.scan _ _ _ _) as [[obj rest]| |e'] eqn:S; cbn [mbind decoded_bind].
  - by destruct (Json.skip_ws rest).
  - done.
  - intros [= <-]. revert S. apply scan_thrown.
Qed.

(** X15.  A reply in which a closing brace follows an opening brace never
    parses to anything but a mapping, whatever text surrounds the braces
    and whatever lies between them: the parser returns the decoded object,
    or the empty mapping when the span is malformed, or it raises the
    ValueError or the RecursionError of the decoder. *)
Theorem parse_span_mapping (a b c : string) :
  (exists d, _parse_model_output (Json.loads float_of max_depth)
               (a +:+ "{" +:+ b +:+ "}" +:+ c) = Ok (PDict d)) \/
  (exists e, _parse_model_output (Json.loads float_of max_depth)
               (a +:+ "{" +:+ b +:+ "}" +:+ c) = Raise e /\
             (exn_type e = "ValueError" \/ exn_type e = "RecursionError")).
Proof.
  pose proof (span_test _ a b c eq_refl) as T.
  destruct (span_found _ T) as (a' & b' & c' & E & Ha & Hc).
  unfold _parse_model_output. rewrite T. rewrite E.
  destruct (span_slice a' b' c' Ha Hc) as (-> & -> & ->).
  destruct (Json.loads float_of max_depth _) as [v| |e] eqn:L; cbn [caught].
  - left. apply loads_object in L as [d ->]. by exists d.
  - left. by eexists.
  - right. exists e. split; [done|]. by apply loads_thrown in L.
Qed.

End Decoder.

End ParserLaws.

(** ** ExtractionSystem: the run as a whole *)

Module RunLaws.
Import Statements Glossary Text ExcelProcessor WebPageExtractor LlmProcessor ExtractionSystem
       WriterFacts WriterLaws.

Section Loop.

Variable this_year : nat.
Variable pad_year : bool.
Variable nested : string -> pyval -> result string.
Variable save : worksheet -> option exn.
Variable http_get : string -> result response.
Variable pdf_text : string -> result string.
Variable html_text : string -> result string.
Variable loads : string -> decoded pyval.
Variable prompt_template : string -> list string -> string.
Variable generate : string -> result string.
Variable url_column : string.
Variable batch_size : Z.

Local Abbreviation write_ := (write this_year pad_year nested save).
Local Abbreviation try_row_ fields :=
  (try_row this_year pad_year nested save http_get pdf_text html_text loads
     prompt_template generate url_column batch_size fields).
Local Abbreviation process_row_ fields :=
  (process_row this_year pad_year nested save http_get pdf_text html_text loads
     prompt_template generate url_column batch_size fields).
Local Abbreviation loop_ fields :=
  (loop this_year pad_year nested save http_get pdf_text html_text loads
     prompt_template generate url_column batch_size fields).
Local Abbreviation run_ :=
  (run this_year pad_year nested save http_get pdf_text html_text loads
     prompt_template generate).

Lemma write_frame self idx results has_error msg R c :
  R <> idx + 2 ->
  ws (fst (write_ self idx results has_error msg)) !! (R, c) = ws self !! (R, c).
Proof. apply write_results_row_frame. Qed.

(** The body of a row writes to the sheet row of the row only. *)
Lemma try_row_frame fields self i r R c :
  R <> fst r + 2 ->
  ws (fst (fst (try_row_ fields self i r))) !! (R, c) = ws self !! (R, c).
Proof.
  intros HR. unfold try_row.
  destruct (row_url _ _ _) as [[url|]|e]; [|done..].
  destruct (extract_content _ _ _ _) as [web_content|e]; [|done].
  destruct (extract_structured_info _ _ _ _ _) as [info|e]; [|done].
  pose proof (write_frame self (fst r) info false "" R c HR) as F.
  destruct (write_ self (fst r) info false "") as [self' logged].
  destruct (batch_size =? 0)%Z; [done|]. by destruct (_ =? 0)%Z.
Qed.

Lemma process_row_frame fields self i r R c :
  R <> fst r + 2 ->
  ws (fst (process_row_ fields self i r)) !! (R, c) = ws self !! (R, c).
Proof.
  intros HR. unfold process_row.
  pose proof (try_row_frame fields self i r R c HR) as T.
  destruct (try_row_ fields self i r) as [[self1 evs] [e|]]; cbn [fst] in T; [|done].
  pose proof (write_frame self1 (fst r) (PDict []) true ("处理失败: " +:+ exn_text e) R c HR)
    as F.
  destruct (write_ self1 (fst r) (PDict []) true _) as [self2 logged].
  cbn [fst] in *. congruence.
Qed.

Lemma loop_frame fields rs : forall self i R c,
  (forall r, In r rs -> R <> fst r + 2) ->
  ws (fst (loop_ fields self i rs)) !! (R, c) = ws self !! (R, c).
Proof.
  induction rs as [|r rest IH]; intros self i R c H; [done|].
  cbn [loop].
  pose proof (process_row_frame fields self i r R c (H r (or_introl eq_refl))) as P.
  destruct (process_row_ fields self i r) as [self' evs].
  specialize (IH self' (S i) R c (fun r' Hr' => H r' (or_intror Hr'))).
  destruct (loop_ fields self' (S i) rest) as [self'' evs'].
  cbn [fst] in *. congruence.
Qed.

(** The loop of [run], whatever the fields are. *)
Lemma run_loop self fields :
  exists fs,
    run_ self url_column batch_size fields
    = loop_ fs (snd (filter_rows self)) 0 (fst (filter_rows self)).
Proof.
  unfold run. destruct (filter_rows self) as [filtered_df self'] eqn:F. cbn [fst snd].
  destruct filtered_df as [|r rest]; [by exists []|]. by eexists.
Qed.

(** X16.  A run writes to the sheet rows of the selected rows only: every
    cell of every other row of the sheet -- the header, the rows already
    verified, the rows marked failed before -- is after the run what it was
    before, whatever the sites and the model answer. *)
Theorem run_frame self fields R c :
  (forall r, In r (fst (filter_rows self)) -> R <> fst r + 2) ->
  ws (fst (run this_year pad_year nested save http_get pdf_text html_text loads
               prompt_template generate self url_column batch_size fields)) !! (R, c)
  = ws self !! (R, c).
Proof.
  intros H. destruct (run_loop self fields) as [fs ->].
  by rewrite loop_frame.
Qed.

(** When the turn of a row logs no exception, the file is in step with
    the sheet after it. *)
Lemma process_row_quiet fields self i r :
  saved self = ws self ->
  forallb quiet (snd (process_row_ fields self i r)) = true ->
  saved (fst (process_row_ fields self i r)) = ws (fst (process_row_ fields self i r)).
Proof.
  intros HI. unfold process_row, try_row, write.
  assert (W : forall s results has_error msg s' logged,
            write_results this_year pad_year nested save s (fst r) results has_error msg
            = (s', logged) ->
            logged = None -> saved s' = ws s').
  { intros s results has_error msg s' logged E ->.
    pose proof (write_results_quiet this_year pad_year nested save s (fst r) results
                  has_error msg) as Q.
    rewrite E in Q. by apply Q. }
  assert (F : forall s e,
            forallb quiet
              (snd (let '(s', logged) :=
                      write_results this_year pad_year nested save s (fst r) (PDict []) true
                        ("处理失败: " +:+ exn_text e) in
                    (s', [Failed (fst r) e logged])))
            = true ->
            saved (fst (let '(s', logged) :=
                          write_results this_year pad_year nested save s (fst r) (PDict [])
                            true ("处理失败: " +:+ exn_text e) in
                        (s', [Failed (fst r) e logged])))
            = ws (fst (let '(s', logged) :=
                         write_results this_year pad_year nested save s (fst r) (PDict [])
                           true ("处理失败: " +:+ exn_text e) in
                       (s', [Failed (fst r) e logged])))).
  { intros s e. destruct (write_results _ _ _ _ s _ _ _ _) as [s' logged] eqn:E.
    cbn [fst snd forallb quiet]. destruct logged as [e'|]; [done|]. intros _.
    by eapply W. }
  destruct (row_url _ _ _) as [[url|]|e]; [|done|apply F].
  destruct (extract_content _ _ _ _) as [web_content|e]; [|apply F].
  destruct (extract_structured_info _ _ _ _ _) as [info|e]; [|apply F].
  destruct (write_results _ _ _ _ self _ info _ _) as [s1 logged] eqn:E1.
  destruct (batch_size =? 0)%Z.
  - pose proof (F s1 (Exn "ZeroDivisionError" "integer modulo by zero")) as F1.
    destruct (write_results _ _ _ _ s1 _ _ _ _) as [s2 logged2].
    cbn [fst snd app forallb] in *. intros H. apply andb_true_iff in H as [_ H].
    by apply F1.
  - assert (forallb quiet [Wrote (fst r) logged] = true -> saved s1 = ws s1) as Q.
    { cbn [forallb quiet]. destruct logged as [e'|]; [done|]. intros _. by eapply W. }
    destruct (_ =? 0)%Z; cbn [fst snd]; [|exact Q].
    intros H. apply Q. destruct logged; cbn in *; done.
Qed.

Lemma loop_quiet fields rs : forall self i,
  saved self = ws self ->
  forallb quiet (snd (loop_ fields self i rs)) = true ->
  saved (fst (loop_ fields self i rs)) = ws (fst (loop_ fields self i rs)).
Proof.
  induction rs as [|r rest IH]; intros self i HI; [done|].
  cbn [loop].
  pose proof (process_row_quiet fields self i r HI) as P.
  destruct (process_row_ fields self i r) as [self' evs].
  specialize (IH self' (S i)).
  destruct (loop_ fields self' (S i) rest) as [self'' evs'].
  cbn [fst snd] in *. rewrite forallb_app. intros [H1 H2]%andb_true_iff. auto.
Qed.

(** X17.  When the log of a run shows no exception of a write -- every
    row was skipped, or written or marked failed by a write that raised
    nothing -- and the file was in step with the sheet before the run, it
    is in step with the sheet after it: every cell the run changed in
    memory is in the saved file. *)
Theorem run_in_step self fields :
  saved self = ws self ->
  forallb quiet
    (snd (run this_year pad_year nested save http_get pdf_text html_text loads
               prompt_template generate self url_column batch_size fields)) = true ->
  saved (fst (run this_year pad_year nested save http_get pdf_text html_text loads
               prompt_template generate self url_column batch_size fields))
  = ws (fst (run this_year pad_year nested save http_get pdf_text html_text loads
               prompt_template generate self url_column batch_size fields)).
Proof.
  intros HI. destruct (run_loop self fields) as [fs ->].
  by apply loop_quiet.
Qed.

(** What the turn of a row logs, for a batch size other than 0. *)
Lemma process_row_events fields self i r :
  batch_size <> 0%Z ->
  snd (process_row_ fields self i r) = [Skipped (fst r)] \/
  (exists e logged, snd (process_row_ fields self i r) = [Failed (fst r) e logged]) \/
  (exists logged,
     snd (process_row_ fields self i r)
     = Wrote (fst r) logged :: (if pause_due batch_size i then [Slept] else [])).
Proof.
  intros HB. unfold process_row, try_row, pause_due.
  destruct (row_url _ _ _) as [[url|]|e].
  - destruct (extract_content _ _ _ _) as [web_content|e].
    + destruct (extract_structured_info _ _ _ _ _) as [info|e].
      * destruct (write_ self (fst r) info false "") as [s1 logged].
        destruct (batch_size =? 0)%Z eqn:E; [by apply Z.eqb_eq in E|].
        right; right. exists logged.
        destruct ((Z.of_nat i + 1) mod batch_size =? 0)%Z; reflexivity.
      * destruct (write_ self (fst r) (PDict []) true _) as [s2 logged].
        right; left. by exists e, logged.
    + destruct (write_ self (fst r) (PDict []) true _) as [s2 logged].
      right; left. by exists e, logged.
  - by left.
  - destruct (write_ self (fst r) (PDict []) true _) as [s2 logged].
    right; left. by exists e, logged.
Qed.

Lemma loop_events fields rs : forall self i,
  batch_size <> 0%Z ->
  omap event_row (snd (loop_ fields self i rs)) = map fst rs.
Proof.
  induction rs as [|r rest IH]; intros self i HB; [done|].
  cbn [loop].
  pose proof (process_row_events fields self i r HB) as P.
  destruct (process_row_ fields self i r) as [self' evs].
  specialize (IH self' (S i) HB).
  destruct (loop_ fields self' (S i) rest) as [self'' evs'].
  cbn [fst snd map] in *.
  destruct P as [->|[(e & logged & ->)|(logged & ->)]]; cbn; rewrite ?IH; try done.
  destruct (pause_due batch_size i); cbn; by rewrite IH.
Qed.

(** X18.  With a batch size other than 0 the log of a run names each
    selected row exactly once, in the order of the table: every row of the
    selection is skipped, written or marked failed, and none is visited
    twice or left out. *)
Theorem run_events self fields :
  batch_size <> 0%Z ->
  omap event_row
    (snd (run this_year pad_year nested save http_get pdf_text html_text loads
               prompt_template generate self url_column batch_size fields))
  = map fst (fst (filter_rows self)).
Proof.
  intros HB. destruct (run_loop self fields) as [fs ->]. by apply loop_events.
Qed.

(** The log of the loop does not start with a pause. *)
Lemma loop_head fields self i rs :
  batch_size <> 0%Z ->
  match snd (loop_ fields self i rs) with Slept :: _ => False | _ => True end.
Proof.
  intros HB. destruct rs as [|r rest]; [done|]. cbn [loop].
  pose proof (process_row_events fields self i r HB) as P.
  destruct (process_row_ fields self i r) as [self' evs].
  destruct (loop_ fields self' (S i) rest) as [self'' evs'].
  cbn [fst snd] in *.
  by destruct P as [->|[(e & logged & ->)|(logged & ->)]].
Qed.

Lemma loop_paced fields rs : forall self i,
  batch_size <> 0%Z ->
  paced batch_size i (snd (loop_ fields self i rs)) = true.
Proof.
  induction rs as [|r rest IH]; intros self i HB; [done|].
  cbn [loop].
  pose proof (process_row_events fields self i r HB) as P.
  destruct (process_row_ fields self i r) as [self' evs].
  specialize (IH self' (S i) HB).
  pose proof (loop_head fields self' (S i) rest HB) as H.
  destruct (loop_ fields self' (S i) rest) as [self'' evs'].
  cbn [fst snd] in *.
  destruct P as [->|[(e & logged & ->)|(logged & ->)]]; [done..|].
  destruct (pause_due batch_size i) eqn:E; cbn [app paced]; rewrite E.
  - done.
  - by destruct evs' as [|[] evs'].
Qed.

(** X19.  With a batch size other than 0 the run pauses exactly where a
    pause is due: directly after a row that was written and whose position
    in the selection, counted from 1, is a multiple of the batch size.  A
    row that is skipped or marked failed at the end of a batch brings no
    pause. *)
Theorem run_paced self fields :
  batch_size <> 0%Z ->
  paced batch_size 0
    (snd (run this_year pad_year nested save http_get pdf_text html_text loads
               prompt_template generate self url_column batch_size fields))
  = true.
Proof.
  intros HB. destruct (run_loop self fields) as [fs ->]. by apply loop_paced.
Qed.

(** The message of the division is one the sheet takes as it is. *)
Lemma zero_message_stored :
  check_string ("处理失败: " +:+ "integer modulo by zero")
  = Ok ("处理失败: " +:+ "integer modulo by zero").
Proof. vm_compute. reflexivity. Qed.

(** X20.  With batch size 0 no row ends as a success: once the reply for a
    row is parsed and written, the batch test divides by zero, the row
    boundary catches the ZeroDivisionError, and the row is logged as failed
    as well, its Error cell set to the message of the division. *)
Theorem zero_batch_fails fields self i r url web_content info :
  batch_size = 0%Z ->
  In "Error" (columns (df self)) ->
  row_url url_column self r = Ok (Some url) ->
  extract_content http_get pdf_text html_text url = Ok web_content ->
  extract_structured_info loads prompt_template generate web_content fields = Ok info ->
  exists logged e logged',
    snd (process_row_ fields self i r) = [Wrote (fst r) logged; Failed (fst r) e logged'] /\
    exn_type e = "ZeroDivisionError" /\
    ws (fst (process_row_ fields self i r)) !! (fst r + 2, _get_column_index self "Error")
    = Some (SStr ("处理失败: " +:+ exn_text e)).
Proof.
  intros HB HE HU HC HX. unfold process_row, try_row.
  rewrite HU, HC, HX. subst batch_size. cbn [Z.eqb].
  pose proof (write_results_df this_year pad_year nested save self (fst r) info false "")
    as D.
  unfold write in *.
  destruct (write_results _ _ _ _ self _ _ _ _) as [self1 logged]. cbn [fst] in D.
  pose proof (write_error_ws this_year pad_year nested save self1 (fst r) (PDict [])
                ("处理失败: " +:+ "integer modulo by zero")) as W.
  cbn [exn_text].
  destruct (write_results _ _ _ _ self1 _ _ _ _) as [self2 logged'].
  exists logged, (Exn "ZeroDivisionError" "integer modulo by zero"), logged'.
  split; [done|]. split; [done|]. cbn [fst snd exn_text] in *. rewrite W.
  assert (C : _get_column_index self1 "Error" = _get_column_index self "Error").
  { unfold _get_column_index. by rewrite D. }
  rewrite C. apply column_index_known, Nat.eqb_neq in HE. rewrite HE.
  rewrite zero_message_stored. apply lookup_insert_eq.
Qed.

End Loop.

(** The sheet row of the verified row is left alone. *)
Lemma run_frame_witness :
  ws (fst (run 2025 false (fun _ _ => Ok "") (fun _ => None) http_page page_text page_text
             json_loads (fun text _ => text) (fun _ => Ok deadline_reply)
             two_row_table "Source" 10 None)) !! (2, 4)
  = ws two_row_table !! (2, 4).
Proof.
  apply (run_frame 2025 false (fun _ _ => Ok "") (fun _ => None) http_page page_text page_text
           json_loads (fun text _ => text) (fun _ => Ok deadline_reply) "Source" 10
           two_row_table None 2 4).
  intros r Hr. vm_compute in Hr. destruct Hr as [<-|[]]. cbn. lia.
Defined.

(** The file after the run on the example table. *)
Lemma run_in_step_witness :
  saved (fst (run_with http_page (fun _ => Ok deadline_reply)))
  = ws (fst (run_with http_page (fun _ => Ok deadline_reply))).
Proof.
  apply (run_in_step 2025 false (fun _ _ => Ok "") (fun _ => None) http_page page_text
           page_text json_loads (fun text _ => text) (fun _ => Ok deadline_reply) "Source" 10
           call_table None); [reflexivity|vm_compute; reflexivity].
Defined.

(** The one row of the example table is named once. *)
Lemma run_events_witness :
  omap event_row (snd (run_with http_page (fun _ => Ok deadline_reply)))
  = map fst (fst (filter_rows call_table)).
Proof.
  apply (run_events 2025 false (fun _ _ => Ok "") (fun _ => None) http_page page_text page_text
           json_loads (fun text _ => text) (fun _ => Ok deadline_reply) "Source" 10
           call_table None).
  discriminate.
Defined.

(** With batches of one row, the run pauses after the row it wrote. *)
Lemma run_paced_witness :
  paced 1 0 (snd (run 2025 false (fun _ _ => Ok "") (fun _ => None) http_page page_text
                    page_text json_loads (fun text _ => text) (fun _ => Ok deadline_reply)
                    call_table "Source" 1 None)) = true.
Proof.
  apply (run_paced 2025 false (fun _ _ => Ok "") (fun _ => None) http_page page_text page_text
           json_loads (fun text _ => text) (fun _ => Ok deadline_reply) "Source" 1
           call_table None).
  discriminate.
Defined.

(** The row of the example table, with batch size 0. *)
Lemma zero_batch_fails_witness :
  exists logged e logged',
    snd (process_row 2025 false (fun _ _ => Ok "") (fun _ => None) http_page page_text
           page_text json_loads (fun text _ => text) (fun _ => Ok deadline_reply)
           "Source" 0 ["Deadline"] call_table 0 call_row)
    = [Wrote (fst call_row) logged; Failed (fst call_row) e logged'] /\
    exn_type e = "ZeroDivisionError" /\
    ws (fst (process_row 2025 false (fun _ _ => Ok "") (fun _ => None) http_page page_text
               page_text json_loads (fun text _ => text) (fun _ => Ok deadline_reply)
               "Source" 0 ["Deadline"] call_table 0 call_row))
      !! (fst call_row + 2, _get_column_index call_table "Error")
    = Some (SStr ("处理失败: " +:+ exn_text e)).
Proof.
  apply (zero_batch_fails 2025 false (fun _ _ => Ok "") (fun _ => None) http_page page_text
           page_text json_loads (fun text _ => text) (fun _ => Ok deadline_reply)
           "Source" 0 ["Deadline"] call_table 0 call_row
           (SStr "http://example.org/call") "call"
           (PDict [("Deadline", PScalar (SStr "2025-01-01"))])).
  - reflexivity.
  - cbn. tauto.
  - vm_compute. reflexivity.
  - vm_compute. reflexivity.
  - vm_compute. reflexivity.
Defined.

End RunLaws.

(** ** DataFormatter: dates in canonical form and dates without a year *)

Module DateLaws.
Import Statements Glossary Text Re Strptime DataFormatter TextFacts ReFacts DateFacts
       ParserFacts.

Lemma plain_not_space c : plain c = true -> is_space c = false.
Proof. destruct c as [[] [] [] [] [] [] [] []]; vm_compute; congruence. Qed.

Lemma rstrip_plain s : all_chars plain s = true -> rstrip s = s.
Proof.
  induction s as [|c s IH]; simpl; [done|].
  intros [Hc Hs]%andb_true_iff. rewrite (IH Hs).
  destruct s; [|done]. by rewrite (plain_not_space c Hc).
Qed.

Lemma strip_plain s : all_chars plain s = true -> strip s = s.
Proof.
  intros H. unfold strip. rewrite (rstrip_plain s H).
  destruct s as [|c s]; [done|]. cbn [lstrip all_chars] in *.
  apply andb_true_iff in H as [Hc _]. by rewrite (plain_not_space c Hc).
Qed.

(** After its digits, each rewrite wants a letter, a dot or a space. *)
Ltac after_digits H E :=
  cbn [seq run plus fst snd] in E;
  apply rep_sound in E as (a & b & prev & Hs & _ & _ & Hk);
  cbn [fst snd] in Hs, Hk; subst;
  rewrite all_chars_app in H; apply andb_true_iff in H as [_ H];
  destruct b as [|c t]; [done|];
  cbn [all_chars] in H; apply andb_true_iff in H as [H _];
  destruct c as [[] [] [] [] [] [] [] []]; try discriminate H; cbn in Hk; discriminate Hk.

Lemma plain_no_rewrite s : all_chars plain s = true -> rewritten s = s.
Proof.
  intros H. unfold rewritten.
  assert (H1 : match_ special_format s = None).
  { destruct (match_ special_format s) as [res|] eqn:E; [exfalso|done].
    unfold match_, special_format in E. after_digits H E. }
  rewrite (rewrite_none _ _ H1).
  assert (H2 : match_ dot_format s = None).
  { destruct (match_ dot_format s) as [res|] eqn:E; [exfalso|done].
    unfold match_, dot_format in E. after_digits H E. }
  rewrite (rewrite_none _ _ H2).
  assert (H3 : match_ comma_format s = None).
  { destruct (match_ comma_format s) as [res|] eqn:E; [exfalso|done].
    unfold match_, comma_format in E. after_digits H E. }
  by rewrite (rewrite_none _ _ H3).
Qed.

Lemma below (P : nat -> bool) n :
  forallb P (List.seq 0 n) = true -> forall y, y < n -> P y = true.
Proof.
  intros H y Hy. apply (proj1 (forallb_forall _ _) H). apply in_seq. lia.
Qed.

(** The years of the calendar, as [strftime] writes them. *)
#[warnings="-abstract-large-number"]
Lemma padded_years :
  forallb (fun y => (y =? 0)%nat || year_text (zfill 4 (of_nat y)) y) (List.seq 0 (S 9999))
  = true.
Proof. vm_compute. reflexivity. Qed.

#[warnings="-abstract-large-number"]
Lemma long_years :
  forallb (fun y => (y <? 1000)%nat || String.eqb (zfill 4 (of_nat y)) (of_nat y))
          (List.seq 0 (S 9999)) = true.
Proof. vm_compute. reflexivity. Qed.

#[warnings="-abstract-large-number"]
Lemma year_written pad_year y :
  (1 <=? y)%nat = true -> (y <=? 9999)%nat = true -> pad_year = true \/ 1000 <= y ->
  year_text (if pad_year then zfill 4 (of_nat y) else of_nat y) y = true.
Proof.
  intros H1 Hy Hp. apply Nat.leb_le in H1, Hy. apply Nat.lt_succ_r in Hy.
  pose proof (below _ _ padded_years y Hy) as P. cbv beta in P.
  replace (y =? 0)%nat with false in P by (symmetry; apply Nat.eqb_neq; lia).
  destruct pad_year; [done|]. destruct Hp as [|Hp]; [done|].
  pose proof (below _ _ long_years y Hy) as L. cbv beta in L.
  replace (y <? 1000)%nat with false in L by (symmetry; apply Nat.ltb_ge; lia).
  apply String.eqb_eq in L. by rewrite <- L.
Qed.

Lemma run_seq {R} r1 r2 at_ cs (k : pos -> caps -> option R) :
  run (Seq r1 r2) at_ cs k = run r1 at_ cs (fun at' cs' => run r2 at' cs' k).
Proof. reflexivity. Qed.

(** The group of the year takes four digits, no more and no less. *)
Lemma year_group {R} a b c d tail prev cs (k : pos -> caps -> option R) :
  is_digit a = true -> is_digit b = true -> is_digit c = true -> is_digit d = true ->
  run (Grp g_Y (times is_digit 4)) (prev, String a (String b (String c (String d tail)))) cs k
  = k (Some d, tail) ((g_Y, String a (String b (String c (String d "")))) :: cs).
Proof.
  intros Ha Hb Hc Hd. cbn [run times rep fst snd Nat.eqb Nat.pred]. rewrite Ha, Hb, Hc, Hd.
  replace (String.length (String a (String b (String c (String d tail)))) - String.length tail)
    with 4 by (cbn [String.length]; lia).
  cbn [take]. by destruct (k _ _).
Qed.

#[warnings="-abstract-large-number"]
Lemma valid_date_bounds y m d :
  valid_date y m d = true ->
  (1 <=? y)%nat = true /\ (y <=? 9999)%nat = true /\ 1 <= m <= 12 /\ 1 <= d <= 31.
Proof.
  unfold valid_date. rewrite !andb_true_iff.
  intros [[[[[? ?] Hm1] Hm2] Hd1] Hd2]. do 2 (split; [done|]).
  apply Nat.leb_le in Hm1, Hm2, Hd1, Hd2.
  assert (days_in_month y m <= 31).
  { unfold days_in_month.
    do 13 (destruct m as [|m]; [try lia; try (destruct (is_leap y); lia)|]). lia. }
  lia.
Qed.

(** The month and the day of a canonical date are read back. *)
Lemma month_day_parse m d prev cs :
  1 <= m <= 12 -> 1 <= d <= 31 ->
  run (pattern "-%m-%d") (prev, month_day_text m d) cs (fun at' cs' => Some (snd at', cs'))
  = Some ("", (g_d, zfill 2 (of_nat d)) :: (g_m, zfill 2 (of_nat m)) :: cs).
Proof.
  intros Hm Hd.
  assert (Im : In m (List.seq 1 12)) by (apply in_seq; lia).
  assert (Id : In d (List.seq 1 31)) by (apply in_seq; lia).
  clear Hm Hd. cbn [List.seq In] in Im.
  repeat (destruct Im as [<-|Im]; [cbn [List.seq In] in Id;
    repeat (destruct Id as [<-|Id]; [vm_compute; reflexivity|]); done|]).
  done.
Qed.

Lemma month_day_facts :
  forallb (fun m => forallb (fun d =>
     all_chars plain (month_day_text m d) && (int (zfill 2 (of_nat m)) =? m)%nat
     && (int (zfill 2 (of_nat d)) =? d)%nat)%bool (List.seq 1 31)) (List.seq 1 12) = true.
Proof. vm_compute. reflexivity. Qed.

Lemma month_day_read m d :
  1 <= m <= 12 -> 1 <= d <= 31 ->
  all_chars plain (month_day_text m d) = true /\
  int (zfill 2 (of_nat m)) = m /\ int (zfill 2 (of_nat d)) = d.
Proof.
  intros Hm Hd.
  pose proof (proj1 (forallb_forall _ _) month_day_facts m ltac:(apply in_seq; lia)) as F.
  cbv beta in F.
  pose proof (proj1 (forallb_forall _ _) F d ltac:(apply in_seq; lia)) as G.
  cbv beta in G. apply andb_true_iff in G as [[G1 G2]%andb_true_iff G3].
  by apply Nat.eqb_eq in G2, G3.
Qed.

Lemma digit_plain c : is_digit c = true -> plain c = true.
Proof. unfold plain. by intros ->. Qed.

(** The canonical form of a date is read back as that date by the first
    format. *)
Lemma canonical_parse pad_year y m d :
  valid_date y m d = true -> pad_year = true \/ 1000 <= y ->
  all_chars plain (strftime pad_year (Date y m d)) = true /\
  strftime pad_year (Date y m d) <> "" /\
  strptime (strftime pad_year (Date y m d)) "%Y-%m-%d" = Some (Date y m d).
Proof.
  intros V Hp. destruct (valid_date_bounds _ _ _ V) as (Hy1 & Hy2 & Hm & Hd).
  pose proof (year_written pad_year y Hy1 Hy2 Hp) as Y.
  destruct (month_day_read m d Hm Hd) as (Pt & Im & Id).
  unfold strftime. cbn [year month day].
  fold (month_day_text m d).
  destruct (if pad_year then zfill 4 (of_nat y) else of_nat y)
    as [|a [|b [|c [|e [|? ?]]]]] eqn:EY; try done.
  cbn [year_text] in Y.
  apply andb_true_iff in Y as [[[[Ha Hb]%andb_true_iff Hc]%andb_true_iff He]%andb_true_iff Hi].
  apply Nat.eqb_eq in Hi.
  rewrite !append_cons, append_nil. split; [|split; [done|]].
  - cbn [all_chars]. by rewrite !digit_plain, Pt.
  - unfold strptime, match_.
    change (pattern "%Y-%m-%d") with (Seq (Grp g_Y (times is_digit 4)) (pattern "-%m-%d")).
    rewrite run_seq, year_group by done. rewrite month_day_parse by done.
    unfold year_of, month_of, day_of. cbn [group g_Y g_y g_m g_d g_B g_b Nat.eqb].
    by rewrite Hi, Im, Id, V.
Qed.

(** X21.  A date in canonical form stays as it is: [format_date] returns
    the text year-month-day of every date of the calendar unchanged (with
    a year of four digits, or on a platform that pads the year), so
    normalising a normalised Deadline changes nothing. *)
Theorem canonical_date_fixed this_year pad_year y m d :
  valid_date y m d = true -> pad_year = true \/ 1000 <= y ->
  format_date this_year pad_year (SStr (strftime pad_year (Date y m d)))
  = strftime pad_year (Date y m d).
Proof.
  intros V Hp. destruct (canonical_parse pad_year y m d V Hp) as (Hc & Hn & Hs).
  unfold format_date. cbn [truthy isna str orb negb].
  destruct (strftime pad_year (Date y m d)) as [|c0 s0] eqn:E; [done|].
  cbn [nonempty negb]. rewrite (strip_plain _ Hc), (plain_no_rewrite _ Hc).
  unfold date_formats. cbn [try_formats]. rewrite Hs.
  replace (has_year "%Y-%m-%d") with true by (vm_compute; reflexivity).
  by rewrite E.
Qed.

(** The ninth of June 2025. *)
Lemma canonical_date_fixed_witness :
  format_date 2030 false (SStr "2025-06-09") = "2025-06-09".
Proof.
  apply (canonical_date_fixed 2030 false 2025 6 9); [reflexivity|right; lia].
Defined.

(** The loop over the formats stops at the first format that reads the
    text; a format without a year gives the date the current year. *)
Lemma try_formats_first this_year pad_year s formats :
  try_formats this_year pad_year s formats
  = match first_format s formats with
    | Some (fmt, t) =>
        Some (strftime pad_year
                (if has_year fmt then t else Date this_year (month t) (day t)))
    | None => None
    end.
Proof.
  induction formats as [|fmt rest IH]; [done|]. cbn [try_formats first_format].
  by destruct (strptime s fmt).
Qed.

Lemma as_written_rewritten s : as_written s = true -> rewritten (strip s) = s /\ s <> "".
Proof.
  unfold as_written. intros [[H1 H2]%andb_true_iff H3]%andb_true_iff.
  apply String.eqb_eq in H1. rewrite H1, (rewritten_id _ H3). split; [done|].
  by destruct s.
Qed.

(** Every way to write every day of the year 1900, and 29 February. *)
Lemma days_of_1900 :
  forallb (fun m => forallb (fun d =>
     implb (valid_date 1900 m d) (forallb (read_without_year m d) (year_less_texts m d)))
     (List.seq 0 40)) (List.seq 0 20) = true.
Proof. vm_compute. reflexivity. Qed.

Lemma leap_day : forallb unread (year_less_texts 2 29) = true.
Proof. vm_compute. reflexivity. Qed.

(** X22.  A day of the year written without a year -- the day with or
    without a leading zero, before or after the English name of the month
    or its abbreviation of three letters, in lower case, capitalised or in
    upper case -- is given the current year: for every day of the calendar
    but the 29th of February, each of these texts is formatted as that day
    of the current year.  Written in any of these ways, the 29th of
    February is read by no format, leap year or not, and comes back as it
    was written. *)
Theorem format_date_current_year this_year pad_year :
  (forall m d s, valid_date 1900 m d = true -> In s (year_less_texts m d) ->
     format_date this_year pad_year (SStr s) = strftime pad_year (Date this_year m d)) /\
  (forall s, In s (year_less_texts 2 29) -> format_date this_year pad_year (SStr s) = s).
Proof.
  split.
  - intros m d s V Hs. destruct (valid_date_bounds _ _ _ V) as (_ & _ & Hm & Hd).
    pose proof (proj1 (forallb_forall _ _) days_of_1900 m ltac:(apply in_seq; lia)) as F.
    cbv beta in F.
    pose proof (proj1 (forallb_forall _ _) F d ltac:(apply in_seq; lia)) as G.
    cbv beta in G. rewrite V in G. cbn [implb] in G.
    pose proof (proj1 (forallb_forall _ _) G s Hs) as R. clear F G.
    unfold read_without_year in R. apply andb_true_iff in R as [W R].
    destruct (as_written_rewritten s W) as [E Hne].
    unfold format_date. cbn [truthy isna str orb negb].
    destruct s as [|c0 s0] eqn:Es; [done|]. cbn [nonempty negb]. rewrite E.
    rewrite try_formats_first.
    destruct (first_format _ date_formats) as [[fmt t]|]; [|done].
    apply andb_true_iff in R as [[R1 R2]%andb_true_iff R3].
    apply negb_true_iff in R1. apply Nat.eqb_eq in R2, R3. by rewrite R1, R2, R3.
  - intros s Hs.
    pose proof (proj1 (forallb_forall _ _) leap_day s Hs) as R.
    unfold unread in R. apply andb_true_iff in R as [[W R1]%andb_true_iff R2].
    apply bool_decide_eq_true in R1, R2.
    destruct (as_written_rewritten s W) as [E Hne].
    unfold format_date. cbn [truthy isna str orb negb].
    destruct s as [|c0 s0] eqn:Es; [done|]. cbn [nonempty negb]. rewrite E.
    rewrite try_formats_first, R1. unfold weekday_fallback. by rewrite R2.
Qed.

(** The ninth of June, and June the ninth. *)
Lemma format_date_current_year_witness :
  format_date 2030 false (SStr "9 June") = "2030-06-09" /\
  format_date 2030 false (SStr "JUN 09") = "2030-06-09".
Proof.
  destruct (format_date_current_year 2030 false) as [H _].
  split.
  - apply (H 6 9 "9 June"); [reflexivity|]. vm_compute. tauto.
  - apply (H 6 9 "JUN 09"); [reflexivity|]. vm_compute. tauto.
Defined.

End DateLaws.
